(** * VTQ CSV validator: a shallow embedding of [ValidateVtqCsv/validator.py]

    The development follows the layout of the Python module: the
    interpreter services the validator relies on (text, [str.strip],
    [datetime], [re], [csv.reader]) come first, each in a module of its
    own, then the specification constants, the helpers, the field and
    record validators and the CSV entry points, then the CSV entry points
    once more with the objects they change in place on an explicit heap,
    the two HTTP entry points of [ValidateVtqCsv/__init__.py] and
    [vtq-function-app/function_app.py], and finally the theorems. *)

From Stdlib Require Import List ZArith NArith QArith Bool String Ascii Lia.
From Stdlib Require Import DecimalString.
From Stdlib Require Import Strings.Byte.
From Stdlib Require Import Sorted.
Import ListNotations.

(* ===================================================================== *)
(** ** Python text                                                        *)
(* ===================================================================== *)

(** A Python [str] is a sequence of Unicode code points. *)
Definition char := N.
Definition str := list char.

(** String literals of the source are ASCII; [lit] reads one. *)
Definition lit (s : string) : str := map N_of_ascii (list_ascii_of_string s).

Fixpoint eqb_str (a b : str) : bool :=
  match a, b with
  | [], [] => true
  | x :: a', y :: b' => N.eqb x y && eqb_str a' b'
  | _, _ => false
  end.

(** [x in xs] for a list, tuple or set of strings. *)
Definition mem_str (x : str) (xs : list str) : bool := existsb (eqb_str x) xs.

(** [a in b] for two strings: substring test. *)
Fixpoint is_prefix (a b : str) : bool :=
  match a, b with
  | [], _ => true
  | x :: a', y :: b' => N.eqb x y && is_prefix a' b'
  | _ :: _, [] => false
  end.

Fixpoint contains (b a : str) : bool :=
  is_prefix a b || match b with [] => false | _ :: b' => contains b' a end.

(** Character tests written with the characters of the source. *)
Definition in_range (lo hi : string) (c : char) : bool :=
  match lit lo, lit hi with
  | [l], [h] => ((l <=? c) && (c <=? h))%N
  | _, _ => false
  end.

Definition is_char (a : string) (c : char) : bool :=
  match lit a with [x] => (c =? x)%N | _ => false end.

(** [str.isspace] on one code point: the interpreter's whitespace table
    (bidirectional classes WS, B, S and category Zs). *)
Definition isspace (c : char) : bool :=
  ((9 <=? c) && (c <=? 13) || (28 <=? c) && (c <=? 32)
   || (c =? 0x85) || (c =? 0xA0) || (c =? 0x1680)
   || (0x2000 <=? c) && (c <=? 0x200A)
   || (c =? 0x2028) || (c =? 0x2029) || (c =? 0x202F)
   || (c =? 0x205F) || (c =? 0x3000))%N.

Fixpoint lstrip_by (p : char -> bool) (s : str) : str :=
  match s with
  | c :: s' => if p c then lstrip_by p s' else s
  | [] => []
  end.

Definition rstrip_by (p : char -> bool) (s : str) : str :=
  rev (lstrip_by p (rev s)).

Definition strip_by (p : char -> bool) (s : str) : str :=
  rstrip_by p (lstrip_by p s).

(** [s.strip()] *)
Definition strip (s : str) : str := strip_by isspace s.

(** [s.strip(chars)] *)
Definition strip_chars (chars s : str) : str :=
  strip_by (fun c => existsb (N.eqb c) chars) s.

(** [str(n)] for an integer. *)
Definition str_of_Z (n : Z) : str :=
  lit (NilZero.string_of_int (Z.to_int n)).

(** [sep.join(xs)] *)
Fixpoint join (sep : str) (xs : list str) : str :=
  match xs with
  | [] => []
  | [x] => x
  | x :: xs' => x ++ sep ++ join sep xs'
  end.

(** Lexicographic order on code points, the order [sorted] uses. *)
Fixpoint leb_str (a b : str) : bool :=
  match a, b with
  | [], _ => true
  | _ :: _, [] => false
  | x :: a', y :: b' => (x <? y)%N || (x =? y)%N && leb_str a' b'
  end.

Fixpoint insert_sorted (x : str) (xs : list str) : list str :=
  match xs with
  | [] => [x]
  | y :: ys => if leb_str x y then x :: xs else y :: insert_sorted x ys
  end.

(** [sorted(xs)] for strings. *)
Definition sorted (xs : list str) : list str := fold_right insert_sorted [] xs.

(** What the validator takes from the interpreter's Unicode database and
    formatting machinery: the decimal value of a digit character (what
    [\d] matches and [int] reads) and [repr] of a string. *)
Class PyRuntime := {
  decimal_value : char -> option Z;
  repr : str -> str
}.

(** [repr] of a list of strings: ['[' + ', '.join(repr(x)) + ']']. *)
Definition repr_list `{PyRuntime} (xs : list str) : str :=
  lit "[" ++ join (lit ", ") (map repr xs) ++ lit "]".

Definition isdecimal `{PyRuntime} (c : char) : bool :=
  match decimal_value c with Some _ => true | None => false end.

(** [int(s)] on text made of digits, surrounding whitespace allowed. *)
Definition py_int `{PyRuntime} (s : str) : option Z :=
  match strip s with
  | [] => None
  | ds =>
      fold_left
        (fun acc c =>
           match acc, decimal_value c with
           | Some n, Some d => Some (10 * n + d)%Z
           | _, _ => None
           end)
        ds (Some 0%Z)
  end.

(* ===================================================================== *)
(** ** [datetime.date] and [datetime.strptime]                            *)
(* ===================================================================== *)

Module Datetime.

Record date := mkdate { year : Z; month : Z; day : Z }.

Local Open Scope Z_scope.

Definition is_leap (y : Z) : bool :=
  (y mod 4 =? 0) && (negb (y mod 100 =? 0) || (y mod 400 =? 0)).

Definition days_in_month (y m : Z) : Z :=
  if m =? 2 then (if is_leap y then 29 else 28)
  else if (m =? 4) || (m =? 6) || (m =? 9) || (m =? 11) then 30
  else 31.

(** [date(y, m, d)]: [None] stands for the [ValueError] of the
    constructor ([MINYEAR = 1], [MAXYEAR = 9999]). *)
Definition date_new (y m d : Z) : option date :=
  if (1 <=? y) && (y <=? 9999) && (1 <=? m) && (m <=? 12)
     && (1 <=? d) && (d <=? days_in_month y m)
  then Some (mkdate y m d) else None.

Definition days_before_year (y : Z) : Z :=
  let p := y - 1 in p * 365 + p / 4 - p / 100 + p / 400.

Definition days_before_month (y m : Z) : Z :=
  nth (Z.to_nat m) [0; 0; 31; 59; 90; 120; 151; 181; 212; 243; 273; 304; 334] 0
  + (if (2 <? m) && is_leap y then 1 else 0).

Definition toordinal (d : date) : Z :=
  days_before_year (year d) + days_before_month (year d) (month d) + day d.

(** [a < b] on dates compares (year, month, day). *)
Definition date_ltb (a b : date) : bool :=
  (year a <? year b)
  || (year a =? year b)
     && ((month a <? month b) || (month a =? month b) && (day a <? day b)).

(** [(a - b).days] *)
Definition days_between (a b : date) : Z := toordinal a - toordinal b.

(** The regular expression [_strptime] builds from a format is run by a
    backtracking matcher; a [matcher] lists, in the order the matcher tries
    them, the ways a pattern can consume a prefix: the text captured and
    the text left. The expression is compiled ignoring case, which changes
    nothing for digits, spaces, [-] and [/]. *)
Definition matcher := str -> list (str * str).

Definition one (p : char -> bool) : matcher :=
  fun s => match s with
           | c :: r => if p c then [([c], r)] else []
           | [] => []
           end.

Definition cat (a b : matcher) : matcher :=
  fun s => flat_map (fun xr => map (fun yr => (fst xr ++ fst yr, snd yr))
                                   (b (snd xr))) (a s).

Definition alt (a b : matcher) : matcher := fun s => a s ++ b s.

Fixpoint match_seq (ms : list matcher) (s : str) : list (list str * str) :=
  match ms with
  | [] => [([], s)]
  | m :: ms' =>
      flat_map (fun xr => map (fun xsr => (fst xr :: fst xsr, snd xsr))
                              (match_seq ms' (snd xr))) (m s)
  end.

Section Strptime.
Context `{PyRuntime}.

(** [%Y]: [\d\d\d\d] *)
Definition directive_Y : matcher :=
  cat (one isdecimal) (cat (one isdecimal) (cat (one isdecimal) (one isdecimal))).

(** [%m]: [1[0-2]|0[1-9]|[1-9]] *)
Definition directive_m : matcher :=
  alt (cat (one (is_char "1")) (one (in_range "0" "2")))
      (alt (cat (one (is_char "0")) (one (in_range "1" "9")))
           (one (in_range "1" "9"))).

(** [%d]: [3[0-1]|[1-2]\d|0[1-9]|[1-9]| [1-9]] *)
Definition directive_d : matcher :=
  alt (cat (one (is_char "3")) (one (in_range "0" "1")))
      (alt (cat (one (in_range "1" "2")) (one isdecimal))
           (alt (cat (one (is_char "0")) (one (in_range "1" "9")))
                (alt (one (in_range "1" "9"))
                     (cat (one (is_char " ")) (one (in_range "1" "9")))))).

(** The two formats of [DATE_FORMATS]. *)
Inductive format := ISO_FORMAT | DMY_FORMAT.

Definition format_regex (f : format) : list matcher :=
  match f with
  | ISO_FORMAT => [directive_Y; one (is_char "-"); directive_m;
                   one (is_char "-"); directive_d]
  | DMY_FORMAT => [directive_d; one (is_char "/"); directive_m;
                   one (is_char "/"); directive_Y]
  end.

(** The (year, month, day) groups of a match. *)
Definition groups (f : format) (caps : list str) : option (str * str * str) :=
  match f, caps with
  | ISO_FORMAT, [y; _; m; _; d] => Some (y, m, d)
  | DMY_FORMAT, [d; _; m; _; y] => Some (y, m, d)
  | _, _ => None
  end.

(** [datetime.strptime(v, fmt).date()]; [None] is [ValueError]: the
    regular expression does not match at the start of [v], or text is
    left after the match, or the numbers are not a calendar date. *)
Definition strptime (v : str) (f : format) : option date :=
  match match_seq (format_regex f) v with
  | [] => None
  | (caps, rest) :: _ =>
      match rest with
      | _ :: _ => None
      | [] =>
          match groups f caps with
          | Some (y, m, d) =>
              match py_int y, py_int m, py_int d with
              | Some yy, Some mm, Some dd => date_new yy mm dd
              | _, _, _ => None
              end
          | None => None
          end
      end
  end.
End Strptime.

End Datetime.

(* ===================================================================== *)
(** ** [re.match]                                                         *)
(* ===================================================================== *)

Module Re.

(** The patterns of the validator use literals, character classes,
    concatenation, alternation and bounded or unbounded repetition; for
    those, whether [re.match] finds a match is membership in the language of
    the pattern, decided here with derivatives. *)
Inductive regex :=
| Empty
| Eps
| Class (p : char -> bool)
| Cat (a b : regex)
| Alt (a b : regex)
| Star (a : regex).

Fixpoint nullable (r : regex) : bool :=
  match r with
  | Empty => false
  | Eps => true
  | Class _ => false
  | Cat a b => nullable a && nullable b
  | Alt a b => nullable a || nullable b
  | Star _ => true
  end.

Fixpoint deriv (c : char) (r : regex) : regex :=
  match r with
  | Empty => Empty
  | Eps => Empty
  | Class p => if p c then Eps else Empty
  | Cat a b =>
      if nullable a then Alt (Cat (deriv c a) b) (deriv c b)
      else Cat (deriv c a) b
  | Alt a b => Alt (deriv c a) (deriv c b)
  | Star a => Cat (deriv c a) (Star a)
  end.

Definition fullmatch (r : regex) (s : str) : bool :=
  nullable (fold_left (fun r c => deriv c r) s r).

(** [a{n}] *)
Fixpoint times (n : nat) (a : regex) : regex :=
  match n with
  | O => Eps
  | S n' => Cat a (times n' a)
  end.

(** [a?] *)
Definition opt (a : regex) : regex := Alt a Eps.

(** [a{m,n}] with [n = m + k] *)
Fixpoint upto (k : nat) (a : regex) : regex :=
  match k with
  | O => Eps
  | S k' => opt (Cat a (upto k' a))
  end.

Definition between (m k : nat) (a : regex) : regex := Cat (times m a) (upto k a).

(** A literal word. *)
Definition word (w : string) : regex :=
  fold_right (fun c r => Cat (Class (N.eqb c)) r) Eps (lit w).

Definition alternatives (rs : list regex) : regex := fold_right Alt Empty rs.

Definition sequence (rs : list regex) : regex := fold_right Cat Eps rs.

(** A pattern of the source: its text, which the messages quote, and the
    expression between its [^] and [$]. *)
Record pattern := mkpattern { source : str; body : regex }.

(** [re.match(p, v)] for a pattern [^body$]: the match starts at the start
    of [v], and [$] holds at the end of [v] or just before a newline that
    ends [v]. *)
Definition re_match (p : pattern) (v : str) : bool :=
  fullmatch (body p) v
  || match rev v with
     | c :: w => (c =? 10)%N && fullmatch (body p) (rev w)
     | [] => false
     end.

End Re.

(* ===================================================================== *)
(** ** [csv.reader] over [io.StringIO]                                    *)
(* ===================================================================== *)

Module Csv.

(** The reader of the [csv] module with the default dialect: a comma
    as delimiter, the double quote as quote character, doubled quotes, no escape character, spaces
    kept, not strict. Without an escape character the two escape states of
    the parser are never entered and are left out. NUL characters are
    ordinary characters, as they are from CPython 3.11 on. *)
Inductive ParserState :=
| START_RECORD
| START_FIELD
| IN_FIELD
| IN_QUOTED_FIELD
| QUOTE_IN_QUOTED_FIELD
| EAT_CRNL.

Definition ParserState_eqb (a b : ParserState) : bool :=
  match a, b with
  | START_RECORD, START_RECORD | START_FIELD, START_FIELD
  | IN_FIELD, IN_FIELD | IN_QUOTED_FIELD, IN_QUOTED_FIELD
  | QUOTE_IN_QUOTED_FIELD, QUOTE_IN_QUOTED_FIELD | EAT_CRNL, EAT_CRNL => true
  | _, _ => false
  end.

(** What the parser is fed: the characters of a line, then the end-of-line
    mark. *)
Inductive input := Chr (c : char) | EOL.

(** The reader object; [field] holds the characters of the current field,
    last one first. *)
Record ReaderObj := mkReader {
  state : ParserState;
  field : str;
  field_len : Z;
  fields : list str
}.

Definition field_limit : Z := 128 * 1024.

Definition delimiter : char := 44%N.
Definition quotechar : char := 34%N.
Definition LF : char := 10%N.
Definition CR : char := 13%N.

Definition set_state (r : ReaderObj) (s : ParserState) : ReaderObj :=
  mkReader s (field r) (field_len r) (fields r).

Definition parse_reset : ReaderObj := mkReader START_RECORD [] 0 [].

Definition parse_save_field (r : ReaderObj) : ReaderObj :=
  mkReader (state r) [] 0 (fields r ++ [rev (field r)]).

(** [None] is [csv.Error]: field larger than field limit. *)
Definition parse_add_char (r : ReaderObj) (c : char) : option ReaderObj :=
  if (field_limit <=? field_len r)%Z then None
  else Some (mkReader (state r) (c :: field r) (field_len r + 1) (fields r)).

Definition is_newline (i : input) : bool :=
  match i with
  | Chr c => (c =? LF)%N || (c =? CR)%N
  | EOL => false
  end.

Definition is_chr (x : char) (i : input) : bool :=
  match i with
  | Chr c => (c =? x)%N
  | EOL => false
  end.

Definition after_line_end (i : input) : ParserState :=
  match i with EOL => START_RECORD | Chr _ => EAT_CRNL end.

Definition start_field (r : ReaderObj) (i : input) : option ReaderObj :=
  match i with
  | EOL => Some (set_state (parse_save_field r) START_RECORD)
  | Chr c =>
      if (c =? LF)%N || (c =? CR)%N then Some (set_state (parse_save_field r) EAT_CRNL)
      else if (c =? quotechar)%N then Some (set_state r IN_QUOTED_FIELD)
      else if (c =? delimiter)%N then Some (parse_save_field r)
      else option_map (fun r' => set_state r' IN_FIELD) (parse_add_char r c)
  end.

(** [None] is [csv.Error]. *)
Definition parse_process_char (r : ReaderObj) (i : input) : option ReaderObj :=
  match state r with
  | START_RECORD =>
      match i with
      | EOL => Some r
      | Chr c =>
          if (c =? LF)%N || (c =? CR)%N then Some (set_state r EAT_CRNL)
          else start_field (set_state r START_FIELD) i
      end
  | START_FIELD => start_field r i
  | IN_FIELD =>
      match i with
      | EOL => Some (set_state (parse_save_field r) START_RECORD)
      | Chr c =>
          if (c =? LF)%N || (c =? CR)%N then Some (set_state (parse_save_field r) EAT_CRNL)
          else if (c =? delimiter)%N then Some (set_state (parse_save_field r) START_FIELD)
          else parse_add_char r c
      end
  | IN_QUOTED_FIELD =>
      match i with
      | EOL => Some r
      | Chr c =>
          if (c =? quotechar)%N then Some (set_state r QUOTE_IN_QUOTED_FIELD)
          else parse_add_char r c
      end
  | QUOTE_IN_QUOTED_FIELD =>
      match i with
      | EOL => Some (set_state (parse_save_field r) START_RECORD)
      | Chr c =>
          if (c =? quotechar)%N
          then option_map (fun r' => set_state r' IN_QUOTED_FIELD) (parse_add_char r c)
          else if (c =? delimiter)%N then Some (set_state (parse_save_field r) START_FIELD)
          else if (c =? LF)%N || (c =? CR)%N then Some (set_state (parse_save_field r) EAT_CRNL)
          else option_map (fun r' => set_state r' IN_FIELD) (parse_add_char r c)
      end
  | EAT_CRNL =>
      match i with
      | EOL => Some (set_state r START_RECORD)
      | Chr c => if (c =? LF)%N || (c =? CR)%N then Some r else None
      end
  end.

Fixpoint process (r : ReaderObj) (l : list input) : option ReaderObj :=
  match l with
  | [] => Some r
  | i :: l' =>
      match parse_process_char r i with
      | Some r' => process r' l'
      | None => None
      end
  end.

(** The lines [io.StringIO] hands out: each ends with its newline, the last
    one possibly without. *)
Fixpoint lines_from (cur : str) (s : str) : list str :=
  match s with
  | [] => match cur with [] => [] | _ => [rev cur] end
  | c :: s' =>
      if (c =? LF)%N then rev (c :: cur) :: lines_from [] s'
      else lines_from (c :: cur) s'
  end.

Definition readlines (text : str) : list str := lines_from [] text.

(** The rows the reader yields until the lines run out; [None] when
    [csv.Error] is raised on the way. A row is returned when the parser is
    back at [START_RECORD] after a line; when the lines end inside a quoted
    field the pending field is saved and the row returned. *)
Fixpoint rows_from (r : ReaderObj) (lines : list str) : option (list (list str)) :=
  match lines with
  | [] =>
      if negb (field_len r =? 0)%Z || ParserState_eqb (state r) IN_QUOTED_FIELD
      then Some [fields (parse_save_field r)]
      else Some []
  | line :: rest =>
      match process r (map Chr line ++ [EOL]) with
      | None => None
      | Some r' =>
          if ParserState_eqb (state r') START_RECORD
          then option_map (cons (fields r')) (rows_from parse_reset rest)
          else rows_from r' rest
      end
  end.

(** [list(csv.reader(io.StringIO(text)))] *)
Definition reader (text : str) : option (list (list str)) :=
  rows_from parse_reset (readlines text).

End Csv.

(* ===================================================================== *)
(** ** Specification constants                                            *)
(* ===================================================================== *)

Definition EXPECTED_COLUMNS : list str := map lit [
  "RecordType"; "UniqueCandidateIdentifier"; "UniqueLearnerNumber";
  "UniquePupilNumber"; "CandidateIdentifierOther"; "FirstName";
  "MiddleNames"; "Surname"; "Sex"; "DOB"; "NCN"; "CentreURN"; "LAESTAB";
  "CentreIdentifierOther"; "UKPRN"; "CentreName"; "CentreAddress1";
  "CentreAddress2"; "CentreAddress3"; "CentreAddress4"; "CentrePostcode";
  "CentreType"; "QualificationNumberType"; "QualificationNumber";
  "SpecificationCode"; "SpecificationTitle"; "QualificationType";
  "ExamSeries"; "RegistrationDate"; "FirstEntryDate"; "AwardDate";
  "QualificationGrade"; "PrivateCandidate"; "PartialAbsence"
]%string.

Definition SENTINEL_DATES : list str := map lit ["2999-12-31"; "31/12/2999"]%string.

Definition QUALIFICATION_TYPE_VALUES : list str := map lit [
  "Alternative Academic Qualification";
  "Apprenticeship Assessment Qualification";
  "Digital Functional Skills Qualification";
  "End-Point Assessment";
  "English For Speakers of Other Languages";
  "Essential Digital Skills";
  "Essential Skills (Northern Ireland)";
  "Functional Skills";
  "Key Skills";
  "Occupational Qualification";
  "Other General Qualification";
  "Other Vocational Qualification";
  "Other Life Skills Qualification";
  "Performing Arts Graded Examination";
  "QCF";
  "Technical Occupation Qualification";
  "Technical Qualification";
  "Vocationally-Related Qualification"
]%string.

Module FieldSpec.
Record t := mk {
  name : str;
  mandatory : bool;
  allow_minus2 : bool;
  length : option Z;
  min_length : option Z;
  max_length : option Z;
  allowed_values : option (list str);
  pattern : option Re.pattern;
  type : option str
}.
End FieldSpec.

(** Fields where -2 is explicitly allowed by the exclusions doc. *)
Definition EXCLUSION_MINUS2_FIELDS : list str := map lit [
  "UKPRN"; "UniqueCandidateIdentifier"; "UniqueLearnerNumber";
  "UniquePupilNumber"; "NCN"; "CentreURN"; "LAESTAB"; "SpecificationCode";
  "ExamSeries"; "QualificationGrade"; "PrivateCandidate"; "PartialAbsence"
]%string.

Definition DATE_FORMATS : list Datetime.format :=
  [Datetime.ISO_FORMAT; Datetime.DMY_FORMAT].

Record ValidationError := mkError {
  row_number : Z;
  field : str;
  error_code : str;
  message : str;
  value : str
}.

(** A [dict] with string keys, as the list of its items; [dict_get] is
    [d.get(k)]. *)
Definition dict (V : Type) := list (str * V).

Fixpoint dict_get {V : Type} (d : dict V) (k : str) : option V :=
  match d with
  | [] => None
  | (k', v) :: d' => if eqb_str k k' then Some v else dict_get d' k
  end.

(** [x or ""] for an optional string. *)
Definition or_empty (x : option str) : str :=
  match x with Some v => v | None => [] end.

Section Patterns.
Context `{PyRuntime}.

Import Re.

Definition upper : regex := Class (in_range "A" "Z").
Definition digit : regex := Class isdecimal.
Definition space : regex := Class isspace.
Definition upper_or_ascii_digit : regex :=
  Class (fun c => in_range "A" "Z" c || in_range "0" "9" c).
Definition upper_or_digit : regex :=
  Class (fun c => in_range "A" "Z" c || isdecimal c).

(** [[AC-FHKNPRTV-Y]] *)
Definition irish_letter (c : char) : bool :=
  is_char "A" c || in_range "C" "F" c || is_char "H" c || is_char "K" c
  || is_char "N" c || is_char "P" c || is_char "R" c || is_char "T" c
  || in_range "V" "Y" c.

Definition UK_POSTCODE_RE : regex :=
  sequence [between 1 1 upper; digit; opt upper_or_digit; Star space;
            digit; times 2 upper].

Definition BFPO_POSTCODE_RE : regex :=
  sequence [word "BFPO"; Star space; between 1 3 digit].

Definition IRISH_POSTCODE_RE : regex :=
  sequence [Class irish_letter; between 1 1 digit;
            opt (Class (fun c => in_range "0" "9" c || in_range "A" "Z" c));
            Star space;
            times 4 (Class (fun c => in_range "0" "9" c || irish_letter c))].

Definition CENTRE_POSTCODE_RE : pattern :=
  mkpattern
    (lit "^([A-Z]{1,2}\d[A-Z\d]?\s*\d[A-Z]{2}|BFPO\s*\d{1,4}|[AC-FHKNPRTV-Y]\d{1,2}[0-9A-Z]?\s*[0-9AC-FHKNPRTV-Y]{4})$")
    (alternatives [UK_POSTCODE_RE; BFPO_POSTCODE_RE; IRISH_POSTCODE_RE]).

Definition EXAM_SERIES_RE : pattern :=
  mkpattern
    (lit "^(January|February|March|April|May|June|July|August|September|October|November|December) \d{4}$")
    (sequence
       [alternatives (map word ["January"; "February"; "March"; "April";
                                "May"; "June"; "July"; "August"; "September";
                                "October"; "November"; "December"]%string);
        word " "; times 4 digit]).

End Patterns.

(* ===================================================================== *)
(** ** The field specification table                                      *)
(* ===================================================================== *)

Section Table.
Context `{PyRuntime}.

Import Re.

(** One item of [FIELD_SPECS]: the key and the [FieldSpec] built with the
    arguments [name], [mandatory], [allow_minus2], [length], [min_length],
    [max_length], [allowed_values], [pattern] and [type], in that order. *)
Definition field_spec (name : string) (mandatory allow_minus2 : bool)
  (length min_length max_length : option Z)
  (allowed_values : option (list str)) (pattern : option Re.pattern)
  (type : option str) : str * FieldSpec.t :=
  (lit name,
   FieldSpec.mk (lit name) mandatory allow_minus2 length min_length max_length
                allowed_values pattern type).

Definition FIELD_SPECS : dict FieldSpec.t := [
  field_spec "RecordType" true false None None None
    (Some (map lit ["Entry"; "Result"; "Amendment"; "Deletion"]%string))
    None
    None;
  field_spec "UniqueCandidateIdentifier" false true (Some 13%Z) None None
    None
    (Some (mkpattern (lit "^[A-Z0-9]{13}$") (times 13 upper_or_ascii_digit)))
    None;
  field_spec "UniqueLearnerNumber" false true (Some 10%Z) None None
    None
    (Some (mkpattern (lit "^\d{10}$") (times 10 digit)))
    None;
  field_spec "UniquePupilNumber" false true (Some 13%Z) None None
    None
    (Some (mkpattern (lit "^[A-Z0-9]{13}$") (times 13 upper_or_ascii_digit)))
    None;
  field_spec "CandidateIdentifierOther" false true None (Some 1%Z) (Some 20%Z)
    None
    None
    None;
  field_spec "FirstName" true false None (Some 1%Z) (Some 150%Z)
    None
    None
    None;
  field_spec "MiddleNames" false false None (Some 1%Z) (Some 150%Z)
    None
    None
    None;
  field_spec "Surname" true false None (Some 1%Z) (Some 150%Z)
    None
    None
    None;
  field_spec "Sex" true true None None None
    (Some (map lit ["M"; "F"]%string))
    None
    None;
  field_spec "DOB" false false None None None
    None
    None
    (Some (lit "date"));
  field_spec "NCN" true true (Some 5%Z) None None
    None
    (Some (mkpattern (lit "^\d{5}$") (times 5 digit)))
    None;
  field_spec "CentreURN" true true (Some 6%Z) None None
    None
    (Some (mkpattern (lit "^\d{6}$") (times 6 digit)))
    None;
  field_spec "LAESTAB" true true (Some 8%Z) None None
    None
    None
    None;
  field_spec "CentreIdentifierOther" true true None (Some 1%Z) (Some 15%Z)
    None
    None
    None;
  field_spec "UKPRN" true true (Some 8%Z) None None
    None
    (Some (mkpattern (lit "^\d{8}$") (times 8 digit)))
    None;
  field_spec "CentreName" false false None (Some 1%Z) (Some 150%Z)
    None
    None
    None;
  field_spec "CentreAddress1" false false None (Some 1%Z) (Some 150%Z)
    None
    None
    None;
  field_spec "CentreAddress2" false false None (Some 1%Z) (Some 150%Z)
    None
    None
    None;
  field_spec "CentreAddress3" false false None (Some 1%Z) (Some 150%Z)
    None
    None
    None;
  field_spec "CentreAddress4" false false None (Some 1%Z) (Some 150%Z)
    None
    None
    None;
  field_spec "CentrePostcode" true true None None None
    None
    (Some CENTRE_POSTCODE_RE)
    None;
  field_spec "CentreType" true true None None None
    (Some (map str_of_Z [1; 2; 3; 4; 5; 6; 7; 8; 9; 10; 11; 12; 13]%Z))
    None
    None;
  field_spec "QualificationNumberType" true false None None None
    (Some (map lit ["QAN"; "Other"]%string))
    None
    None;
  field_spec "QualificationNumber" true false None (Some 1%Z) (Some 10%Z)
    None
    None
    None;
  field_spec "SpecificationCode" true true None (Some 1%Z) (Some 20%Z)
    None
    None
    None;
  field_spec "SpecificationTitle" true false None (Some 1%Z) (Some 250%Z)
    None
    None
    None;
  field_spec "QualificationType" true false None None None
    (Some QUALIFICATION_TYPE_VALUES)
    None
    None;
  field_spec "ExamSeries" true true None None None
    None
    (Some EXAM_SERIES_RE)
    None;
  field_spec "RegistrationDate" true false None None None
    None
    None
    (Some (lit "date"));
  field_spec "FirstEntryDate" false false None None None
    None
    None
    (Some (lit "date"));
  field_spec "AwardDate" false false None None None
    None
    None
    (Some (lit "date"));
  field_spec "QualificationGrade" false true None (Some 1%Z) (Some 20%Z)
    None
    None
    None;
  field_spec "PrivateCandidate" true true None None None
    (Some (map lit ["0"; "1"]%string))
    None
    None;
  field_spec "PartialAbsence" true true None None None
    (Some (map lit ["0"; "1"]%string))
    None
    None
].

End Table.

(* ===================================================================== *)
(** ** Helpers                                                            *)
(* ===================================================================== *)

Section Validator.
Context `{PyRuntime}.

Import Datetime.

Fixpoint try_formats (v : str) (fmts : list format) : option date * bool :=
  match fmts with
  | [] => (None, false)
  | fmt :: rest =>
      match strptime v fmt with
      | Some dt => (Some dt, false)
      | None => try_formats v rest
      end
  end.

(** Parse date string into a date or mark as sentinel.
    Returns [(date_obj, is_sentinel)]. *)
Definition parse_date (value : str) : option date * bool :=
  let v := strip value in
  if eqb_str v [] then (None, false)
  else if mem_str v SENTINEL_DATES then (None, true)
  else try_formats v DATE_FORMATS.

(** Exclusions are checked after a rule is violated; [true] suppresses the
    error. *)
Definition is_permitted_exclusion (field value error_code : str) : bool :=
  let v := strip value in
  if eqb_str v (lit "-2") && mem_str field EXCLUSION_MINUS2_FIELDS then true
  else if eqb_str field (lit "QualificationNumber") && contains v (lit "/x") then true
  else if eqb_str field (lit "MiddleNames") && eqb_str v [] then true
  else if eqb_str field (lit "Sex") && eqb_str v [] then true
  else false.

(** [a < b] on the rationals that stand for the floats of the age test:
    the quotient of a day count by 365.25 is never so close to 5 or 80 that
    rounding changes the comparison. *)
Definition Qltb (a b : Q) : bool := negb (Qle_bool b a).

(** [(today - dt).days / 365.25] *)
Definition age_in_years (today dt : date) : Q :=
  inject_Z (days_between today dt) / (36525 # 100).

Definition len {A : Type} (v : list A) : Z := Z.of_nat (List.length v).

(** Validate a single field against [FIELD_SPECS] and the date rules;
    returns the list of (error_code, message). [today] is what
    [date.today()] returns in the age test. *)
Definition validate_field (today : date) (field value record_type : str)
  : list (str * str) :=
  let v := strip value in
  let is_blank := eqb_str v [] in
  let conditional_mandatory :=
    map lit ["FirstEntryDate"; "AwardDate"; "QualificationGrade"]%string in
  match dict_get FIELD_SPECS field with
  | None => []
  | Some spec =>
      if FieldSpec.mandatory spec && negb (mem_str field conditional_mandatory)
         && is_blank
      then [(lit "MISSING", lit "Mandatory field is blank")]
      else if is_blank then []
      else if eqb_str v (lit "-2") && FieldSpec.allow_minus2 spec then []
      else if match FieldSpec.type spec with
              | Some t => eqb_str t (lit "date")
              | None => false
              end
      then
        match parse_date v with
        | (None, false) =>
            [(lit "DATE_FORMAT", lit "Invalid date format: " ++ repr v)]
        | (None, true) => []
        | (Some dt, _) =>
            (if date_ltb dt (mkdate 1900 1 1)
             then [(lit "DATE_RANGE",
                    lit "Date " ++ repr v ++ lit " must be on or after 1900-01-01")]
             else [])
            ++ (if eqb_str field (lit "DOB")
                then
                  let age := age_in_years today dt in
                  if Qltb age 5 || Qltb 80 age
                  then [(lit "DATE_RANGE",
                         lit "Age from DOB " ++ repr v
                         ++ lit " must be between 5 and 80 years")]
                  else []
                else [])
        end
      else
        (match FieldSpec.allowed_values spec with
         | Some allowed =>
             if negb (mem_str v allowed)
             then [(lit "VALUE",
                    lit "Value " ++ repr v ++ lit " not in allowed set: "
                    ++ repr_list (sorted allowed))]
             else []
         | None => []
         end)
        ++ (match FieldSpec.pattern spec with
            | Some p =>
                if negb (eqb_str (Re.source p) []) && negb (Re.re_match p v)
                then [(lit "PATTERN",
                       lit "Value " ++ repr v ++ lit " does not match pattern "
                       ++ repr (Re.source p))]
                else []
            | None => []
            end)
        ++ (match FieldSpec.length spec with
            | Some n =>
                if negb (len v =? n)%Z
                then [(lit "LENGTH",
                       lit "Value " ++ repr v ++ lit " must be exactly "
                       ++ str_of_Z n ++ lit " characters")]
                else []
            | None => []
            end)
        ++ (match FieldSpec.min_length spec with
            | Some n =>
                if (len v <? n)%Z
                then [(lit "MIN_LENGTH",
                       lit "Value " ++ repr v ++ lit " must be at least "
                       ++ str_of_Z n ++ lit " characters")]
                else []
            | None => []
            end)
        ++ (match FieldSpec.max_length spec with
            | Some n =>
                if (n <? len v)%Z
                then [(lit "MAX_LENGTH",
                       lit "Value " ++ repr v ++ lit " must be at most "
                       ++ str_of_Z n ++ lit " characters")]
                else []
            | None => []
            end)
  end.

(** [(row.get(f) or "").strip()] *)
Definition stripped (row : dict str) (f : string) : str :=
  strip (or_empty (dict_get row (lit f))).

(** [row.get(f, "")] *)
Definition raw (row : dict str) (f : str) : str :=
  match dict_get row f with Some v => v | None => [] end.

(** Record-level rules (cross-field logic). [today] is what
    [date.today()] returns in the Result / Amendment rules. *)
Definition validate_record_level (today : date) (row : dict str)
  (row_number : Z) : list ValidationError :=
  let record_type := stripped row "RecordType" in
  let id_fields :=
    map lit ["UniqueCandidateIdentifier"; "UniqueLearnerNumber";
             "UniquePupilNumber"; "CandidateIdentifierOther"]%string in
  let result_or_amendment :=
    mem_str record_type (map lit ["Result"; "Amendment"]%string) in
  (* At least one learner identifier supplied. *)
  (if forallb (fun f => eqb_str (strip (raw row f)) []) id_fields
   then [mkError row_number (lit "LearnerIdentifierGroup") (lit "GROUP_RULE")
           (lit "At least one learner identifier (UCI/ULN/UPN/Other) must be supplied.")
           []]
   else [])
  (* Conditional mandatory rules for Result/Amendment. *)
  ++ (if result_or_amendment
      then
        flat_map
          (fun fname =>
             if eqb_str (strip (or_empty (dict_get row fname))) []
             then [mkError row_number fname (lit "MISSING")
                     (fname ++ lit " is mandatory for RecordType=" ++ record_type
                      ++ lit ".")
                     (raw row fname)]
             else [])
          (map lit ["FirstEntryDate"; "AwardDate"; "QualificationGrade"]%string)
      else [])
  (* Entry-specific behaviour. *)
  ++ (if eqb_str record_type (lit "Entry")
      then
        let qg := stripped row "QualificationGrade" in
        (if negb (eqb_str qg (lit "-2"))
         then [mkError row_number (lit "QualificationGrade") (lit "ENTRY_RULE")
                 (lit "For RecordType=Entry, QualificationGrade must be '-2'.")
                 qg]
         else [])
        ++ flat_map
             (fun fname =>
                let val := strip (or_empty (dict_get row fname)) in
                if negb (mem_str val SENTINEL_DATES)
                then [mkError row_number fname (lit "ENTRY_RULE")
                        (lit "For RecordType=Entry, " ++ fname
                         ++ lit " must be 2999-12-31 or 31/12/2999.")
                        val]
                else [])
             (map lit ["FirstEntryDate"; "AwardDate"]%string)
      else [])
  (* Result / Amendment date rules. *)
  ++ (if result_or_amendment
      then
        let reg_str := stripped row "RegistrationDate" in
        let fe_str := stripped row "FirstEntryDate" in
        let aw_str := stripped row "AwardDate" in
        let '(reg_dt, reg_sent) := parse_date reg_str in
        let '(fe_dt, fe_sent) := parse_date fe_str in
        let '(aw_dt, aw_sent) := parse_date aw_str in
        (* Sentinel not allowed on those dates here. *)
        (if fe_sent
         then [mkError row_number (lit "FirstEntryDate") (lit "SENTINEL_NOT_ALLOWED")
                 (lit "FirstEntryDate sentinel allowed only when RecordType=Entry.")
                 fe_str]
         else [])
        ++ (if aw_sent
            then [mkError row_number (lit "AwardDate") (lit "SENTINEL_NOT_ALLOWED")
                    (lit "AwardDate sentinel allowed only when RecordType=Entry.")
                    aw_str]
            else [])
        ++ (match fe_dt with
            | Some fe =>
                if date_ltb today fe
                then [mkError row_number (lit "FirstEntryDate") (lit "DATE_FUTURE")
                        (lit "FirstEntryDate must not be in the future for Result/Amendment.")
                        fe_str]
                else []
            | None => []
            end)
        ++ (match aw_dt with
            | Some aw =>
                if date_ltb today aw
                then [mkError row_number (lit "AwardDate") (lit "DATE_FUTURE")
                        (lit "AwardDate must not be in the future for Result/Amendment.")
                        aw_str]
                else []
            | None => []
            end)
        ++ (match aw_dt, fe_dt with
            | Some aw, Some fe =>
                if date_ltb aw fe
                then [mkError row_number (lit "AwardDate") (lit "DATE_ORDER")
                        (lit "AwardDate must be on or after FirstEntryDate.")
                        aw_str]
                else []
            | _, _ => []
            end)
        ++ (match aw_dt, reg_dt with
            | Some aw, Some reg =>
                if date_ltb aw reg
                then [mkError row_number (lit "AwardDate") (lit "DATE_ORDER")
                        (lit "AwardDate must be on or after RegistrationDate.")
                        aw_str]
                else []
            | _, _ => []
            end)
        ++ (let qg := stripped row "QualificationGrade" in
            if eqb_str qg (lit "-2")
            then [mkError row_number (lit "QualificationGrade") (lit "RESULT_RULE")
                    (lit "For Result/Amendment, QualificationGrade cannot be '-2'.")
                    qg]
            else [])
      else []).

(* ===================================================================== *)
(** ** CSV validation entry points                                        *)
(* ===================================================================== *)

(** The system clock: what [date.today()] returns at each of its calls; a
    call is named by the row under validation and the function that makes
    it. *)
Inductive caller := IN_VALIDATE_FIELD | IN_VALIDATE_RECORD_LEVEL.

Definition clock := Z -> caller -> date.

Fixpoint eqb_row (a b : list str) : bool :=
  match a, b with
  | [], [] => true
  | x :: a', y :: b' => eqb_str x y && eqb_row a' b'
  | _, _ => false
  end.

(** The variables the loop over the rows updates. *)
Record loop_state := mkLoop {
  errors : list ValidationError;
  seen_rows : list (list str);
  row_idx : Z
}.

(** Field-level validation of one column: the errors of [validate_field]
    that no exclusion suppresses. *)
Definition field_errors (today : date) (row_dict : dict str)
  (record_type : str) (row_idx : Z) (field_name : str) : list ValidationError :=
  let val := raw row_dict field_name in
  flat_map
    (fun cm =>
       if is_permitted_exclusion field_name val (fst cm) then []
       else [mkError row_idx field_name (fst cm) (snd cm) val])
    (validate_field today field_name val record_type).

(** The row padded with empty strings, or cut, to the expected number of
    columns. *)
Definition fit_columns (row : list str) : list str :=
  if (len row <? len EXPECTED_COLUMNS)%Z
  then row ++ repeat [] (Z.to_nat (len EXPECTED_COLUMNS - len row))
  else if (len EXPECTED_COLUMNS <? len row)%Z
  then firstn (Z.to_nat (len EXPECTED_COLUMNS)) row
  else row.

(** One turn of [for row in reader]. *)
Definition loop_body (clk : clock) (st : loop_state) (row : list str)
  : loop_state :=
  let row_idx := (row_idx st + 1)%Z in
  if negb (existsb (fun cell => negb (eqb_str (strip cell) [])) row)
  then mkLoop (errors st) (seen_rows st) row_idx
  else
    let errors :=
      errors st
      ++ (if negb (len row =? len EXPECTED_COLUMNS)%Z
          then [mkError row_idx (lit "*ROW*") (lit "COLUMN_COUNT")
                  (lit "Row must contain " ++ str_of_Z (len EXPECTED_COLUMNS)
                   ++ lit " columns, found " ++ str_of_Z (len row) ++ lit ".")
                  []]
          else []) in
    let row := fit_columns row in
    let duplicate := existsb (eqb_row row) (seen_rows st) in
    let errors :=
      if duplicate
      then errors ++ [mkError row_idx (lit "*ROW*") (lit "DUPLICATE_ROW")
                        (lit "Duplicate row within submission.") []]
      else errors in
    let seen_rows := if duplicate then seen_rows st else row :: seen_rows st in
    let row_dict := combine EXPECTED_COLUMNS row in
    let record_type := stripped row_dict "RecordType" in
    (* Field-level validation *)
    let errors :=
      errors
      ++ flat_map
           (field_errors (clk row_idx IN_VALIDATE_FIELD) row_dict record_type row_idx)
           EXPECTED_COLUMNS in
    (* Record-level *)
    let errors :=
      errors
      ++ validate_record_level (clk row_idx IN_VALIDATE_RECORD_LEVEL) row_dict row_idx in
    mkLoop errors seen_rows row_idx.

(** What a call does: it returns the list of errors, or lets the
    [csv.Error] of the reader through. *)
Inductive outcome :=
| Returned (errs : list ValidationError)
| Raised_csv_Error.

Definition BOM : char := 0xFEFF%N.

Definition validate_csv_stream (clk : clock) (stream : str) : outcome :=
  match Csv.reader stream with
  | None => Raised_csv_Error
  | Some [] =>
      Returned [mkError 1 (lit "*FILE*") (lit "EMPTY") (lit "File is empty.") []]
  | Some (header :: rows) =>
      let header := map (fun h => strip (strip_chars (BOM :: lit " ") h)) header in
      (* Exact header match *)
      let start :=
        if negb (eqb_row header EXPECTED_COLUMNS)
        then [mkError 1 (lit "*HEADER*") (lit "HEADER_MISMATCH")
                (lit "Header row does not match expected VTQ specification. "
                 ++ lit "Expected: " ++ repr_list EXPECTED_COLUMNS
                 ++ lit "; Found: " ++ repr_list header)
                []]
        else [] in
      Returned (errors (fold_left (loop_body clk) rows (mkLoop start [] 1)))
  end.

Definition validate_csv_text (clk : clock) (csv_text : str) : outcome :=
  validate_csv_stream clk csv_text.

End Validator.

(* ===================================================================== *)
(** ** The objects of a call                                              *)
(* ===================================================================== *)

(** The validator with the objects it creates and changes in place on an
    explicit heap: the list [errors] and the set [seen_rows] of
    [validate_csv_stream], and the lists [validate_field] and
    [validate_record_level] build and return.  A call runs on the heap its
    caller has, earlier calls included, and hands back the heap it leaves.
    The rows the reader yields, [row_dict] and the header are made anew in
    every turn and never changed afterwards: they stay values.  The
    constants of the module ([EXPECTED_COLUMNS], [FIELD_SPECS], ...) are only
    read by its functions. *)
Module Heap.

Inductive object :=
| list_of_errors (items : list ValidationError)
| list_of_codes (items : list (str * str))
| set_of_rows (items : list (list str)).

(** A reference is the position of its object on the heap. *)
Definition ref := nat.
Definition heap := list object.

(** A new object: it gets the next free position. *)
Definition alloc (o : object) (h : heap) : ref * heap :=
  (List.length h, h ++ [o]).

Definition deref (h : heap) (r : ref) : option object := nth_error h r.

(** The object at [r] changed in place. *)
Fixpoint update (r : ref) (f : object -> object) (h : heap) : heap :=
  match h, r with
  | [], _ => []
  | o :: h, O => f o :: h
  | o :: h, S r => o :: update r f h
  end.

(** [l.append(e)] *)
Definition append (l : ref) (e : ValidationError) (h : heap) : heap :=
  update l (fun o => match o with
                     | list_of_errors items => list_of_errors (items ++ [e])
                     | _ => o
                     end) h.

(** [l.extend(m)] *)
Definition extend (l m : ref) (h : heap) : heap :=
  match deref h m with
  | Some (list_of_errors more) =>
      update l (fun o => match o with
                         | list_of_errors items => list_of_errors (items ++ more)
                         | _ => o
                         end) h
  | _ => h
  end.

(** [t in s] *)
Definition contains (h : heap) (s : ref) (t : list str) : bool :=
  match deref h s with
  | Some (set_of_rows items) => existsb (eqb_row t) items
  | _ => false
  end.

(** [s.add(t)] *)
Definition add (s : ref) (t : list str) (h : heap) : heap :=
  update s (fun o => match o with
                     | set_of_rows items =>
                         set_of_rows (if existsb (eqb_row t) items then items
                                      else t :: items)
                     | _ => o
                     end) h.

(** What a call does: it returns a reference to its list of errors, or
    lets the [csv.Error] of the reader through. *)
Inductive outcome :=
| Returns (errors : ref)
| Raises_csv_Error.

Section Calls.
Context `{PyRuntime}.

(** [validate_field] starts a list of its own, [errors = []], and returns
    it. *)
Definition validate_field_list (today : Datetime.date) (field value record_type : str)
  (h : heap) : ref * heap :=
  alloc (list_of_codes (validate_field today field value record_type)) h.

(** [validate_record_level] starts a list of its own, [errors = []], and
    returns it. *)
Definition validate_record_level_list (today : Datetime.date) (row : dict str)
  (row_number : Z) (h : heap) : ref * heap :=
  alloc (list_of_errors (validate_record_level today row row_number)) h.

(** One turn of [for code, msg in field_errors]. *)
Definition for_code (errors : ref) (row_idx : Z) (field_name val : str)
  (h : heap) (cm : str * str) : heap :=
  if is_permitted_exclusion field_name val (fst cm) then h
  else append errors (mkError row_idx field_name (fst cm) (snd cm) val) h.

(** One turn of [for field_name in EXPECTED_COLUMNS]. *)
Definition for_field (today : Datetime.date) (errors : ref) (row_dict : dict str)
  (record_type : str) (row_idx : Z) (h : heap) (field_name : str) : heap :=
  let val := raw row_dict field_name in
  let '(field_errors, h) :=
    validate_field_list today field_name val record_type h in
  match deref h field_errors with
  | Some (list_of_codes items) =>
      fold_left (for_code errors row_idx field_name val) items h
  | _ => h
  end.

(** One turn of [for row in reader], on the counter [row_idx] and the
    heap. *)
Definition loop_body (clk : clock) (errors seen_rows : ref) (st : Z * heap)
  (row : list str) : Z * heap :=
  let '(row_idx, h) := st in
  let row_idx := (row_idx + 1)%Z in
  if negb (existsb (fun cell => negb (eqb_str (strip cell) [])) row)
  then (row_idx, h)
  else
    let h :=
      if negb (len row =? len EXPECTED_COLUMNS)%Z
      then append errors
             (mkError row_idx (lit "*ROW*") (lit "COLUMN_COUNT")
                (lit "Row must contain " ++ str_of_Z (len EXPECTED_COLUMNS)
                 ++ lit " columns, found " ++ str_of_Z (len row) ++ lit ".")
                []) h
      else h in
    let row := fit_columns row in
    let h :=
      if contains h seen_rows row
      then append errors
             (mkError row_idx (lit "*ROW*") (lit "DUPLICATE_ROW")
                (lit "Duplicate row within submission.") []) h
      else add seen_rows row h in
    let row_dict := combine EXPECTED_COLUMNS row in
    let record_type := stripped row_dict "RecordType" in
    (* Field-level validation *)
    let h :=
      fold_left
        (for_field (clk row_idx IN_VALIDATE_FIELD) errors row_dict record_type
           row_idx)
        EXPECTED_COLUMNS h in
    (* Record-level *)
    let '(rec_errors, h) :=
      validate_record_level_list (clk row_idx IN_VALIDATE_RECORD_LEVEL) row_dict
        row_idx h in
    (row_idx, extend errors rec_errors h).

(** [validate_csv_stream]: [errors] and [seen_rows] are new objects of the
    call.  The objects of a call that raises are out of reach of its
    caller; what they hold is left out. *)
Definition validate_csv_stream (clk : clock) (stream : str) (h : heap)
  : outcome * heap :=
  let '(errors, h) := alloc (list_of_errors []) h in
  match Csv.reader stream with
  | None => (Raises_csv_Error, h)
  | Some [] =>
      (Returns errors,
       append errors
         (mkError 1 (lit "*FILE*") (lit "EMPTY") (lit "File is empty.") []) h)
  | Some (header :: rows) =>
      let header :=
        map (fun cell => strip (strip_chars (BOM :: lit " ") cell)) header in
      (* Exact header match *)
      let h :=
        if negb (eqb_row header EXPECTED_COLUMNS)
        then append errors
               (mkError 1 (lit "*HEADER*") (lit "HEADER_MISMATCH")
                  (lit "Header row does not match expected VTQ specification. "
                   ++ lit "Expected: " ++ repr_list EXPECTED_COLUMNS
                   ++ lit "; Found: " ++ repr_list header)
                  []) h
        else h in
      let '(seen_rows, h) := alloc (set_of_rows []) h in
      (Returns errors, snd (fold_left (loop_body clk errors seen_rows) rows (1%Z, h)))
  end.

Definition validate_csv_text (clk : clock) (csv_text : str) (h : heap)
  : outcome * heap :=
  validate_csv_stream clk csv_text h.

End Calls.

End Heap.

(* ===================================================================== *)
(** ** The HTTP entry points                                              *)
(* ===================================================================== *)

(** [ValidateVtqCsv/__init__.py] and [vtq-function-app/function_app.py]:
    the two functions that read the CSV text out of a request and the two
    that answer it. *)
Module Shim.

Definition bytes := list Byte.byte.

(** An exception: whether it is a [ValueError] (or a subclass, as
    [binascii.Error] and [UnicodeDecodeError] are), and its [str]. *)
Record exception := mkException { is_ValueError : bool; exc_text : str }.

Inductive result (A : Type) :=
| Ok (a : A)
| Raise (e : exception).

Arguments Ok {A} a.
Arguments Raise {A} e.

(** A parsed JSON document. *)
Local Unset Elimination Schemes.

Inductive json :=
| JNull
| JBool (b : bool)
| JNumber (q : Q)
| JString (s : str)
| JArray (l : list json)
| JObject (d : dict json).

Local Set Elimination Schemes.

(** What the functions ask of a request: its body and its body parsed as
    JSON, which raises when the body is not JSON. *)
Record HttpRequest := mkRequest {
  get_body : option bytes;
  get_json : result json
}.

(** The codecs of the standard library the functions call:
    [base64.b64decode] and [bytes.decode("utf-8-sig")]. *)
Class Codecs := {
  b64decode : str -> result bytes;
  decode_utf8_sig : bytes -> result str
}.

(** The content of a response body, before [json.dumps]. The dictionary
    built for each error has the five attributes of the error. *)
Inductive payload :=
| BadRequest (message : str)
| Validation (valid : bool) (errorCount : Z) (errs : list ValidationError).

Record HttpResponse := mkResponse { body : payload; status_code : Z }.

(** What a call of an entry point does: it answers, or lets an exception
    through, of the codecs or the [csv.Error] of the reader. *)
Inductive answer :=
| Responded (r : HttpResponse)
| Propagated (e : exception)
| Propagated_csv_Error.

(** [isinstance(data.get(k), str)], with the string. *)
Definition str_at (d : dict json) (k : string) : option str :=
  match dict_get d (lit k) with
  | Some (JString s) => Some s
  | _ => None
  end.

Section EntryPoints.
Context `{PyRuntime} `{Codecs}.

(** [base64.b64decode(b64).decode("utf-8-sig")] *)
Definition decode_base64_text (b64 : str) : result str :=
  match b64decode b64 with
  | Ok raw => decode_utf8_sig raw
  | Raise e => Raise e
  end.

(** [req.get_body() or b""] *)
Definition body_of (req : HttpRequest) : bytes :=
  match get_body req with
  | Some b => b
  | None => []
  end.

(** [__init__.py]: try JSON first, a [ValueError] of [get_json] meaning no
    JSON; then the [csv] key, then the [csv_base64] key, then the whole
    body as text. *)
Definition _extract_csv_from_request (req : HttpRequest) : result str :=
  let body_bytes := body_of req in
  match get_json req with
  | Raise e =>
      if is_ValueError e then decode_utf8_sig body_bytes else Raise e
  | Ok (JObject data) =>
      match str_at data "csv" with
      | Some csv => Ok csv
      | None =>
          match str_at data "csv_base64" with
          | Some b64 => decode_base64_text b64
          | None => decode_utf8_sig body_bytes
          end
      end
  | Ok _ => decode_utf8_sig body_bytes
  end.

(** The answer with the one error for a request without content. *)
Definition no_content : ValidationError :=
  mkError 1 (lit "*FILE*") (lit "EMPTY")
    (lit "No CSV content provided in request.") [].

(** The answer built from the errors of the validator. *)
Definition response_payload (errors : list ValidationError) : payload :=
  Validation (len errors =? 0)%Z (len errors) errors.

(** [__init__.py]: [main]. *)
Definition main (clk : clock) (req : HttpRequest) : answer :=
  match _extract_csv_from_request req with
  | Raise ex =>
      Responded
        (mkResponse
           (BadRequest (lit "Could not read CSV from request: " ++ exc_text ex))
           400)
  | Ok csv_text =>
      if eqb_str (strip csv_text) []
      then Responded (mkResponse (Validation false 1 [no_content]) 200)
      else
        match validate_csv_text clk csv_text with
        | Raised_csv_Error => Propagated_csv_Error
        | Returned errors => Responded (mkResponse (response_payload errors) 200)
        end
  end.

(** [function_app.py]: any exception of [get_json] means no JSON, and a
    [csv_base64] value that does not decode is passed over. *)
Definition extract_csv (req : HttpRequest) : result str :=
  let body := body_of req in
  let data := match get_json req with Ok d => Some d | Raise _ => None end in
  match data with
  | Some (JObject data) =>
      match str_at data "csv" with
      | Some csv_text => Ok csv_text
      | None =>
          match str_at data "csv_base64" with
          | Some b64 =>
              match decode_base64_text b64 with
              | Ok text => Ok text
              | Raise _ => decode_utf8_sig body
              end
          | None => decode_utf8_sig body
          end
      end
  | _ => decode_utf8_sig body
  end.

(** [function_app.py]: [validate_vtq]; a response has status 200 unless
    told otherwise.  The module [validator] it imports is the one beside
    [function_app.py]; its [validate_csv_text] is the argument
    [validator_validate_csv_text]. *)
Definition validate_vtq (validator_validate_csv_text : str -> outcome)
    (req : HttpRequest) : answer :=
  match extract_csv req with
  | Raise ex => Propagated ex
  | Ok csv_text =>
      if eqb_str (strip csv_text) []
      then Responded (mkResponse (Validation false 1 [no_content]) 200)
      else
        match validator_validate_csv_text csv_text with
        | Raised_csv_Error => Propagated_csv_Error
        | Returned errors => Responded (mkResponse (response_payload errors) 200)
        end
  end.

End EntryPoints.

End Shim.

(* ===================================================================== *)
(** ** Vocabulary of the statements                                       *)
(* ===================================================================== *)

(** A runtime for the worked examples: the digits 0 to 9 and [repr] of
    text that needs no escaping. *)
Definition example_runtime : PyRuntime := {|
  decimal_value := fun c =>
    if ((48 <=? c) && (c <=? 57))%N then Some (Z.of_N c - 48)%Z else None;
  repr := fun s => lit "'" ++ s ++ lit "'"
|}.

(** A clock that shows the same day at every reading. *)
Definition fixed_clock (today : Datetime.date) : clock := fun _ _ => today.

(** Example submissions: the expected header, then the given rows, one per
    line. *)
Definition example_header : str := join (lit ",") EXPECTED_COLUMNS.

Definition submission (rows : list string) : str :=
  example_header ++ [Csv.LF] ++ flat_map (fun r => lit r ++ [Csv.LF]) rows.

Definition example_today : Datetime.date := Datetime.mkdate 2026 11 3.

(** The cells of a one-line record. *)
Definition cells_of (r : string) : list str :=
  match Csv.reader (lit r) with
  | Some [row] => row
  | _ => []
  end.

(** An Entry record with -2 on UKPRN and QualificationGrade. *)
Definition ENTRY_ROW : string :=
  "Entry,ABCDEFGHIJKLM,1234567890,,,John,,Smith,M,01/01/2010,12345,123456,12345678,X1,-2,Name,,,,,SW1A 1AA,1,QAN,1234567,SC1,Title,Key Skills,June 2024,2024-01-01,2999-12-31,31/12/2999,-2,0,0".

(** An Entry record with a grade. *)
Definition ENTRY_ROW_WITH_GRADE : string :=
  "Entry,ABCDEFGHIJKLM,1234567890,,,John,,Smith,M,01/01/2010,12345,123456,12345678,X1,12345678,Name,,,,,SW1A 1AA,1,QAN,1234567,SC1,Title,Key Skills,June 2024,2024-01-01,2999-12-31,31/12/2999,ABC,0,0".

(** An Entry record without a date of birth. *)
Definition ENTRY_ROW_NO_DOB : string :=
  "Entry,ABCDEFGHIJKLM,1234567890,,,John,,Smith,M,,12345,123456,12345678,X1,12345678,Name,,,,,SW1A 1AA,1,QAN,1234567,SC1,Title,Key Skills,June 2024,2024-01-01,2999-12-31,31/12/2999,-2,0,0".

(** A Result record awarded before its first entry, registered with the
    sentinel date. *)
Definition RESULT_ROW : string :=
  "Result,ABCDEFGHIJKLM,1234567890,,,John,,Smith,M,01/01/2010,12345,123456,12345678,X1,12345678,Name,,,,,SW1A 1AA,1,QAN,1234567,SC1,Title,Key Skills,June 2024,2999-12-31,2024-07-01,2024-06-01,A,0,0".

(** The characters held by a reader, in its current field and in the
    fields saved, all have the property [P]. *)
Definition cells_in (P : char -> Prop) (r : Csv.ReaderObj) : Prop :=
  Forall P (Csv.field r) /\ Forall (Forall P) (Csv.fields r).

(** A character that is no line break, quote or delimiter. *)
Definition plain (c : char) : Prop :=
  c <> Csv.LF /\ c <> Csv.CR /\ c <> Csv.quotechar /\ c <> Csv.delimiter.

(** A line of plain characters, with or without its line feed. *)
Definition plain_line (line : str) : Prop :=
  exists body, Forall plain body /\ (len body <= Csv.field_limit)%Z
               /\ (line = body ++ [Csv.LF] \/ line = body).

Section Vocabulary.
Context `{PyRuntime}.

(** The errors one turn of the loop adds for [row], read at row index
    [idx] with [seen] the rows seen so far. *)
Definition row_errors (clk : clock) (seen : list (list str)) (idx : Z)
  (row : list str) : list ValidationError :=
  errors (loop_body clk (mkLoop [] seen idx) row).

(** A row where every cell is blank or whitespace. *)
Definition blank_row (row : list str) : bool :=
  negb (existsb (fun cell => negb (eqb_str (strip cell) [])) row).

(** The rows seen once [row] has gone through the loop. *)
Definition seen_after (seen : list (list str)) (row : list str)
  : list (list str) :=
  if blank_row row then seen
  else if existsb (eqb_row (fit_columns row)) seen then seen
  else fit_columns row :: seen.

(** The errors the loop adds for a run of rows. *)
Fixpoint rows_errors (clk : clock) (seen : list (list str)) (idx : Z)
  (rows : list (list str)) : list ValidationError :=
  match rows with
  | [] => []
  | row :: rest =>
      row_errors clk seen idx row
      ++ rows_errors clk (seen_after seen row) (idx + 1) rest
  end.

(** The header as compared with the expected columns. *)
Definition normalized (header : list str) : list str :=
  map (fun h => strip (strip_chars (BOM :: lit " ") h)) header.

(** The error raised on a header that differs from the expected columns. *)
Definition header_mismatch (header : list str) : ValidationError :=
  mkError 1 (lit "*HEADER*") (lit "HEADER_MISMATCH")
    (lit "Header row does not match expected VTQ specification. "
     ++ lit "Expected: " ++ repr_list EXPECTED_COLUMNS
     ++ lit "; Found: " ++ repr_list (normalized header))
    [].

Definition file_empty : ValidationError :=
  mkError 1 (lit "*FILE*") (lit "EMPTY") (lit "File is empty.") [].

(** The cell of [row] under the column [field_name], as the loop reads it
    once the row is padded or cut to the 34 columns. *)
Definition cell (row : list str) (field_name : str) : str :=
  raw (combine EXPECTED_COLUMNS (fit_columns row)) field_name.

(** The record type the loop reads from [row]. *)
Definition record_type_of (row : list str) : str :=
  stripped (combine EXPECTED_COLUMNS (fit_columns row)) "RecordType".

(** The pairs (field, code) of the errors the record-level rules raise. *)
Definition RECORD_LEVEL_KINDS : list (str * str) :=
  map (fun fc => (lit (fst fc), lit (snd fc))) [
    ("LearnerIdentifierGroup", "GROUP_RULE");
    ("FirstEntryDate", "MISSING"); ("AwardDate", "MISSING");
    ("QualificationGrade", "MISSING");
    ("QualificationGrade", "ENTRY_RULE");
    ("FirstEntryDate", "ENTRY_RULE"); ("AwardDate", "ENTRY_RULE");
    ("FirstEntryDate", "SENTINEL_NOT_ALLOWED");
    ("AwardDate", "SENTINEL_NOT_ALLOWED");
    ("FirstEntryDate", "DATE_FUTURE"); ("AwardDate", "DATE_FUTURE");
    ("AwardDate", "DATE_ORDER");
    ("QualificationGrade", "RESULT_RULE")
  ]%string.

Definition record_level_kind (e : ValidationError) : bool :=
  existsb (fun fc => eqb_str (field e) (fst fc) && eqb_str (error_code e) (snd fc))
          RECORD_LEVEL_KINDS.

(** The codes the field validator raises. *)
Definition FIELD_LEVEL_CODES : list str := map lit [
  "MISSING"; "DATE_FORMAT"; "DATE_RANGE"; "VALUE"; "PATTERN"; "LENGTH";
  "MIN_LENGTH"; "MAX_LENGTH"
]%string.

Definition VALUE_PATTERN_LENGTH_CODES : list str :=
  map lit ["VALUE"; "PATTERN"; "LENGTH"; "MIN_LENGTH"; "MAX_LENGTH"]%string.

(** The two errors the field validator raises on a date out of range. *)
Definition before_1900_error `{PyRuntime} (v : str) : str * str :=
  (lit "DATE_RANGE", lit "Date " ++ repr v ++ lit " must be on or after 1900-01-01").

Definition age_error `{PyRuntime} (v : str) : str * str :=
  (lit "DATE_RANGE",
   lit "Age from DOB " ++ repr v ++ lit " must be between 5 and 80 years").

(** A date object: its fields passed the checks of the constructor. *)
Definition valid_date (d : Datetime.date) : Prop :=
  Datetime.date_new (Datetime.year d) (Datetime.month d) (Datetime.day d) = Some d.

(** The error of the Entry rule on the grade. *)
Definition entry_grade_error (n : Z) (qg : str) : ValidationError :=
  mkError n (lit "QualificationGrade") (lit "ENTRY_RULE")
    (lit "For RecordType=Entry, QualificationGrade must be '-2'.") qg.

(** The error of the rule that orders AwardDate after FirstEntryDate. *)
Definition award_before_entry_error (n : Z) (aw_str : str) : ValidationError :=
  mkError n (lit "AwardDate") (lit "DATE_ORDER")
    (lit "AwardDate must be on or after FirstEntryDate.") aw_str.

(** The codes of the record-level rules on dates. *)
Definition DATE_RULE_CODES : list str :=
  map lit ["SENTINEL_NOT_ALLOWED"; "DATE_FUTURE"; "DATE_ORDER"]%string.

(** The errors about the shape of a row: column count and duplication. *)
Definition row_shape_kind (e : ValidationError) : bool :=
  eqb_str (field e) (lit "*ROW*")
  && mem_str (error_code e) (map lit ["COLUMN_COUNT"; "DUPLICATE_ROW"]%string).

Definition has_code (code : string) (e : ValidationError) : bool :=
  eqb_str (error_code e) (lit code).

Definition on_field (f : str) (e : ValidationError) : bool :=
  eqb_str (field e) f.

Definition at_row (n : Z) (e : ValidationError) : bool :=
  (row_number e =? n)%Z.

End Vocabulary.

(** *** Errors and tests named in the further statements *)

Fixpoint nodupb (l : list str) : bool :=
  match l with
  | [] => true
  | x :: l' => negb (mem_str x l') && nodupb l'
  end.

(** The fields the record-level rules put errors on. *)
Definition RECORD_LEVEL_FIELDS : list str := map lit [
  "LearnerIdentifierGroup"; "FirstEntryDate"; "AwardDate"; "QualificationGrade"
]%string.

(** The columns of type date. *)
Definition DATE_FIELDS : list str := map lit [
  "DOB"; "RegistrationDate"; "FirstEntryDate"; "AwardDate"
]%string.

(** The codes only record-level rules raise. *)
Definition RECORD_ONLY_CODES : list str := map lit [
  "GROUP_RULE"; "ENTRY_RULE"; "SENTINEL_NOT_ALLOWED"; "DATE_FUTURE";
  "DATE_ORDER"; "RESULT_RULE"
]%string.

Definition RESULT_TYPES : list str := map lit ["Result"; "Amendment"]%string.

Definition missing_field_error (n : Z) (f v : str) : ValidationError :=
  mkError n f (lit "MISSING") (lit "Mandatory field is blank") v.

Definition date_format_error `{PyRuntime} (n : Z) (f v : str) : ValidationError :=
  mkError n f (lit "DATE_FORMAT") (lit "Invalid date format: " ++ repr (strip v)) v.

Definition column_count_error (n : Z) (row : list str) : ValidationError :=
  mkError n (lit "*ROW*") (lit "COLUMN_COUNT")
    (lit "Row must contain " ++ str_of_Z (len EXPECTED_COLUMNS)
     ++ lit " columns, found " ++ str_of_Z (len row) ++ lit ".") [].

Definition duplicate_row_error (n : Z) : ValidationError :=
  mkError n (lit "*ROW*") (lit "DUPLICATE_ROW")
    (lit "Duplicate row within submission.") [].

Definition group_rule_error (n : Z) : ValidationError :=
  mkError n (lit "LearnerIdentifierGroup") (lit "GROUP_RULE")
    (lit "At least one learner identifier (UCI/ULN/UPN/Other) must be supplied.")
    [].

Definition conditional_missing_error (n : Z) (f record_type v : str)
  : ValidationError :=
  mkError n f (lit "MISSING")
    (f ++ lit " is mandatory for RecordType=" ++ record_type ++ lit ".") v.

Definition entry_date_error (n : Z) (f v : str) : ValidationError :=
  mkError n f (lit "ENTRY_RULE")
    (lit "For RecordType=Entry, " ++ f ++ lit " must be 2999-12-31 or 31/12/2999.")
    v.

Definition sentinel_not_allowed_error (n : Z) (f v : str) : ValidationError :=
  mkError n f (lit "SENTINEL_NOT_ALLOWED")
    (f ++ lit " sentinel allowed only when RecordType=Entry.") v.

Definition date_future_error (n : Z) (f v : str) : ValidationError :=
  mkError n f (lit "DATE_FUTURE")
    (f ++ lit " must not be in the future for Result/Amendment.") v.

Definition result_grade_error (n : Z) (qg : str) : ValidationError :=
  mkError n (lit "QualificationGrade") (lit "RESULT_RULE")
    (lit "For Result/Amendment, QualificationGrade cannot be '-2'.") qg.

(** All four learner identifiers of the row are blank. *)
Definition no_learner_identifier (row : list str) : bool :=
  forallb (fun f => eqb_str (strip (cell row f)) [])
    (map lit ["UniqueCandidateIdentifier"; "UniqueLearnerNumber";
              "UniquePupilNumber"; "CandidateIdentifierOther"]%string).

(** The row is a Result or an Amendment. *)
Definition result_row (row : list str) : bool :=
  mem_str (record_type_of row) RESULT_TYPES.

(** Padding a header cell may have: byte-order marks and spaces, the
    characters of [h.strip("\ufeff ")]. *)
Definition header_padding (c : char) : bool :=
  existsb (N.eqb c) (BOM :: lit " ").

(** A name that neither starts nor ends with a character of [p]. *)
Definition clean (p : char -> bool) (name : str) : bool :=
  match name with a :: _ => negb (p a) | [] => false end
  && match rev name with z :: _ => negb (p z) | [] => false end.

(** The columns that are mandatory for a Result or an Amendment only. *)
Definition CONDITIONAL_FIELDS : list str := map lit [
  "FirstEntryDate"; "AwardDate"; "QualificationGrade"
]%string.

(** A header cell that is [name] between padding. *)
Definition padded (name cell : str) : Prop :=
  exists l r, forallb header_padding l = true /\ forallb header_padding r = true
              /\ cell = l ++ name ++ r.

(** A row the clock has no say on: blank, or neither Result nor Amendment
    and without a date of birth that parses to a date. *)
Definition clock_free `{PyRuntime} (row : list str) : bool :=
  blank_row row
  || (negb (result_row row)
      && match fst (parse_date (cell row (lit "DOB"))) with
         | Some _ => false
         | None => true
         end).

(** The answers of both entry points on a request without content. *)
Definition no_content_response : Shim.HttpResponse :=
  Shim.mkResponse (Shim.Validation false 1 [Shim.no_content]) 200.

(** Codecs for the worked examples: bytes decode as Latin-1 text, and no
    text is taken as base64. *)
Definition example_codecs : Shim.Codecs := {|
  Shim.b64decode := fun _ =>
    Shim.Raise (Shim.mkException true (lit "Incorrect padding"));
  Shim.decode_utf8_sig := fun b =>
    Shim.Ok (map (fun x => N.of_nat (Byte.to_nat x)) b)
|}.

(** A request whose body is not JSON and reads [text]. *)
Definition raw_request (body : Shim.bytes) : Shim.HttpRequest :=
  Shim.mkRequest (Some body)
    (Shim.Raise (Shim.mkException true (lit "HTTP request does not contain valid JSON data"))).

(** A request with a JSON object holding [csv_base64] only. *)
Definition base64_request (b64 : str) (body : Shim.bytes) : Shim.HttpRequest :=
  Shim.mkRequest (Some body)
    (Shim.Ok (Shim.JObject [(lit "csv_base64", Shim.JString b64)])).

(** A request with a JSON object holding [csv]. *)
Definition csv_request (csv : str) : Shim.HttpRequest :=
  Shim.mkRequest None (Shim.Ok (Shim.JObject [(lit "csv", Shim.JString csv)])).

(** An Entry record with a blank Surname and Sex, a sentinel date of birth,
    a unit number for QualificationNumber and a RegistrationDate that is no
    date. *)
Definition ENTRY_ROW_ODD : string :=
  "Entry,ABCDEFGHIJKLM,1234567890,,,John,, ,,2999-12-31,12345,123456,12345678,X1,-2,Name,,,,,SW1A 1AA,1,QAN,123/x,SC1,Title,Key Skills,June 2024,2024-13-01,2999-12-31,31/12/2999,-2,0,0".

(** A Deletion record without a learner identifier. *)
Definition DELETION_ROW : string :=
  "Deletion,,,,,John,,Smith,M,01/01/2010,12345,123456,12345678,X1,-2,Name,,,,,SW1A 1AA,1,QAN,1234567,SC1,Title,Key Skills,June 2024,2024-01-01,2999-12-31,,,0,0".

(** A Result record with the grade of an Entry, a sentinel FirstEntryDate
    and no AwardDate. *)
Definition RESULT_ROW_ODD : string :=
  "Result,ABCDEFGHIJKLM,1234567890,,,John,,Smith,M,01/01/2010,12345,123456,12345678,X1,12345678,Name,,,,,SW1A 1AA,1,QAN,1234567,SC1,Title,Key Skills,June 2024,2024-01-01,2999-12-31,,-2,0,0".

(** A Result record awarded after the day of the examples. *)
Definition RESULT_ROW_FUTURE : string :=
  "Result,ABCDEFGHIJKLM,1234567890,,,John,,Smith,M,01/01/2010,12345,123456,12345678,X1,12345678,Name,,,,,SW1A 1AA,1,QAN,1234567,SC1,Title,Key Skills,June 2024,2024-01-01,2024-06-01,2027-01-01,A,0,0".

(** A record of two cells. *)
Definition SHORT_ROW : string := "Entry,ABCDEFGHIJKLM".

(** The order of two errors by the number of their rows. *)
Definition by_row_number (a b : ValidationError) : Prop :=
  (row_number a <= row_number b)%Z.

(** The calls of [date.today()] made for a row: by [validate_field] when
    the date of birth parses to a date, by [validate_record_level] when the
    row is a Result or an Amendment; for a blank row, none. *)
Definition reads_clock `{PyRuntime} (row : list str) (c : caller) : bool :=
  negb (blank_row row)
  && match c with
     | IN_VALIDATE_FIELD =>
         match fst (parse_date (cell row (lit "DOB"))) with
         | Some _ => true
         | None => false
         end
     | IN_VALIDATE_RECORD_LEVEL => result_row row
     end.

(** A submission under a header with one cell. *)
Definition headless (rows : list string) : str :=
  lit "RecordType" ++ [Csv.LF] ++ flat_map (fun r => lit r ++ [Csv.LF]) rows.

(** A clock that shows the day of the examples at row 3 and a day of 1990
    at every other row. *)
Definition odd_clock : clock :=
  fun n _ => if (n =? 3)%Z then example_today else Datetime.mkdate 1990 1 1.

(** A heap an earlier call has left: a set of rows that holds a row. *)
Definition used_heap : Heap.heap :=
  [Heap.set_of_rows [cells_of ENTRY_ROW_NO_DOB]].

(* ===================================================================== *)
(** ** Text                                                               *)
(* ===================================================================== *)

Lemma eqb_str_refl (a : str) : eqb_str a a = true.
Proof.
  induction a as [|x a IH]; simpl; [reflexivity|].
  now rewrite N.eqb_refl, IH.
Qed.

Lemma eqb_str_eq (a b : str) : eqb_str a b = true <-> a = b.
Proof.
  split.
  - revert b; induction a as [|x a IH]; intros [|y b]; simpl; try congruence.
    rewrite andb_true_iff, N.eqb_eq. intros [-> Hab]. now rewrite (IH _ Hab).
  - intros ->. apply eqb_str_refl.
Qed.

Lemma eqb_str_neq (a b : str) : eqb_str a b = false <-> a <> b.
Proof.
  rewrite <- eqb_str_eq. destruct (eqb_str a b); split; congruence.
Qed.

Lemma eqb_row_eq (a b : list str) : eqb_row a b = true <-> a = b.
Proof.
  split.
  - revert b; induction a as [|x a IH]; intros [|y b]; simpl; try congruence.
    rewrite andb_true_iff, eqb_str_eq. intros [-> Hab]. now rewrite (IH _ Hab).
  - intros ->. induction b as [|y b IH]; simpl; [reflexivity|].
    now rewrite eqb_str_refl, IH.
Qed.

Lemma mem_str_In (x : str) (xs : list str) : mem_str x xs = true <-> In x xs.
Proof.
  unfold mem_str. rewrite existsb_exists. split.
  - intros (y & Hy & Heq). apply eqb_str_eq in Heq. now subst.
  - intros Hin. exists x. split; [assumption | apply eqb_str_refl].
Qed.

Section Strip.
Variable p : char -> bool.

Lemma lstrip_by_all (s : str) : forallb p s = true -> lstrip_by p s = [].
Proof.
  induction s as [|c s IH]; simpl; [reflexivity|].
  rewrite andb_true_iff. intros [-> Hs]. now apply IH.
Qed.

Lemma lstrip_by_head (s : str) :
  lstrip_by p s = [] \/ exists c r, lstrip_by p s = c :: r /\ p c = false.
Proof.
  induction s as [|c s IH]; simpl; [now left|].
  destruct (p c) eqn:Hc; [assumption|]. right. now exists c, s.
Qed.

Lemma lstrip_by_keep (c : char) (s : str) :
  p c = false -> lstrip_by p (c :: s) = c :: s.
Proof. intros Hc. simpl. now rewrite Hc. Qed.

Lemma lstrip_by_idem (s : str) : lstrip_by p (lstrip_by p s) = lstrip_by p s.
Proof.
  destruct (lstrip_by_head s) as [-> | (c & r & -> & Hc)]; [reflexivity|].
  now apply lstrip_by_keep.
Qed.

Lemma lstrip_by_snoc (s : str) (c : char) :
  p c = false -> lstrip_by p (s ++ [c]) = lstrip_by p s ++ [c].
Proof.
  intros Hc. induction s as [|x s IH]; simpl.
  - now rewrite Hc.
  - destruct (p x); [assumption | reflexivity].
Qed.

Lemma rstrip_by_keep (c : char) (s : str) :
  p c = false -> rstrip_by p (c :: s) = c :: rstrip_by p s.
Proof.
  intros Hc. unfold rstrip_by. simpl.
  now rewrite (lstrip_by_snoc _ _ Hc), rev_app_distr.
Qed.

Lemma rstrip_by_idem (s : str) : rstrip_by p (rstrip_by p s) = rstrip_by p s.
Proof. unfold rstrip_by. now rewrite rev_involutive, lstrip_by_idem. Qed.

Lemma strip_by_idem (s : str) : strip_by p (strip_by p s) = strip_by p s.
Proof.
  unfold strip_by.
  destruct (lstrip_by_head s) as [-> | (c & r & -> & Hc)]; [reflexivity|].
  rewrite (rstrip_by_keep _ _ Hc), (lstrip_by_keep _ _ Hc), <- (rstrip_by_keep _ _ Hc).
  apply rstrip_by_idem.
Qed.

Lemma strip_by_all (s : str) : forallb p s = true -> strip_by p s = [].
Proof. intros Hs. unfold strip_by. now rewrite (lstrip_by_all _ Hs). Qed.

Lemma lstrip_by_incl (s : str) : incl (lstrip_by p s) s.
Proof.
  induction s as [|c s IH]; simpl; [apply incl_refl|].
  destruct (p c); [now apply incl_tl | apply incl_refl].
Qed.

Lemma strip_by_incl (s : str) : incl (strip_by p s) s.
Proof.
  unfold strip_by, rstrip_by. intros c Hc.
  apply in_rev, lstrip_by_incl, in_rev in Hc. now apply lstrip_by_incl.
Qed.

End Strip.

Lemma strip_idem (s : str) : strip (strip s) = strip s.
Proof. apply strip_by_idem. Qed.

Lemma forallb_incl (q : char -> bool) (a b : str) :
  incl a b -> forallb q b = true -> forallb q a = true.
Proof.
  rewrite !forallb_forall. intros Hincl Hb c Hc. apply Hb, Hincl, Hc.
Qed.

Lemma strip_blank (s : str) : forallb isspace s = true -> strip s = [].
Proof. apply strip_by_all. Qed.

(* ===================================================================== *)
(** ** The loop over the rows                                             *)
(* ===================================================================== *)

Lemma Forall_if {A : Type} (P : A -> Prop) (b : bool) (x y : list A) :
  Forall P x -> Forall P y -> Forall P (if b then x else y).
Proof. now destruct b. Qed.

Lemma Forall_flat_map_intro {A B : Type} (P : B -> Prop) (f : A -> list B)
  (l : list A) :
  (forall a, In a l -> Forall P (f a)) -> Forall P (flat_map f l).
Proof.
  intros Hf. apply Forall_flat_map, Forall_forall. exact Hf.
Qed.

(** Breaks a [Forall] over a list built with [++], [if], [match] and
    singletons into one goal per element. *)
Ltac forall_pieces :=
  repeat first
    [ apply Forall_nil
    | apply Forall_app; split
    | apply Forall_if
    | apply Forall_cons
    | match goal with
      | |- Forall _ (match ?x with _ => _ end) => destruct x
      | |- Forall _ (let '(_, _) := ?x in _) => destruct x
      end ].

Section Loop.
Context `{PyRuntime}.

Lemma validate_field_codes today f v rt :
  Forall (fun cm => mem_str (fst cm) FIELD_LEVEL_CODES = true)
         (validate_field today f v rt).
Proof.
  unfold validate_field.
  destruct (dict_get FIELD_SPECS f) as [spec|]; [|constructor].
  forall_pieces; reflexivity.
Qed.

Lemma field_errors_shape today row_dict rt n f :
  Forall (fun e => row_number e = n /\ field e = f
                   /\ value e = raw row_dict f
                   /\ mem_str (error_code e) FIELD_LEVEL_CODES = true
                   /\ In (error_code e, message e)
                         (validate_field today f (raw row_dict f) rt))
         (field_errors today row_dict rt n f).
Proof.
  unfold field_errors. apply Forall_flat_map_intro. intros cm Hcm.
  apply Forall_if; constructor; [|constructor]. simpl.
  repeat split; trivial.
  - pose proof (validate_field_codes today f (raw row_dict f) rt) as Hc.
    rewrite Forall_forall in Hc. exact (Hc _ Hcm).
  - now destruct cm.
Qed.

Lemma validate_record_level_shape today row n :
  Forall (fun e => row_number e = n /\ record_level_kind e = true)
         (validate_record_level today row n).
Proof.
  unfold validate_record_level. cbn [flat_map map app].
  forall_pieces; split; reflexivity.
Qed.

Lemma loop_body_blank clk st row :
  blank_row row = true ->
  loop_body clk st row = mkLoop (errors st) (seen_rows st) (row_idx st + 1).
Proof. unfold loop_body, blank_row. now intros ->. Qed.

Lemma loop_body_row_idx clk st row :
  row_idx (loop_body clk st row) = (row_idx st + 1)%Z.
Proof. unfold loop_body. now destruct (negb _). Qed.

Lemma loop_body_seen_rows clk st row :
  seen_rows (loop_body clk st row) = seen_after (seen_rows st) row.
Proof.
  unfold loop_body, seen_after, blank_row. destruct (negb _); reflexivity.
Qed.

Lemma loop_body_errors clk st row :
  errors (loop_body clk st row)
  = errors st ++ row_errors clk (seen_rows st) (row_idx st) row.
Proof.
  unfold row_errors, loop_body. cbn [errors seen_rows row_idx].
  destruct (negb (existsb _ row)); cbn [errors]; [now rewrite app_nil_r|].
  destruct (existsb _ (seen_rows st)); cbn [app]; now rewrite <- ?app_assoc.
Qed.

Lemma row_errors_blank clk seen idx row :
  blank_row row = true -> row_errors clk seen idx row = [].
Proof. intros Hb. unfold row_errors. now rewrite (loop_body_blank _ _ _ Hb). Qed.

(** The errors of a row that is not blank, in the order they are raised. *)
Lemma row_errors_nonblank clk seen idx row :
  blank_row row = false ->
  let n := (idx + 1)%Z in
  let row_dict := combine EXPECTED_COLUMNS (fit_columns row) in
  row_errors clk seen idx row
  = (if negb (len row =? len EXPECTED_COLUMNS)%Z
     then [mkError n (lit "*ROW*") (lit "COLUMN_COUNT")
             (lit "Row must contain " ++ str_of_Z (len EXPECTED_COLUMNS)
              ++ lit " columns, found " ++ str_of_Z (len row) ++ lit ".")
             []]
     else [])
    ++ (if existsb (eqb_row (fit_columns row)) seen
        then [mkError n (lit "*ROW*") (lit "DUPLICATE_ROW")
                (lit "Duplicate row within submission.") []]
        else [])
    ++ flat_map (field_errors (clk n IN_VALIDATE_FIELD) row_dict
                   (stripped row_dict "RecordType") n) EXPECTED_COLUMNS
    ++ validate_record_level (clk n IN_VALIDATE_RECORD_LEVEL) row_dict n.
Proof.
  intros Hb. unfold row_errors, loop_body. unfold blank_row in Hb. rewrite Hb.
  cbn [errors seen_rows row_idx app].
  destruct (existsb _ seen); cbn [errors app]; now rewrite <- ?app_assoc.
Qed.

Lemma fold_loop_errors clk rows : forall st,
  errors (fold_left (loop_body clk) rows st)
  = errors st ++ rows_errors clk (seen_rows st) (row_idx st) rows.
Proof.
  induction rows as [|row rows IH]; intros st; simpl.
  - now rewrite app_nil_r.
  - rewrite IH, loop_body_errors, loop_body_seen_rows, loop_body_row_idx.
    now rewrite app_assoc.
Qed.

Lemma rows_errors_app clk pre : forall seen idx post,
  rows_errors clk seen idx (pre ++ post)
  = rows_errors clk seen idx pre
    ++ rows_errors clk (fold_left seen_after pre seen) (idx + len pre) post.
Proof.
  induction pre as [|row pre IH]; intros seen idx post.
  - simpl. unfold len. simpl. now rewrite Z.add_0_r.
  - cbn [app rows_errors fold_left]. rewrite IH, <- app_assoc.
    do 3 f_equal. unfold len. cbn [List.length]. lia.
Qed.

Lemma row_errors_shape clk seen idx row :
  Forall (fun e => row_number e = (idx + 1)%Z
                   /\ (row_shape_kind e = true
                       \/ (In (field e) EXPECTED_COLUMNS
                           /\ mem_str (error_code e) FIELD_LEVEL_CODES = true)
                       \/ record_level_kind e = true))
         (row_errors clk seen idx row).
Proof.
  destruct (blank_row row) eqn:Hb.
  - rewrite (row_errors_blank _ _ _ _ Hb). constructor.
  - rewrite (row_errors_nonblank _ _ _ _ Hb). cbv zeta.
    apply Forall_app; split; [|apply Forall_app; split; [|apply Forall_app; split]].
    + apply Forall_if; forall_pieces. split; [reflexivity | now left].
    + apply Forall_if; forall_pieces. split; [reflexivity | now left].
    + apply Forall_flat_map_intro. intros f Hf.
      eapply Forall_impl; [|apply field_errors_shape].
      intros e (Hn & Hfield & _ & Hcode & _). split; [assumption|].
      right; left. now rewrite Hfield.
    + eapply Forall_impl; [|apply validate_record_level_shape].
      intros e [Hn Hk]. split; [assumption | now right; right].
Qed.

Lemma rows_errors_numbers clk rows : forall seen idx,
  Forall (fun e => (idx < row_number e <= idx + len rows)%Z)
         (rows_errors clk seen idx rows).
Proof.
  induction rows as [|row rows IH]; intros seen idx; [constructor|].
  cbn [rows_errors]. apply Forall_app; split.
  - eapply Forall_impl; [|apply row_errors_shape].
    intros e [-> _]. unfold len. cbn [List.length]. lia.
  - eapply Forall_impl; [|apply IH].
    intros e He. unfold len in *. cbn [List.length]. lia.
Qed.

Lemma filter_none {A : Type} (q : A -> bool) (l : list A) :
  Forall (fun x => q x = false) l -> filter q l = [].
Proof.
  induction 1 as [|x l Hx _ IH]; simpl; [reflexivity|]. now rewrite Hx.
Qed.

Lemma filter_all {A : Type} (q : A -> bool) (l : list A) :
  Forall (fun x => q x = true) l -> filter q l = l.
Proof.
  induction 1 as [|x l Hx _ IH]; simpl; [reflexivity|]. now rewrite Hx, IH.
Qed.

(** The errors numbered [len pre + 2] are those of the row that comes after
    the rows [pre]. *)
Lemma rows_errors_at clk pre row post :
  filter (at_row (len pre + 2)) (rows_errors clk [] 1 (pre ++ row :: post))
  = row_errors clk (fold_left seen_after pre []) (len pre + 1) row.
Proof.
  rewrite rows_errors_app. cbn [rows_errors]. rewrite !filter_app.
  rewrite filter_none with (l := rows_errors clk [] 1 pre).
  2:{ eapply Forall_impl; [|apply rows_errors_numbers].
      intros e He. cbv beta in He. unfold at_row. apply Z.eqb_neq. lia. }
  rewrite filter_none with (l := rows_errors _ _ _ post).
  2:{ eapply Forall_impl; [|apply rows_errors_numbers].
      intros e He. cbv beta in He. unfold at_row. apply Z.eqb_neq. lia. }
  rewrite app_nil_r. cbn [app]. replace (1 + len pre)%Z with (len pre + 1)%Z by lia.
  apply filter_all. eapply Forall_impl; [|apply row_errors_shape].
  intros e [Hn _]. unfold at_row. apply Z.eqb_eq. lia.
Qed.

(** Every call returns what the reader and the loop give. *)
Lemma validate_csv_text_unfold clk text :
  validate_csv_text clk text
  = match Csv.reader text with
    | None => Raised_csv_Error
    | Some [] => Returned [file_empty]
    | Some (header :: rows) =>
        Returned ((if negb (eqb_row (normalized header) EXPECTED_COLUMNS)
                   then [header_mismatch header] else [])
                  ++ rows_errors clk [] 1 rows)
    end.
Proof.
  unfold validate_csv_text, validate_csv_stream.
  destruct (Csv.reader text) as [[|header rows]|]; try reflexivity.
  now rewrite fold_loop_errors.
Qed.

(** The view of the output the statements about one row use: the errors
    numbered [i + 2] are those of the data row at position [i]. *)
Lemma errors_of_row clk text header rows i row :
  Csv.reader text = Some (header :: rows) ->
  nth_error rows i = Some row ->
  exists errs seen,
    validate_csv_text clk text = Returned errs
    /\ filter (at_row (Z.of_nat i + 2)) errs
       = row_errors clk seen (Z.of_nat i + 1) row.
Proof.
  intros Hread Hnth. rewrite validate_csv_text_unfold, Hread.
  destruct (nth_error_split _ _ Hnth) as (pre & post & -> & <-).
  eexists; exists (fold_left seen_after pre []). split; [reflexivity|].
  rewrite filter_app. rewrite filter_none.
  - apply (rows_errors_at clk pre row post).
  - apply Forall_if; forall_pieces. unfold at_row. cbn [row_number header_mismatch].
    apply Z.eqb_neq. lia.
Qed.

End Loop.

(* ===================================================================== *)
(** ** Where the errors of a row come from                                *)
(* ===================================================================== *)

Section Origins.
Context `{PyRuntime}.

Lemma row_errors_In clk seen idx row e :
  In e (row_errors clk seen idx row) ->
  blank_row row = false
  /\ (row_shape_kind e = true
      \/ (exists g, In g EXPECTED_COLUMNS
                    /\ In e (field_errors (clk (idx + 1)%Z IN_VALIDATE_FIELD)
                               (combine EXPECTED_COLUMNS (fit_columns row))
                               (record_type_of row) (idx + 1) g))
      \/ In e (validate_record_level (clk (idx + 1)%Z IN_VALIDATE_RECORD_LEVEL)
                 (combine EXPECTED_COLUMNS (fit_columns row)) (idx + 1))).
Proof.
  destruct (blank_row row) eqn:Hb.
  - now rewrite (row_errors_blank _ _ _ _ Hb).
  - rewrite (row_errors_nonblank _ _ _ _ Hb). cbv zeta.
    rewrite !in_app_iff, in_flat_map. intros Hin. split; [reflexivity|].
    destruct Hin as [Hcc | [Hdup | [Hfield | Hrec]]].
    + left. destruct (negb _); [|contradiction]. now destruct Hcc as [<-|[]].
    + left. destruct (existsb _ seen); [|contradiction]. now destruct Hdup as [<-|[]].
    + right; left. exact Hfield.
    + right; right. exact Hrec.
Qed.

(** An error on one of the columns with a code of the field validator was
    raised by the field validator on the cell of that column. *)
Lemma field_rule_error_origin clk seen idx row e :
  In e (row_errors clk seen idx row) ->
  record_level_kind e = false ->
  row_shape_kind e = false ->
  In (error_code e, message e)
     (validate_field (clk (idx + 1)%Z IN_VALIDATE_FIELD) (field e)
        (cell row (field e)) (record_type_of row))
  /\ value e = cell row (field e).
Proof.
  intros Hin Hrec Hshape.
  destruct (row_errors_In _ _ _ _ _ Hin) as [_ [Hs | [(g & Hg & Hf) | Hr]]].
  - congruence.
  - pose proof (field_errors_shape (clk (idx + 1)%Z IN_VALIDATE_FIELD)
                  (combine EXPECTED_COLUMNS (fit_columns row))
                  (record_type_of row) (idx + 1) g) as Hall.
    rewrite Forall_forall in Hall.
    destruct (Hall _ Hf) as (_ & -> & Hv & _ & Hcm). now split.
  - pose proof (validate_record_level_shape
                  (clk (idx + 1)%Z IN_VALIDATE_RECORD_LEVEL)
                  (combine EXPECTED_COLUMNS (fit_columns row)) (idx + 1)) as Hall.
    rewrite Forall_forall in Hall. destruct (Hall _ Hr). congruence.
Qed.

Lemma record_level_kind_code e :
  record_level_kind e = true ->
  mem_str (error_code e) FIELD_LEVEL_CODES = true ->
  error_code e = lit "MISSING".
Proof.
  unfold record_level_kind. rewrite existsb_exists.
  intros (fc & Hfc & Heq). apply andb_true_iff in Heq. destruct Heq as [_ Hc].
  apply eqb_str_eq in Hc. rewrite Hc.
  cbn [RECORD_LEVEL_KINDS map] in Hfc.
  repeat (destruct Hfc as [<- | Hfc]; [cbn [snd fst]; try reflexivity; discriminate|]).
  contradiction.
Qed.

Lemma dict_get_combine_In (ks vs : list str) k v :
  dict_get (combine ks vs) k = Some v -> In v vs.
Proof.
  revert vs; induction ks as [|k' ks IH]; intros [|v' vs]; simpl; try discriminate.
  destruct (eqb_str k k'); [intros [= ->]; now left | intros Hget].
  right. now apply IH.
Qed.

Lemma firstn_subset {A : Type} (n : nat) : forall (l : list A) x,
  In x (firstn n l) -> In x l.
Proof.
  induction n as [|n IH]; intros [|y l] x; simpl; try tauto.
  intros [-> | Hx]; [now left | right; now apply IH].
Qed.

Lemma fit_columns_In row c : In c (fit_columns row) -> c = [] \/ In c row.
Proof.
  unfold fit_columns.
  destruct (len row <? len EXPECTED_COLUMNS)%Z.
  - rewrite in_app_iff. intros [Hc | Hc]; [now right|].
    left. now apply repeat_spec in Hc.
  - destruct (len EXPECTED_COLUMNS <? len row)%Z; [|now right].
    intros Hc. right. eapply firstn_subset. exact Hc.
Qed.

(** Every cell of a blank row is blank. *)
Lemma blank_row_cell row f : blank_row row = true -> strip (cell row f) = [].
Proof.
  unfold blank_row, cell, raw. rewrite negb_true_iff. intros Hb.
  destruct (dict_get _ f) as [v|] eqn:Hget; [|reflexivity].
  apply dict_get_combine_In, fit_columns_In in Hget.
  destruct Hget as [-> | Hin]; [reflexivity|].
  apply eqb_str_eq. apply negb_false_iff.
  destruct (negb (eqb_str (strip v) [])) eqn:Hv; [|reflexivity].
  assert (Hex : existsb (fun cell => negb (eqb_str (strip cell) [])) row = true).
  { apply existsb_exists. now exists v. }
  congruence.
Qed.

Lemma record_type_of_cell row :
  record_type_of row = strip (cell row (lit "RecordType")).
Proof. reflexivity. Qed.

Lemma stripped_cell row f :
  stripped (combine EXPECTED_COLUMNS (fit_columns row)) f = strip (cell row (lit f)).
Proof. reflexivity. Qed.

Lemma nonblank_cell row f : strip (cell row f) <> [] -> blank_row row = false.
Proof.
  intros Hc. destruct (blank_row row) eqn:Hb; [|reflexivity].
  now rewrite (blank_row_cell row f Hb) in Hc.
Qed.

Lemma field_level_code_In c :
  mem_str c FIELD_LEVEL_CODES = true ->
  c = lit "MISSING" \/ c = lit "DATE_FORMAT" \/ c = lit "DATE_RANGE"
  \/ c = lit "VALUE" \/ c = lit "PATTERN" \/ c = lit "LENGTH"
  \/ c = lit "MIN_LENGTH" \/ c = lit "MAX_LENGTH".
Proof.
  rewrite mem_str_In. cbn [FIELD_LEVEL_CODES map In]. intuition congruence.
Qed.

(** A test that rejects the errors on the shape of the row and the errors
    of the field validator keeps, from the errors of a row, record-level
    errors only. *)
Lemma filter_row_errors_record_level (q : ValidationError -> bool) clk seen idx row :
  (forall e, row_shape_kind e = true -> q e = false) ->
  (forall e, mem_str (error_code e) FIELD_LEVEL_CODES = true ->
             In (field e) EXPECTED_COLUMNS -> q e = false) ->
  blank_row row = false ->
  filter q (row_errors clk seen idx row)
  = filter q (validate_record_level (clk (idx + 1)%Z IN_VALIDATE_RECORD_LEVEL)
                (combine EXPECTED_COLUMNS (fit_columns row)) (idx + 1)).
Proof.
  intros Hshape Hfield Hb.
  rewrite (row_errors_nonblank _ _ _ _ Hb). cbv zeta. rewrite !filter_app.
  rewrite filter_none, filter_none, filter_none; [reflexivity | | |].
  - apply Forall_flat_map_intro. intros g Hg.
    eapply Forall_impl; [|apply field_errors_shape].
    intros e (_ & Hf & _ & Hc & _). apply Hfield; [exact Hc | now rewrite Hf].
  - apply Forall_if; forall_pieces. now apply Hshape.
  - apply Forall_if; forall_pieces. now apply Hshape.
Qed.

Lemma filter_filter {A : Type} (p q : A -> bool) (l : list A) :
  filter (fun x => p x && q x) l = filter q (filter p l).
Proof.
  induction l as [|x l IH]; simpl; [reflexivity|].
  destruct (p x); simpl; [destruct (q x); now rewrite IH | exact IH].
Qed.

End Origins.

(* ===================================================================== *)
(** ** The placeholder -2                                                 *)
(* ===================================================================== *)

Section Minus2.
Context `{PyRuntime}.

Lemma minus2_field_spec f :
  In f EXCLUSION_MINUS2_FIELDS ->
  exists spec, dict_get FIELD_SPECS f = Some spec
               /\ FieldSpec.allow_minus2 spec = true.
Proof.
  intros Hf. cbn [EXCLUSION_MINUS2_FIELDS map] in Hf.
  repeat (destruct Hf as [<- | Hf]; [eexists; split; reflexivity|]).
  contradiction.
Qed.

Lemma minus2_not_row_marker f :
  In f EXCLUSION_MINUS2_FIELDS -> f <> lit "*ROW*".
Proof.
  intros Hf. cbn [EXCLUSION_MINUS2_FIELDS map] in Hf.
  repeat (destruct Hf as [<- | Hf]; [discriminate|]).
  contradiction.
Qed.

(** The field validator stops at the -2 test, before the date, value,
    pattern and length rules. *)
Lemma validate_field_minus2 today f spec value record_type :
  dict_get FIELD_SPECS f = Some spec ->
  FieldSpec.allow_minus2 spec = true ->
  strip value = lit "-2" ->
  validate_field today f value record_type = [].
Proof.
  intros Hget Hallow Hv. unfold validate_field. rewrite Hget, Hv, Hallow.
  change (eqb_str (lit "-2") []) with false.
  rewrite andb_false_r. reflexivity.
Qed.

Lemma value_pattern_length_codes c :
  mem_str c VALUE_PATTERN_LENGTH_CODES = true ->
  mem_str c FIELD_LEVEL_CODES = true /\ c <> lit "MISSING".
Proof.
  rewrite mem_str_In. intros Hc. cbn [VALUE_PATTERN_LENGTH_CODES map] in Hc.
  repeat (destruct Hc as [<- | Hc]; [split; [reflexivity | discriminate]|]).
  contradiction.
Qed.

(** C1. On each of the twelve fields where -2 is permitted, and for every
    record type, a cell whose trimmed value is -2 gets no error from the
    field validator, which returns at the -2 test before the value, pattern
    and length rules; and the output of the pipeline holds no VALUE,
    PATTERN, LENGTH, MIN_LENGTH or MAX_LENGTH error for that field at the
    number of that row. *)
Theorem minus2_on_permitted_field clk text header rows i row f :
  In f EXCLUSION_MINUS2_FIELDS ->
  Csv.reader text = Some (header :: rows) ->
  nth_error rows i = Some row ->
  strip (cell row f) = lit "-2" ->
  (forall today record_type,
      validate_field today f (cell row f) record_type = [])
  /\ exists errs,
       validate_csv_text clk text = Returned errs
       /\ forall e, In e errs ->
            row_number e = (Z.of_nat i + 2)%Z -> field e = f ->
            mem_str (error_code e) VALUE_PATTERN_LENGTH_CODES = false.
Proof.
  intros Hf Hread Hnth Hv.
  destruct (minus2_field_spec _ Hf) as (spec & Hget & Hallow).
  assert (Hfield : forall today record_type,
             validate_field today f (cell row f) record_type = []).
  { intros. now apply validate_field_minus2 with (spec := spec). }
  split; [exact Hfield|].
  destruct (errors_of_row clk _ _ _ _ _ Hread Hnth) as (errs & seen & Hret & Hrow).
  exists errs. split; [exact Hret|].
  intros e He Hn Hfe.
  destruct (mem_str (error_code e) VALUE_PATTERN_LENGTH_CODES) eqn:Hcode;
    [exfalso | reflexivity].
  destruct (value_pattern_length_codes _ Hcode) as [Hfc Hmissing].
  assert (Hin : In e (row_errors clk seen (Z.of_nat i + 1) row)).
  { rewrite <- Hrow. apply filter_In. split; [exact He|].
    unfold at_row. now apply Z.eqb_eq. }
  destruct (record_level_kind e) eqn:Hrec.
  { now apply Hmissing, record_level_kind_code. }
  destruct (row_shape_kind e) eqn:Hshape.
  { unfold row_shape_kind in Hshape. apply andb_true_iff in Hshape.
    destruct Hshape as [Hrowf _]. apply eqb_str_eq in Hrowf.
    apply (minus2_not_row_marker _ Hf). congruence. }
  destruct (field_rule_error_origin _ _ _ _ _ Hin Hrec Hshape) as [Horigin _].
  rewrite Hfe, Hfield in Horigin. exact Horigin.
Qed.

End Minus2.

Lemma minus2_on_permitted_field_witness :
  exists errs,
    @validate_csv_text example_runtime (fixed_clock example_today)
      (submission [ENTRY_ROW]) = Returned errs
    /\ forall e, In e errs ->
         row_number e = 2%Z -> field e = lit "UKPRN" ->
         mem_str (error_code e) VALUE_PATTERN_LENGTH_CODES = false.
Proof.
  refine (proj2 (@minus2_on_permitted_field example_runtime
                   (fixed_clock example_today) (submission [ENTRY_ROW])
                   _ _ 0 _ (lit "UKPRN") _ _ _ _)).
  - apply mem_str_In. reflexivity.
  - vm_compute. reflexivity.
  - reflexivity.
  - vm_compute. reflexivity.
Defined.

(* ===================================================================== *)
(** ** Dates                                                              *)
(* ===================================================================== *)

Section Dates.
Context `{PyRuntime}.

Import Datetime.

Lemma try_formats_cases v fmts :
  (try_formats v fmts = (None, false)
   /\ forall fmt, In fmt fmts -> strptime v fmt = None)
  \/ exists fmt dt, In fmt fmts /\ strptime v fmt = Some dt
                    /\ try_formats v fmts = (Some dt, false).
Proof.
  induction fmts as [|fmt fmts IH]; simpl.
  - left. split; [reflexivity | intros ? []].
  - destruct (strptime v fmt) as [dt|] eqn:Hfmt.
    + right. exists fmt, dt. auto.
    + destruct IH as [[Hnone Hall] | (fmt' & dt & Hin & Hp & Ht)].
      * left. split; [exact Hnone|]. intros g [<- | Hg]; auto.
      * right. exists fmt', dt. auto.
Qed.

Lemma parse_date_strip value : parse_date (strip value) = parse_date value.
Proof. unfold parse_date. now rewrite strip_idem. Qed.

Lemma strptime_valid v fmt dt : strptime v fmt = Some dt -> valid_date dt.
Proof.
  unfold strptime, valid_date.
  destruct (match_seq (format_regex fmt) v) as [|[caps [|c rest]] l]; try discriminate.
  destruct (groups fmt caps) as [[[y m] d]|]; try discriminate.
  destruct (py_int y) as [yy|], (py_int m) as [mm|], (py_int d) as [dd|];
    try discriminate.
  unfold date_new. destruct (_ && _) eqn:Hok; [|discriminate].
  intros [= <-]. cbn [year month day]. now rewrite Hok.
Qed.

Lemma parse_date_valid value dt b :
  parse_date value = (Some dt, b) -> valid_date dt.
Proof.
  unfold parse_date.
  destruct (eqb_str (strip value) []); [discriminate|].
  destruct (mem_str (strip value) SENTINEL_DATES); [discriminate|].
  destruct (try_formats_cases (strip value) DATE_FORMATS)
    as [[Hnone _] | (fmt & dt' & _ & Hfmt & Ht)]; rewrite ?Hnone, ?Ht;
    [discriminate|].
  intros [= <- _]. exact (strptime_valid _ _ _ Hfmt).
Qed.

Lemma Qltb_lt a b : Qltb a b = true <-> (a < b)%Q.
Proof.
  unfold Qltb. rewrite negb_true_iff. split.
  - intros Hle. apply Qnot_le_lt. intros Hba. apply Qle_bool_iff in Hba.
    congruence.
  - intros Hlt. destruct (Qle_bool b a) eqn:Hle; [|reflexivity].
    apply Qle_bool_iff in Hle. exfalso. exact (Qlt_not_le _ _ Hlt Hle).
Qed.

(** The age test on day counts: more than 80 years is more than 29220
    days, less than 5 years is at most 1826 days. *)
Lemma age_above_80 today dt :
  (80 < age_in_years today dt)%Q <-> (29220 < days_between today dt)%Z.
Proof.
  unfold age_in_years, Qlt, Qdiv, Qmult, Qinv, inject_Z. cbn -[Z.mul]. lia.
Qed.

Lemma age_below_5 today dt :
  (age_in_years today dt < 5)%Q <-> (days_between today dt <= 1826)%Z.
Proof.
  unfold age_in_years, Qlt, Qdiv, Qmult, Qinv, inject_Z. cbn -[Z.mul]. lia.
Qed.

Local Open Scope Z_scope.

Lemma days_before_year_mono a b :
  a <= b -> days_before_year a <= days_before_year b.
Proof.
  unfold days_before_year. cbv zeta. intros Hab.
  Z.div_mod_to_equations. lia.
Qed.

Lemma days_before_year_succ y :
  days_before_year (y + 1)
  = days_before_year y + 365 + (if is_leap y then 1 else 0).
Proof.
  unfold days_before_year, is_leap. cbv zeta.
  replace (y + 1 - 1) with y by lia.
  destruct (y mod 4 =? 0) eqn:H4; destruct (y mod 100 =? 0) eqn:H100;
    destruct (y mod 400 =? 0) eqn:H400; cbn [andb orb negb];
    rewrite ?Z.eqb_eq, ?Z.eqb_neq in *; Z.div_mod_to_equations; lia.
Qed.

Lemma valid_date_bounds d :
  valid_date d ->
  1 <= year d <= 9999 /\ 1 <= month d <= 12
  /\ 1 <= day d <= days_in_month (year d) (month d).
Proof.
  unfold valid_date, date_new. destruct (_ && _) eqn:Hok; [|discriminate].
  intros _. rewrite !andb_true_iff, !Z.leb_le in Hok. lia.
Qed.

(** The day of the year of a date object lies within its year. *)
Lemma day_of_year_bounds d :
  valid_date d ->
  1 <= days_before_month (year d) (month d) + day d
    <= 365 + (if is_leap (year d) then 1 else 0).
Proof.
  intros Hv. destruct (valid_date_bounds d Hv) as (_ & Hm & Hd).
  destruct d as [y m dd]. cbn [year month day] in *.
  assert (Hcases : m = 1 \/ m = 2 \/ m = 3 \/ m = 4 \/ m = 5 \/ m = 6 \/ m = 7
                   \/ m = 8 \/ m = 9 \/ m = 10 \/ m = 11 \/ m = 12) by lia.
  unfold days_before_month, days_in_month in *.
  destruct (is_leap y);
    repeat (destruct Hcases as [-> | Hcases]);
    try subst m;
    match goal with
    | |- context [nth ?k ?l ?d] =>
        let v := eval vm_compute in (nth k l d) in change (nth k l d) with v
    end;
    cbn -[Z.add] in *; lia.
Qed.

(** A date object before 1900-01-01 is day 693595 at the latest, and one
    not before 1980-01-02 is day 722816 at the earliest: more than 29220
    days apart. *)
Lemma toordinal_before_1900 d :
  valid_date d -> date_ltb d (mkdate 1900 1 1) = true -> toordinal d <= 693595.
Proof.
  intros Hv Hlt. pose proof (day_of_year_bounds d Hv) as Hdoy.
  destruct (valid_date_bounds d Hv) as (_ & Hm & Hd).
  unfold date_ltb in Hlt. cbn [year month day] in Hlt.
  assert (Hy : year d + 1 <= 1900).
  { rewrite !orb_true_iff, !andb_true_iff, !orb_true_iff, !andb_true_iff in Hlt.
    rewrite !Z.ltb_lt, !Z.eqb_eq in Hlt. lia. }
  apply days_before_year_mono in Hy. rewrite days_before_year_succ in Hy.
  change (days_before_year 1900) with 693595 in Hy.
  unfold toordinal. lia.
Qed.

Lemma toordinal_from_1980_01_02 d :
  valid_date d -> date_ltb d (mkdate 1980 1 2) = false -> 722816 <= toordinal d.
Proof.
  intros Hv Hge. pose proof (day_of_year_bounds d Hv) as Hdoy.
  destruct (valid_date_bounds d Hv) as (_ & Hm & Hd).
  unfold date_ltb in Hge. cbn [year month day] in Hge.
  rewrite !orb_false_iff, !andb_false_iff, !orb_false_iff, !andb_false_iff in Hge.
  rewrite !Z.ltb_ge, !Z.eqb_neq in Hge.
  unfold toordinal.
  destruct (Z.eq_dec (year d) 1980) as [Hy | Hy].
  - rewrite Hy in *. change (days_before_year 1980) with 722814.
    destruct (Z.eq_dec (month d) 1) as [Hm1 | Hm1].
    + rewrite Hm1 in *. change (days_before_month 1980 1) with 0%Z. lia.
    + assert (31 <= days_before_month 1980 (month d)).
      { assert (Hcases : month d = 2 \/ month d = 3 \/ month d = 4 \/ month d = 5
                         \/ month d = 6 \/ month d = 7 \/ month d = 8
                         \/ month d = 9 \/ month d = 10 \/ month d = 11
                         \/ month d = 12) by lia.
        repeat (destruct Hcases as [-> | Hcases]); try rewrite Hcases;
          vm_compute; discriminate. }
      lia.
  - assert (Hy' : 1981 <= year d) by lia.
    apply days_before_year_mono in Hy'.
    change (days_before_year 1981) with 723180 in Hy'. lia.
Qed.

Local Close Scope Z_scope.

Lemma dob_field_spec :
  dict_get FIELD_SPECS (lit "DOB")
  = Some (snd (field_spec "DOB" false false None None None None None
                 (Some (lit "date")))).
Proof. reflexivity. Qed.

(** What the field validator returns on a DOB that parses to a date. *)
Lemma validate_field_dob today value record_type dt :
  strip value <> [] ->
  parse_date value = (Some dt, false) ->
  validate_field today (lit "DOB") value record_type
  = (if date_ltb dt (mkdate 1900 1 1)
     then [before_1900_error (strip value)] else [])
    ++ (if Qltb (age_in_years today dt) 5 || Qltb 80 (age_in_years today dt)
        then [age_error (strip value)] else []).
Proof.
  intros Hblank Hparse. unfold validate_field.
  rewrite dob_field_spec. cbn [snd field_spec FieldSpec.mandatory
    FieldSpec.allow_minus2 FieldSpec.type andb].
  apply eqb_str_neq in Hblank. rewrite Hblank, andb_false_r.
  change (eqb_str (lit "date") (lit "date")) with true. cbv iota.
  rewrite parse_date_strip, Hparse.
  change (eqb_str (lit "DOB") (lit "DOB")) with true. reflexivity.
Qed.

Lemma age_error_not_before_1900_error v : age_error v <> before_1900_error v.
Proof. unfold age_error, before_1900_error. intros [= Hmsg]. Qed.

(** C2, as the code has it. The parser has three outcomes: a calendar date
    [(date, False)], the sentinel marker [(None, True)], and no date
    [(None, False)]. Input that trims to empty gives [(None, False)], and so
    does text that is not blank, is not a sentinel spelling and matches
    neither format: the two are the same value. A date is returned exactly
    when a format parses the trimmed text. *)
Theorem parse_date_outcomes value :
  (strip value = [] -> parse_date value = (None, false))
  /\ (strip value <> [] -> mem_str (strip value) SENTINEL_DATES = true ->
      parse_date value = (None, true))
  /\ (strip value <> [] -> mem_str (strip value) SENTINEL_DATES = false ->
      (forall fmt, In fmt DATE_FORMATS -> strptime (strip value) fmt = None) ->
      parse_date value = (None, false))
  /\ (parse_date value = (None, false)
      \/ parse_date value = (None, true)
      \/ exists dt fmt, parse_date value = (Some dt, false)
                        /\ In fmt DATE_FORMATS
                        /\ strptime (strip value) fmt = Some dt).
Proof.
  unfold parse_date.
  destruct (eqb_str (strip value) []) eqn:Hblank.
  - apply eqb_str_eq in Hblank. repeat split; auto; congruence.
  - apply eqb_str_neq in Hblank.
    destruct (mem_str (strip value) SENTINEL_DATES) eqn:Hsent.
    + repeat split; auto; congruence.
    + destruct (try_formats_cases (strip value) DATE_FORMATS)
        as [[Hnone Hall] | (fmt & dt & Hin & Hp & Ht)].
      * repeat split; auto; congruence.
      * repeat split; try congruence.
        -- intros _ _ Hall. rewrite (Hall _ Hin) in Hp. discriminate.
        -- right; right. exists dt, fmt. auto.
Qed.

Lemma age_out_of_range today dt :
  Qltb (age_in_years today dt) 5 || Qltb 80 (age_in_years today dt) = true
  <-> (age_in_years today dt < 5 \/ 80 < age_in_years today dt)%Q.
Proof. now rewrite orb_true_iff, !Qltb_lt. Qed.

(** C7. On a DOB that is not blank and parses to a calendar date, the field
    validator raises the DATE_RANGE error of the age rule exactly when the
    age, (today - date) / 365.25 years, is below 5 or above 80; a DOB on or
    after 1900-01-01 with an age within 5 and 80 gets no DATE_RANGE error at
    all. The rule on dates before 1900 raises a DATE_RANGE error of its own:
    on any day from 1980-01-02 on such a date is also older than 80, so
    that then a DATE_RANGE error of either kind is raised exactly when the
    age is out of range. *)
Theorem dob_age_range today value record_type dt :
  strip value <> [] ->
  parse_date value = (Some dt, false) ->
  let age := age_in_years today dt in
  let out := validate_field today (lit "DOB") value record_type in
  (In (age_error (strip value)) out <-> (age < 5 \/ 80 < age)%Q)
  /\ (date_ltb dt (mkdate 1900 1 1) = false -> (5 <= age)%Q -> (age <= 80)%Q ->
      forall cm, In cm out -> fst cm <> lit "DATE_RANGE")
  /\ (valid_date today -> date_ltb today (mkdate 1980 1 2) = false ->
      ((exists cm, In cm out /\ fst cm = lit "DATE_RANGE")
       <-> (age < 5 \/ 80 < age)%Q)).
Proof.
  intros Hblank Hparse age out. subst out.
  rewrite (validate_field_dob today value record_type dt Hblank Hparse).
  fold age. pose proof (age_out_of_range today dt) as Hrange. fold age in Hrange.
  split; [|split].
  - rewrite in_app_iff. split.
    + intros [Hin | Hin].
      * destruct (date_ltb dt (mkdate 1900 1 1)); [|contradiction].
        destruct Hin as [Heq | []]. symmetry in Heq.
        now apply age_error_not_before_1900_error in Heq.
      * apply Hrange. destruct (_ || _); [reflexivity | contradiction].
    + intros Hout. apply Hrange in Hout. rewrite Hout. right. now left.
  - intros H1900 Hlo Hhi cm. rewrite H1900.
    destruct (Qltb age 5 || Qltb 80 age) eqn:Hcond; [|intros []].
    exfalso.
    destruct (proj1 Hrange eq_refl) as [Hc | Hc]; [exact (Qlt_not_le _ _ Hc Hlo)|].
    exact (Qlt_not_le _ _ Hc Hhi).
  - intros Htoday H1980. split.
    + intros (cm & Hin & _). apply in_app_iff in Hin. destruct Hin as [Hin | Hin].
      * destruct (date_ltb dt (mkdate 1900 1 1)) eqn:H1900; [|contradiction].
        right. apply age_above_80. unfold days_between.
        pose proof (toordinal_before_1900 dt (parse_date_valid _ _ _ Hparse) H1900).
        pose proof (toordinal_from_1980_01_02 today Htoday H1980). lia.
      * apply Hrange. destruct (_ || _); [reflexivity | contradiction].
    + intros Hout. apply Hrange in Hout. rewrite Hout.
      exists (age_error (strip value)). split; [|reflexivity].
      apply in_app_iff. right. now left.
Qed.

End Dates.

Lemma dob_age_range_witness :
  @validate_field example_runtime example_today (lit "DOB") (lit "01/01/2010")
    (lit "Entry") = []
  /\ In (@age_error example_runtime (lit "01/01/2024"))
        (@validate_field example_runtime example_today (lit "DOB")
           (lit "01/01/2024") (lit "Entry")).
Proof.
  split.
  - destruct (@validate_field example_runtime example_today (lit "DOB")
                (lit "01/01/2010") (lit "Entry")) as [|cm out] eqn:Hout;
      [reflexivity | exfalso].
    refine (proj1 (proj2 (@dob_age_range example_runtime example_today
                            (lit "01/01/2010") (lit "Entry")
                            (Datetime.mkdate 2010 1 1) _ _)) _ _ _ cm _ _).
    + discriminate.
    + reflexivity.
    + reflexivity.
    + vm_compute. discriminate.
    + vm_compute. discriminate.
    + rewrite Hout. now left.
    + vm_compute in Hout. discriminate.
  - refine (proj2 (proj1 (@dob_age_range example_runtime example_today
                            (lit "01/01/2024") (lit "Entry")
                            (Datetime.mkdate 2024 1 1) _ _)) _).
    + discriminate.
    + reflexivity.
    + left. vm_compute. reflexivity.
Defined.

Lemma parse_date_outcomes_witness :
  @parse_date example_runtime (lit "  ") = (None, false)
  /\ @parse_date example_runtime (lit " 31/12/2999") = (None, true)
  /\ @parse_date example_runtime (lit "31-12-2024") = (None, false).
Proof.
  split; [|split].
  - apply (proj1 (@parse_date_outcomes example_runtime (lit "  "))).
    reflexivity.
  - apply (proj1 (proj2 (@parse_date_outcomes example_runtime
                           (lit " 31/12/2999"))));
      [discriminate | reflexivity].
  - apply (proj1 (proj2 (proj2 (@parse_date_outcomes example_runtime
                                  (lit "31-12-2024")))));
      [discriminate | reflexivity |].
    intros fmt [<- | [<- | []]]; reflexivity.
Defined.

(** The blank outcome and the unparsable outcome are one value. *)
Lemma parse_date_blank_is_unparsable :
  strip (lit "  ") = []
  /\ strip (lit "31-12-2024") <> []
  /\ mem_str (strip (lit "31-12-2024")) SENTINEL_DATES = false
  /\ @Datetime.strptime example_runtime (strip (lit "31-12-2024"))
       Datetime.ISO_FORMAT = None
  /\ @Datetime.strptime example_runtime (strip (lit "31-12-2024"))
       Datetime.DMY_FORMAT = None
  /\ @parse_date example_runtime (lit "  ")
     = @parse_date example_runtime (lit "31-12-2024").
Proof. repeat split; try reflexivity. discriminate. Qed.

(* ===================================================================== *)
(** ** Record-level rules                                                 *)
(* ===================================================================== *)

(** Decides the test of a [filter] on a singleton whose field and code are
    known. *)
Ltac filter_singletons :=
  repeat match goal with
         | |- context [filter ?q [?e]] =>
             let b := eval vm_compute in (q e) in
             change (filter q [e]) with (if b then [e] else @nil ValidationError);
             cbv iota
         end.

Section RecordRules.
Context `{PyRuntime}.

Import Datetime.

Lemma row_shape_kind_field e : row_shape_kind e = true -> field e = lit "*ROW*".
Proof.
  unfold row_shape_kind. rewrite andb_true_iff. intros [Hf _].
  now apply eqb_str_eq.
Qed.

(** On an Entry record the grade rule is the one record-level rule that
    raises ENTRY_RULE on QualificationGrade. *)
Lemma entry_rule_on_grade today row n :
  stripped row "RecordType" = lit "Entry" ->
  filter (fun e => has_code "ENTRY_RULE" e && on_field (lit "QualificationGrade") e)
         (validate_record_level today row n)
  = if negb (eqb_str (stripped row "QualificationGrade") (lit "-2"))
    then [entry_grade_error n (stripped row "QualificationGrade")]
    else [].
Proof.
  intros Hrt. unfold validate_record_level. rewrite Hrt.
  change (mem_str (lit "Entry") (map lit ["Result"; "Amendment"]%string)) with false.
  change (eqb_str (lit "Entry") (lit "Entry")) with true.
  cbv iota. cbn [flat_map map app]. rewrite !filter_app.
  repeat match goal with
         | |- context [if ?c then [_] else []] =>
             lazymatch c with
             | negb (eqb_str (stripped row "QualificationGrade") _) => fail
             | _ => destruct c
             end
         end;
    destruct (negb (eqb_str (stripped row "QualificationGrade") (lit "-2")));
    filter_singletons; reflexivity.
Qed.

(** C3. For a row whose trimmed RecordType is Entry and whose trimmed
    QualificationGrade is not -2, the output holds, at the number of that
    row, exactly one error with code ENTRY_RULE on field QualificationGrade,
    and that error carries the trimmed QualificationGrade. This holds
    whatever the field validator finds on the grade. *)
Theorem entry_grade_rule clk text header rows i row :
  Csv.reader text = Some (header :: rows) ->
  nth_error rows i = Some row ->
  record_type_of row = lit "Entry" ->
  strip (cell row (lit "QualificationGrade")) <> lit "-2" ->
  exists errs,
    validate_csv_text clk text = Returned errs
    /\ filter (fun e => at_row (Z.of_nat i + 2) e
                        && (has_code "ENTRY_RULE" e
                            && on_field (lit "QualificationGrade") e)) errs
       = [entry_grade_error (Z.of_nat i + 2)
            (strip (cell row (lit "QualificationGrade")))].
Proof.
  intros Hread Hnth Hrt Hqg.
  destruct (errors_of_row clk _ _ _ _ _ Hread Hnth) as (errs & seen & Hret & Hrow).
  exists errs. split; [exact Hret|].
  rewrite filter_filter, Hrow.
  rewrite filter_row_errors_record_level.
  - replace (Z.of_nat i + 1 + 1)%Z with (Z.of_nat i + 2)%Z by lia.
    rewrite (entry_rule_on_grade _ _ _ Hrt), stripped_cell.
    apply eqb_str_neq in Hqg. now rewrite Hqg.
  - intros e He. apply row_shape_kind_field in He.
    unfold on_field. rewrite He. apply andb_false_r.
  - intros e Hc _. unfold has_code.
    destruct (field_level_code_In _ Hc) as [-> | [-> | [-> | [-> | [-> | [-> | [-> | ->]]]]]]];
      reflexivity.
  - apply (nonblank_cell row (lit "RecordType")).
    rewrite <- record_type_of_cell, Hrt. discriminate.
Qed.

Lemma award_before_entry today row n aw fe :
  mem_str (stripped row "RecordType") (map lit ["Result"; "Amendment"]%string) = true ->
  parse_date (stripped row "AwardDate") = (Some aw, false) ->
  parse_date (stripped row "FirstEntryDate") = (Some fe, false) ->
  date_ltb aw fe = true ->
  In (award_before_entry_error n (stripped row "AwardDate"))
     (validate_record_level today row n).
Proof.
  intros Hrt Haw Hfe Hlt. unfold validate_record_level.
  rewrite Hrt, Haw, Hfe, Hlt.
  destruct (parse_date (stripped row "RegistrationDate")) as [reg_dt reg_sent].
  do 3 (apply in_or_app; right).
  do 4 (apply in_or_app; right). apply in_or_app; left. now left.
Qed.

(** C4. For a row whose trimmed RecordType is Result or Amendment, if
    AwardDate and FirstEntryDate both parse to calendar dates and AwardDate
    is before FirstEntryDate, the output holds a DATE_ORDER error on field
    AwardDate at the number of that row. *)
Theorem award_before_first_entry clk text header rows i row aw fe :
  Csv.reader text = Some (header :: rows) ->
  nth_error rows i = Some row ->
  record_type_of row = lit "Result" \/ record_type_of row = lit "Amendment" ->
  parse_date (cell row (lit "AwardDate")) = (Some aw, false) ->
  parse_date (cell row (lit "FirstEntryDate")) = (Some fe, false) ->
  date_ltb aw fe = true ->
  exists errs,
    validate_csv_text clk text = Returned errs
    /\ In (award_before_entry_error (Z.of_nat i + 2)
             (strip (cell row (lit "AwardDate")))) errs.
Proof.
  intros Hread Hnth Hrt Haw Hfe Hlt.
  destruct (errors_of_row clk _ _ _ _ _ Hread Hnth) as (errs & seen & Hret & Hrow).
  exists errs. split; [exact Hret|].
  assert (Hb : blank_row row = false).
  { apply (nonblank_cell row (lit "RecordType")). rewrite <- record_type_of_cell.
    destruct Hrt as [-> | ->]; discriminate. }
  cut (In (award_before_entry_error (Z.of_nat i + 2)
             (strip (cell row (lit "AwardDate"))))
          (filter (at_row (Z.of_nat i + 2)) errs)).
  { intros Hin. now apply filter_In in Hin. }
  rewrite Hrow, (row_errors_nonblank _ _ _ _ Hb). cbv zeta.
  do 3 (apply in_or_app; right).
  replace (Z.of_nat i + 1 + 1)%Z with (Z.of_nat i + 2)%Z by lia.
  apply award_before_entry with (aw := aw) (fe := fe).
  - fold (record_type_of row). destruct Hrt as [-> | ->]; reflexivity.
  - rewrite stripped_cell, parse_date_strip. exact Haw.
  - rewrite stripped_cell, parse_date_strip. exact Hfe.
  - exact Hlt.
Qed.

Lemma sentinel_not_blank v : mem_str v SENTINEL_DATES = true -> v <> [].
Proof.
  rewrite mem_str_In. cbn [SENTINEL_DATES map In].
  intros [<- | [<- | []]]; discriminate.
Qed.

Lemma parse_date_sentinel value :
  mem_str (strip value) SENTINEL_DATES = true -> parse_date value = (None, true).
Proof.
  intros Hs. unfold parse_date. rewrite Hs.
  pose proof (sentinel_not_blank _ Hs) as Hblank.
  apply eqb_str_neq in Hblank. now rewrite Hblank.
Qed.

Lemma registration_date_field_spec :
  dict_get FIELD_SPECS (lit "RegistrationDate")
  = Some (snd (field_spec "RegistrationDate" true false None None None None None
                 (Some (lit "date")))).
Proof. reflexivity. Qed.

(** The field validator accepts a sentinel RegistrationDate. *)
Lemma validate_field_registration_sentinel today value record_type :
  mem_str (strip value) SENTINEL_DATES = true ->
  validate_field today (lit "RegistrationDate") value record_type = [].
Proof.
  intros Hs. unfold validate_field. rewrite registration_date_field_spec.
  cbn [snd field_spec FieldSpec.mandatory FieldSpec.allow_minus2 FieldSpec.type].
  pose proof (sentinel_not_blank _ Hs) as Hblank.
  apply eqb_str_neq in Hblank. rewrite Hblank, !andb_false_r.
  change (eqb_str (lit "date") (lit "date")) with true. cbv iota.
  now rewrite parse_date_strip, (parse_date_sentinel _ Hs).
Qed.

(** With a sentinel RegistrationDate the record-level date rules raise
    errors on FirstEntryDate and AwardDate only, with the value of that
    field, and the one DATE_ORDER error left is the comparison of AwardDate
    with FirstEntryDate. *)
Lemma record_level_registration_sentinel today row n :
  parse_date (stripped row "RegistrationDate") = (None, true) ->
  Forall (fun e =>
            (mem_str (error_code e) DATE_RULE_CODES = true ->
             (field e = lit "FirstEntryDate"
              /\ value e = stripped row "FirstEntryDate")
             \/ (field e = lit "AwardDate"
                 /\ value e = stripped row "AwardDate"))
            /\ (error_code e = lit "DATE_ORDER" ->
                e = award_before_entry_error n (stripped row "AwardDate")))
         (validate_record_level today row n).
Proof.
  intros Hreg. unfold validate_record_level. rewrite Hreg.
  cbn [flat_map map app].
  forall_pieces;
    (split; intros Hc;
     first [ reflexivity
           | left; split; reflexivity
           | right; split; reflexivity
           | vm_compute in Hc; discriminate Hc ]).
Qed.

Lemma record_level_kind_not_registration e :
  record_level_kind e = true -> field e <> lit "RegistrationDate".
Proof.
  unfold record_level_kind. rewrite existsb_exists.
  intros (fc & Hfc & Heq). apply andb_true_iff in Heq. destruct Heq as [Hf _].
  apply eqb_str_eq in Hf. rewrite Hf.
  cbn [RECORD_LEVEL_KINDS map] in Hfc.
  repeat (destruct Hfc as [<- | Hfc]; [discriminate|]). contradiction.
Qed.

Lemma field_level_not_date_rule c :
  mem_str c FIELD_LEVEL_CODES = true ->
  mem_str c DATE_RULE_CODES = false /\ c <> lit "DATE_ORDER".
Proof.
  intros Hc.
  destruct (field_level_code_In _ Hc) as [-> | [-> | [-> | [-> | [-> | [-> | [-> | ->]]]]]]];
    split; (reflexivity || discriminate).
Qed.

Lemma row_shape_not_date_rule e :
  row_shape_kind e = true ->
  mem_str (error_code e) DATE_RULE_CODES = false
  /\ error_code e <> lit "DATE_ORDER".
Proof.
  unfold row_shape_kind. rewrite andb_true_iff, mem_str_In.
  cbn [map In]. intros [_ [<- | [<- | []]]]; split; (reflexivity || discriminate).
Qed.

(** C10. A RegistrationDate whose trimmed value is one of the two sentinel
    spellings raises no error, whatever the record type: the field
    validator returns no error on it, and among the errors of the row none
    is on field RegistrationDate, every SENTINEL_NOT_ALLOWED, DATE_FUTURE
    and DATE_ORDER error is on FirstEntryDate or AwardDate and carries the
    value of that field, and a DATE_ORDER error can only be the comparison
    of AwardDate with FirstEntryDate. *)
Theorem sentinel_registration_date clk text header rows i row :
  Csv.reader text = Some (header :: rows) ->
  nth_error rows i = Some row ->
  mem_str (strip (cell row (lit "RegistrationDate"))) SENTINEL_DATES = true ->
  (forall today record_type,
      validate_field today (lit "RegistrationDate")
        (cell row (lit "RegistrationDate")) record_type = [])
  /\ exists errs,
       validate_csv_text clk text = Returned errs
       /\ forall e, In e errs -> row_number e = (Z.of_nat i + 2)%Z ->
            field e <> lit "RegistrationDate"
            /\ (mem_str (error_code e) DATE_RULE_CODES = true ->
                (field e = lit "FirstEntryDate"
                 /\ value e = strip (cell row (lit "FirstEntryDate")))
                \/ (field e = lit "AwardDate"
                    /\ value e = strip (cell row (lit "AwardDate"))))
            /\ (error_code e = lit "DATE_ORDER" ->
                e = award_before_entry_error (Z.of_nat i + 2)
                      (strip (cell row (lit "AwardDate")))).
Proof.
  intros Hread Hnth Hs.
  assert (Hfield : forall today record_type,
             validate_field today (lit "RegistrationDate")
               (cell row (lit "RegistrationDate")) record_type = []).
  { intros. now apply validate_field_registration_sentinel. }
  split; [exact Hfield|].
  destruct (errors_of_row clk _ _ _ _ _ Hread Hnth) as (errs & seen & Hret & Hrow).
  exists errs. split; [exact Hret|]. intros e He Hn.
  assert (Hin : In e (row_errors clk seen (Z.of_nat i + 1) row)).
  { rewrite <- Hrow. apply filter_In. split; [exact He|].
    unfold at_row. now apply Z.eqb_eq. }
  destruct (row_errors_In _ _ _ _ _ Hin) as [_ [Hshape | [(g & Hg & Hf) | Hrec]]].
  - destruct (row_shape_not_date_rule _ Hshape) as [Hnot Hne].
    split; [|split]; [|congruence..].
    rewrite (row_shape_kind_field _ Hshape). discriminate.
  - pose proof (field_errors_shape (clk (Z.of_nat i + 1 + 1)%Z IN_VALIDATE_FIELD)
                  (combine EXPECTED_COLUMNS (fit_columns row))
                  (record_type_of row) (Z.of_nat i + 1 + 1) g) as Hall.
    rewrite Forall_forall in Hall.
    destruct (Hall _ Hf) as (_ & Hfe & _ & Hcode & Hcm).
    destruct (field_level_not_date_rule _ Hcode) as [Hnot Hne].
    split; [|split]; [|congruence..].
    intros Hreg. subst g. rewrite Hreg in Hcm.
    unfold cell in Hfield. now rewrite Hfield in Hcm.
  - pose proof (validate_record_level_shape
                  (clk (Z.of_nat i + 1 + 1)%Z IN_VALIDATE_RECORD_LEVEL)
                  (combine EXPECTED_COLUMNS (fit_columns row))
                  (Z.of_nat i + 1 + 1)) as Hkind.
    rewrite Forall_forall in Hkind. destruct (Hkind _ Hrec) as [_ Hk].
    split; [now apply record_level_kind_not_registration|].
    pose proof (record_level_registration_sentinel
                  (clk (Z.of_nat i + 1 + 1)%Z IN_VALIDATE_RECORD_LEVEL)
                  (combine EXPECTED_COLUMNS (fit_columns row))
                  (Z.of_nat i + 1 + 1)) as Hall.
    rewrite stripped_cell, parse_date_strip in Hall.
    specialize (Hall (parse_date_sentinel _ Hs)).
    rewrite Forall_forall in Hall. specialize (Hall _ Hrec).
    rewrite !stripped_cell in Hall.
    replace (Z.of_nat i + 1 + 1)%Z with (Z.of_nat i + 2)%Z in Hall by lia.
    exact Hall.
Qed.

End RecordRules.

Lemma entry_grade_rule_witness :
  exists errs,
    @validate_csv_text example_runtime (fixed_clock example_today)
      (submission [ENTRY_ROW_WITH_GRADE]) = Returned errs
    /\ filter (fun e => at_row 2 e
                        && (has_code "ENTRY_RULE" e
                            && on_field (lit "QualificationGrade") e)) errs
       = [entry_grade_error 2 (lit "ABC")].
Proof.
  edestruct (@entry_grade_rule example_runtime (fixed_clock example_today)
               (submission [ENTRY_ROW_WITH_GRADE])) with (i := 0%nat)
    as (errs & Hret & Hfilter).
  - vm_compute. reflexivity.
  - reflexivity.
  - vm_compute. reflexivity.
  - vm_compute. discriminate.
  - exists errs. split; [exact Hret | exact Hfilter].
Defined.

Lemma award_before_first_entry_witness :
  exists errs,
    @validate_csv_text example_runtime (fixed_clock example_today)
      (submission [RESULT_ROW]) = Returned errs
    /\ In (award_before_entry_error 2 (lit "2024-06-01")) errs.
Proof.
  edestruct (@award_before_first_entry example_runtime
               (fixed_clock example_today) (submission [RESULT_ROW]))
    with (i := 0%nat) as (errs & Hret & Hin).
  - vm_compute. reflexivity.
  - reflexivity.
  - left. vm_compute. reflexivity.
  - vm_compute. reflexivity.
  - vm_compute. reflexivity.
  - reflexivity.
  - exists errs. split; [exact Hret | exact Hin].
Defined.

Lemma sentinel_registration_date_witness :
  exists errs,
    @validate_csv_text example_runtime (fixed_clock example_today)
      (submission [RESULT_ROW]) = Returned errs
    /\ forall e, In e errs -> row_number e = 2%Z ->
         field e <> lit "RegistrationDate".
Proof.
  edestruct (@sentinel_registration_date example_runtime
               (fixed_clock example_today) (submission [RESULT_ROW]))
    with (i := 0%nat) as (_ & errs & Hret & Hall).
  - vm_compute. reflexivity.
  - reflexivity.
  - vm_compute. reflexivity.
  - exists errs. split; [exact Hret|]. intros e He Hn. now apply Hall.
Defined.

(* ===================================================================== *)
(** ** The CSV reader                                                     *)
(* ===================================================================== *)

Module CsvFacts.
Import Csv.

(** After the end-of-line mark the parser is between records or inside a
    quoted field. *)
Lemma parse_process_char_EOL r r' :
  parse_process_char r EOL = Some r' ->
  state r' = START_RECORD \/ state r' = IN_QUOTED_FIELD.
Proof.
  unfold parse_process_char. destruct (state r) eqn:Hst; cbn;
    intros [= <-]; cbn; auto.
Qed.

Lemma process_app r l1 l2 :
  process r (l1 ++ l2)
  = match process r l1 with Some r1 => process r1 l2 | None => None end.
Proof.
  revert r; induction l1 as [|i l1 IH]; intros r; cbn; [reflexivity|].
  destruct (parse_process_char r i); [apply IH | reflexivity].
Qed.

Lemma process_line_end r line r' :
  process r (map Chr line ++ [EOL]) = Some r' ->
  state r' = START_RECORD \/ state r' = IN_QUOTED_FIELD.
Proof.
  rewrite process_app. destruct (process r (map Chr line)) as [r1|]; [|discriminate].
  cbn. destruct (parse_process_char r1 EOL) as [r2|] eqn:Hend; [|discriminate].
  intros [= <-]. now apply parse_process_char_EOL in Hend.
Qed.

Lemma ParserState_eqb_eq a b : ParserState_eqb a b = true <-> a = b.
Proof. destruct a, b; cbn; split; congruence. Qed.

(** While lines remain, the reader yields at least one row. *)
Lemma rows_from_cons r line lines :
  rows_from r (line :: lines)
  = match process r (map Chr line ++ [EOL]) with
    | None => None
    | Some r' =>
        if ParserState_eqb (state r') START_RECORD
        then option_map (cons (fields r')) (rows_from parse_reset lines)
        else rows_from r' lines
    end.
Proof. reflexivity. Qed.

Lemma rows_from_nonempty lines : forall r line rows,
  rows_from r (line :: lines) = Some rows -> rows <> [].
Proof.
  induction lines as [|line' lines IH]; intros r line rows; rewrite rows_from_cons;
    destruct (process r (map Chr line ++ [EOL])) as [r'|] eqn:Hp; try discriminate;
    destruct (ParserState_eqb (state r') START_RECORD) eqn:Hst.
  - intros Hrows Hnil. rewrite Hnil in Hrows. discriminate.
  - destruct (process_line_end _ _ _ Hp) as [Hs | Hs].
    + rewrite Hs in Hst. discriminate.
    + cbn [rows_from]. rewrite Hs. cbn [ParserState_eqb]. rewrite orb_true_r.
      intros Hrows Hnil. rewrite Hnil in Hrows. discriminate.
  - destruct (rows_from parse_reset (line' :: lines)); cbn [option_map];
      [|discriminate].
    intros Hrows Hnil. rewrite Hnil in Hrows. discriminate.
  - apply IH.
Qed.

Lemma lines_from_nonempty s : forall cur,
  cur <> [] \/ s <> [] -> lines_from cur s <> [].
Proof.
  induction s as [|c s IH]; intros cur Hne; cbn.
  - destruct cur; [destruct Hne; congruence | discriminate].
  - destruct (c =? LF)%N; [discriminate|]. apply IH. left. discriminate.
Qed.

(** Text that is not empty has a first row or makes the reader fail. *)
Lemma reader_nonempty text rows :
  text <> [] -> reader text = Some rows -> rows <> [].
Proof.
  unfold reader, readlines. intros Hne.
  destruct (lines_from [] text) as [|line lines] eqn:Hlines.
  - exfalso. revert Hlines. apply lines_from_nonempty. now right.
  - apply rows_from_nonempty.
Qed.

Lemma reader_empty : reader [] = Some [].
Proof. reflexivity. Qed.

(** The reader invents no character: a property of the characters of the
    text holds of the characters of every cell. *)
Section Characters.
Variable P : char -> Prop.

Lemma cells_in_set_state r s : cells_in P r -> cells_in P (set_state r s).
Proof. now intros [Hf Hfs]. Qed.

Lemma cells_in_save r : cells_in P r -> cells_in P (parse_save_field r).
Proof.
  intros [Hf Hfs]. split; cbn; [constructor|].
  apply Forall_app. split; [exact Hfs|]. constructor; [|constructor].
  now apply Forall_rev.
Qed.

Lemma cells_in_add r c r' :
  cells_in P r -> P c -> parse_add_char r c = Some r' -> cells_in P r'.
Proof.
  intros [Hf Hfs] Hc. unfold parse_add_char.
  destruct (field_limit <=? field_len r)%Z; [discriminate|].
  intros [= <-]. split; cbn; [now constructor | exact Hfs].
Qed.

Lemma cells_in_add_state r c s r' :
  cells_in P r -> P c ->
  option_map (fun x => set_state x s) (parse_add_char r c) = Some r' ->
  cells_in P r'.
Proof.
  intros Hr Hc. destruct (parse_add_char r c) as [x|] eqn:Hadd; [|discriminate].
  cbn. intros [= <-]. apply cells_in_set_state. eapply cells_in_add; eauto.
Qed.

Create HintDb cells.

Local Hint Resolve cells_in_set_state cells_in_save cells_in_add
  cells_in_add_state : cells.

Lemma cells_in_char r i r' :
  cells_in P r -> (forall c, i = Chr c -> P c) ->
  parse_process_char r i = Some r' -> cells_in P r'.
Proof.
  intros Hr Hi. unfold parse_process_char, start_field.
  destruct (state r), i as [c|];
    repeat match goal with
           | |- context [if ?b then _ else _] => destruct b
           end;
    try (intros [= <-]; auto with cells; fail);
    try discriminate;
    intros Hstep; pose proof (Hi c eq_refl); eauto with cells.
Qed.

Lemma cells_in_process l : forall r r',
  cells_in P r -> Forall (fun i => forall c, i = Chr c -> P c) l ->
  process r l = Some r' -> cells_in P r'.
Proof.
  induction l as [|i l IH]; intros r r' Hr Hl; cbn.
  - now intros [= <-].
  - inversion Hl as [|? ? Hi Hl']; subst.
    destruct (parse_process_char r i) as [r1|] eqn:Hstep; [|discriminate].
    apply IH; [|exact Hl']. eapply cells_in_char; eauto.
Qed.

Lemma line_inputs line :
  Forall P line ->
  Forall (fun i => forall c, i = Chr c -> P c) (map Chr line ++ [EOL]).
Proof.
  intros Hl. apply Forall_app. split.
  - apply Forall_map. eapply Forall_impl; [|exact Hl].
    cbn. intros c Hc c' [= <-]. exact Hc.
  - constructor; [discriminate | constructor].
Qed.

Lemma cells_in_rows lines : forall r rows,
  cells_in P r -> Forall (Forall P) lines ->
  rows_from r lines = Some rows -> Forall (Forall (Forall P)) rows.
Proof.
  induction lines as [|line lines IH]; intros r rows Hr Hl.
  - cbn [rows_from]. destruct (_ || _); intros [= <-]; [|constructor].
    constructor; [|constructor]. apply cells_in_save, Hr.
  - rewrite rows_from_cons. inversion Hl as [|? ? Hline Hlines]; subst.
    destruct (process r (map Chr line ++ [EOL])) as [r'|] eqn:Hp; [|discriminate].
    pose proof (cells_in_process _ _ _ Hr (line_inputs _ Hline) Hp) as Hr'.
    destruct (ParserState_eqb (state r') START_RECORD).
    + destruct (rows_from parse_reset lines) as [rest|] eqn:Hrest; [|discriminate].
      cbn. intros [= <-]. constructor; [apply Hr'|].
      apply (IH parse_reset); [split; constructor | exact Hlines | exact Hrest].
    + now apply IH.
Qed.

Lemma lines_from_chars s : forall cur,
  Forall P cur -> Forall P s -> Forall (Forall P) (lines_from cur s).
Proof.
  induction s as [|c s IH]; intros cur Hcur Hs; cbn [lines_from].
  - destruct cur; constructor; [|constructor]. now apply Forall_rev.
  - inversion Hs as [|? ? Hc Hs']; subst.
    destruct (c =? LF)%N.
    + constructor; [|apply IH; [constructor | exact Hs']].
      apply Forall_rev. now constructor.
    + apply IH; [now constructor | exact Hs'].
Qed.

Lemma reader_chars text rows :
  Forall P text -> reader text = Some rows -> Forall (Forall (Forall P)) rows.
Proof.
  unfold reader, readlines. intros Ht.
  apply cells_in_rows; [split; constructor|].
  apply lines_from_chars; [constructor | exact Ht].
Qed.

End Characters.

Lemma plain_tests c :
  plain c ->
  (c =? LF)%N = false /\ (c =? CR)%N = false
  /\ (c =? quotechar)%N = false /\ (c =? delimiter)%N = false.
Proof. unfold plain. rewrite !N.eqb_neq. tauto. Qed.

(** Plain characters go into the current field. *)
Lemma process_plain body : forall r,
  Forall plain body ->
  state r = START_RECORD \/ state r = IN_FIELD ->
  (0 <= field_len r)%Z ->
  (field_len r + len body <= field_limit)%Z ->
  exists r', process r (map Chr body) = Some r'
             /\ (state r' = START_RECORD \/ state r' = IN_FIELD).
Proof.
  induction body as [|c body IH]; intros r Hbody Hst Hpos Hlen.
  - exists r. now split.
  - inversion Hbody as [|? ? Hc Hbody']; subst.
    destruct (plain_tests c Hc) as (Hlf & Hcr & Hq & Hd).
    assert (Hroom : (field_limit <=? field_len r)%Z = false).
    { apply Z.leb_gt. unfold len in Hlen. cbn [List.length] in Hlen. lia. }
    assert (Hstep : exists r1, parse_process_char r (Chr c) = Some r1
                               /\ state r1 = IN_FIELD
                               /\ field_len r1 = (field_len r + 1)%Z).
    { unfold parse_process_char, start_field, parse_add_char.
      destruct Hst as [-> | ->]; cbn [set_state state field_len];
        rewrite ?Hlf, ?Hcr, ?Hq, ?Hd, ?Hroom; cbn; eauto. }
    destruct Hstep as (r1 & Hr1 & Hs1 & Hl1).
    destruct (IH r1 Hbody') as (r' & Hr' & Hs'); [now right | lia | |].
    { unfold len in *. cbn [List.length] in Hlen. lia. }
    exists r'. cbn [map process]. rewrite Hr1. now split.
Qed.

Lemma process_plain_line line r :
  plain_line line -> state r = START_RECORD -> field_len r = 0%Z ->
  exists r', process r (map Chr line ++ [EOL]) = Some r'
             /\ state r' = START_RECORD.
Proof.
  intros (body & Hbody & Hlen & Hline) Hst Hfl.
  destruct (process_plain body r Hbody (or_introl Hst)) as (r1 & Hr1 & Hs1);
    [lia | lia |].
  destruct r1 as [st f fl fs]. cbn [state] in Hs1.
  destruct Hline as [-> | ->].
  - rewrite map_app, <- app_assoc, process_app, Hr1.
    destruct Hs1 as [-> | ->]; cbn; eauto.
  - rewrite process_app, Hr1.
    destruct Hs1 as [-> | ->]; cbn; eauto.
Qed.

Lemma rows_from_plain lines :
  Forall plain_line lines -> exists rows, rows_from parse_reset lines = Some rows.
Proof.
  induction 1 as [|line lines Hline _ (rows & IH)].
  - now exists [].
  - rewrite rows_from_cons.
    destruct (process_plain_line line parse_reset Hline eq_refl eq_refl)
      as (r' & -> & ->).
    cbn [ParserState_eqb]. rewrite IH. cbn. eauto.
Qed.

Lemma lines_from_plain s : forall cur,
  Forall plain cur -> Forall (fun c => c = LF \/ plain c) s ->
  (len cur + len s <= field_limit)%Z ->
  Forall plain_line (lines_from cur s).
Proof.
  induction s as [|c s IH]; intros cur Hcur Hs Hlen; cbn [lines_from].
  - destruct cur as [|x cur]; constructor; [|constructor].
    exists (rev (x :: cur)). split; [now apply Forall_rev|].
    split; [|now right]. unfold len in *. rewrite length_rev.
    cbn [List.length] in *. lia.
  - inversion Hs as [|? ? Hc Hs']; subst.
    assert (Hlen' : (len cur + 1 + len s <= field_limit)%Z).
    { unfold len in *. cbn [List.length] in Hlen. lia. }
    destruct (c =? LF)%N eqn:Hlf.
    + apply N.eqb_eq in Hlf. subst c. constructor.
      * exists (rev cur). split; [now apply Forall_rev|].
        split; [|left; reflexivity]. unfold len in *. rewrite length_rev. lia.
      * apply IH; [constructor | exact Hs' |]. unfold len in *.
        cbn [List.length]. lia.
    + destruct Hc as [-> | Hc]; [now rewrite N.eqb_refl in Hlf|].
      apply IH; [now constructor | exact Hs' |].
      unfold len in *. cbn [List.length]. lia.
Qed.

(** On text made of line feeds and plain characters, short enough for the
    field limit, the reader does not fail. *)
Lemma reader_plain text :
  Forall (fun c => c = LF \/ plain c) text ->
  (len text <= field_limit)%Z ->
  exists rows, reader text = Some rows.
Proof.
  intros Ht Hlen. apply rows_from_plain, lines_from_plain; auto.
Qed.

Lemma isspace_plain c : isspace c = true -> c <> CR -> c = LF \/ plain c.
Proof.
  intros Hs Hcr. destruct (N.eq_dec c LF) as [-> | Hlf]; [now left | right].
  repeat split; try assumption; intros ->; discriminate.
Qed.

End CsvFacts.

(* ===================================================================== *)
(** ** The pipeline                                                       *)
(* ===================================================================== *)

Section Pipeline.
Context `{PyRuntime}.

(** No error of a data row has a code of the file or of the header. *)
Lemma row_errors_not_file_level clk seen idx row :
  Forall (fun e => has_code "HEADER_MISMATCH" e = false
                   /\ has_code "EMPTY" e = false)
         (row_errors clk seen idx row).
Proof.
  eapply Forall_impl; [|apply row_errors_shape].
  intros e [_ [Hshape | [[_ Hcode] | Hrec]]]; unfold has_code.
  - unfold row_shape_kind in Hshape. apply andb_true_iff in Hshape.
    destruct Hshape as [_ Hc]. apply mem_str_In in Hc. cbn [map In] in Hc.
    destruct Hc as [<- | [<- | []]]; split; reflexivity.
  - destruct (field_level_code_In _ Hcode) as [-> | [-> | [-> | [-> | [-> | [-> | [-> | ->]]]]]]];
      split; reflexivity.
  - unfold record_level_kind in Hrec. apply existsb_exists in Hrec.
    destruct Hrec as (fc & Hfc & Heq). apply andb_true_iff in Heq.
    destruct Heq as [_ Hc]. apply eqb_str_eq in Hc. rewrite Hc.
    cbn [RECORD_LEVEL_KINDS map] in Hfc.
    repeat (destruct Hfc as [<- | Hfc]; [split; reflexivity|]). contradiction.
Qed.

Lemma rows_errors_not_file_level clk rows : forall seen idx,
  Forall (fun e => has_code "HEADER_MISMATCH" e = false
                   /\ has_code "EMPTY" e = false)
         (rows_errors clk seen idx rows).
Proof.
  induction rows as [|row rows IH]; intros seen idx; cbn [rows_errors];
    [constructor|].
  apply Forall_app. split; [apply row_errors_not_file_level | apply IH].
Qed.

Lemma rows_errors_blank clk rows : forall seen idx,
  Forall (fun row => blank_row row = true) rows ->
  rows_errors clk seen idx rows = [].
Proof.
  induction rows as [|row rows IH]; intros seen idx Hb; [reflexivity|].
  inversion Hb as [|? ? Hrow Hrows]; subst. cbn [rows_errors].
  rewrite (row_errors_blank _ _ _ _ Hrow), IH; [reflexivity | exact Hrows].
Qed.

Lemma row_errors_ext clk1 clk2 seen idx row :
  (forall n c, clk1 n c = clk2 n c) ->
  row_errors clk1 seen idx row = row_errors clk2 seen idx row.
Proof.
  intros Hext. unfold row_errors, loop_body. now rewrite !Hext.
Qed.

Lemma rows_errors_ext clk1 clk2 rows : forall seen idx,
  (forall n c, clk1 n c = clk2 n c) ->
  rows_errors clk1 seen idx rows = rows_errors clk2 seen idx rows.
Proof.
  induction rows as [|row rows IH]; intros seen idx Hext; [reflexivity|].
  cbn [rows_errors]. now rewrite (row_errors_ext clk1 clk2 _ _ _ Hext), IH.
Qed.

Lemma blank_row_seen_after seen row : blank_row row = true -> seen_after seen row = seen.
Proof. unfold seen_after. now intros ->. Qed.

(** C5. A data row whose cells are all blank or whitespace leaves the
    errors and the set of rows seen as they were and advances the row
    number by one: no error of the output carries its number, the rows after
    it are checked against the rows seen before it, and the errors of each
    later row carry the position of that row in the input, the blank row
    counted. *)
Theorem blank_row_skipped clk text header pre row post :
  Csv.reader text = Some (header :: pre ++ row :: post) ->
  blank_row row = true ->
  (forall st, loop_body clk st row
              = mkLoop (errors st) (seen_rows st) (row_idx st + 1))
  /\ exists errs,
       validate_csv_text clk text = Returned errs
       /\ errs = (if negb (eqb_row (normalized header) EXPECTED_COLUMNS)
                  then [header_mismatch header] else [])
                 ++ rows_errors clk [] 1 pre
                 ++ rows_errors clk (fold_left seen_after pre [])
                      (len pre + 2) post
       /\ filter (at_row (len pre + 2)) errs = []
       /\ forall j later,
            nth_error post j = Some later ->
            exists seen,
              filter (at_row (len pre + 3 + Z.of_nat j)) errs
              = row_errors clk seen (len pre + 2 + Z.of_nat j) later.
Proof.
  intros Hread Hb. split; [intros st; now apply loop_body_blank|].
  destruct (errors_of_row clk text header (pre ++ row :: post) (List.length pre) row Hread)
    as (errs & seen & Hret & Hrow).
  { rewrite nth_error_app2, Nat.sub_diag; [reflexivity | lia]. }
  exists errs. split; [exact Hret|].
  assert (Herrs : errs = (if negb (eqb_row (normalized header) EXPECTED_COLUMNS)
                          then [header_mismatch header] else [])
                         ++ rows_errors clk [] 1 pre
                         ++ rows_errors clk (fold_left seen_after pre [])
                              (len pre + 2) post).
  { rewrite validate_csv_text_unfold, Hread in Hret. injection Hret as <-.
    rewrite rows_errors_app. cbn [rows_errors].
    rewrite (row_errors_blank _ _ _ _ Hb), (blank_row_seen_after _ _ Hb).
    cbn [app]. do 3 f_equal. lia. }
  split; [exact Herrs|]. split.
  - fold (len pre) in Hrow. rewrite Hrow. now apply row_errors_blank.
  - intros j later Hlater.
    destruct (errors_of_row clk text header (pre ++ row :: post)
                (List.length pre + S j) later Hread)
      as (errs' & seen' & Hret' & Hrow').
    { rewrite nth_error_app2 by lia.
      replace (List.length pre + S j - List.length pre)%nat with (S j) by lia.
      exact Hlater. }
    assert (errs' = errs) by congruence. subst errs'.
    exists seen'. unfold len.
    replace (Z.of_nat (List.length pre) + 3 + Z.of_nat j)%Z
      with (Z.of_nat (List.length pre + S j) + 2)%Z by lia.
    replace (Z.of_nat (List.length pre) + 2 + Z.of_nat j)%Z
      with (Z.of_nat (List.length pre + S j) + 1)%Z by lia.
    exact Hrow'.
Qed.

Lemma whitespace_cell_blank c :
  Forall (fun x => isspace x = true) c -> strip c = [].
Proof.
  intros Hc. apply strip_blank. apply forallb_forall.
  now apply Forall_forall.
Qed.

Lemma whitespace_row_blank row :
  Forall (Forall (fun x => isspace x = true)) row -> blank_row row = true.
Proof.
  intros Hrow. unfold blank_row. apply negb_true_iff.
  match goal with
  | |- existsb ?f row = false => destruct (existsb f row) eqn:Hex
  end; [|reflexivity].
  apply existsb_exists in Hex. destruct Hex as (c & Hc & Hne).
  rewrite Forall_forall in Hrow.
  now rewrite (whitespace_cell_blank c (Hrow _ Hc)) in Hne.
Qed.

Lemma whitespace_header_mismatch header :
  Forall (Forall (fun x => isspace x = true)) header ->
  eqb_row (normalized header) EXPECTED_COLUMNS = false.
Proof.
  intros Hh. destruct header as [|h header]; [reflexivity|].
  inversion Hh as [|? ? Hcell _]; subst.
  cbn [normalized map]. rewrite strip_blank; [reflexivity|].
  apply forallb_incl with (b := h); [apply strip_by_incl|].
  apply forallb_forall. now apply Forall_forall.
Qed.

(** What the pipeline returns on text of whitespace that the reader gets
    through. *)
Lemma validate_whitespace clk text header rows :
  forallb isspace text = true ->
  Csv.reader text = Some (header :: rows) ->
  validate_csv_text clk text = Returned [header_mismatch header].
Proof.
  intros Hws Hread.
  assert (Hcells : Forall (Forall (Forall (fun x => isspace x = true)))
                          (header :: rows)).
  { apply (CsvFacts.reader_chars _ text); [|exact Hread].
    apply Forall_forall. now apply forallb_forall. }
  inversion Hcells as [|? ? Hheader Hrows]; subst.
  rewrite validate_csv_text_unfold, Hread.
  rewrite (whitespace_header_mismatch _ Hheader). cbn [negb app].
  rewrite rows_errors_blank; [reflexivity|].
  eapply Forall_impl; [|exact Hrows]. apply whitespace_row_blank.
Qed.

(** C9, as the code has it. The EMPTY error, numbered 1 on [*FILE*], is
    returned on the empty text and on no other text. On text that is not
    empty and is made of whitespace only, a call that returns gives exactly
    one error, the HEADER_MISMATCH numbered 1 on [*HEADER*] for the first
    row read; and the call does return when the text has no carriage return
    and is no longer than the field limit of the reader. *)
Theorem empty_and_whitespace_input clk text :
  validate_csv_text clk [] = Returned [file_empty]
  /\ (forall errs e,
        validate_csv_text clk text = Returned errs ->
        In e errs -> has_code "EMPTY" e = true -> text = [])
  /\ (text <> [] -> forallb isspace text = true ->
      (forall errs,
          validate_csv_text clk text = Returned errs ->
          exists header rows,
            Csv.reader text = Some (header :: rows)
            /\ errs = [header_mismatch header]
            /\ row_number (header_mismatch header) = 1%Z
            /\ field (header_mismatch header) = lit "*HEADER*"
            /\ error_code (header_mismatch header) = lit "HEADER_MISMATCH")
      /\ (~ In Csv.CR text -> (len text <= Csv.field_limit)%Z ->
          exists header,
            validate_csv_text clk text = Returned [header_mismatch header])).
Proof.
  split; [reflexivity|]. split.
  - intros errs e Hret He Hcode.
    destruct text as [|c text]; [reflexivity | exfalso].
    rewrite validate_csv_text_unfold in Hret.
    destruct (Csv.reader (c :: text)) as [[|header rows]|] eqn:Hread;
      [| |discriminate].
    + assert (Hne : c :: text <> []) by discriminate.
      now apply (CsvFacts.reader_nonempty _ _ Hne Hread).
    + injection Hret as <-. apply in_app_iff in He. destruct He as [He | He].
      * destruct (negb _); [|contradiction]. destruct He as [<- | []].
        discriminate.
      * pose proof (rows_errors_not_file_level clk rows [] 1) as Hall.
        rewrite Forall_forall in Hall. destruct (Hall _ He). congruence.
  - intros Hne Hws. split.
    + intros errs Hret.
      destruct (Csv.reader text) as [[|header rows]|] eqn:Hread.
      * exfalso. now apply (CsvFacts.reader_nonempty _ _ Hne Hread).
      * exists header, rows. split; [reflexivity|].
        rewrite (validate_whitespace clk text header rows Hws Hread) in Hret.
        injection Hret as <-. repeat split.
      * rewrite validate_csv_text_unfold, Hread in Hret. discriminate.
    + intros Hcr Hlen.
      destruct (CsvFacts.reader_plain text) as (rows & Hread); [|exact Hlen|].
      { apply Forall_forall. intros c Hc.
        apply CsvFacts.isspace_plain.
        - rewrite forallb_forall in Hws. now apply Hws.
        - intros ->. now apply Hcr. }
      destruct rows as [|header rows].
      * exfalso. now apply (CsvFacts.reader_nonempty _ _ Hne Hread).
      * exists header. now apply validate_whitespace with (rows := rows).
Qed.

End Pipeline.

Lemma blank_row_skipped_witness :
  exists errs,
    @validate_csv_text example_runtime (fixed_clock example_today)
      (submission [ENTRY_ROW; " , "%string; ENTRY_ROW]) = Returned errs
    /\ filter (at_row 3) errs = [].
Proof.
  edestruct (@blank_row_skipped example_runtime (fixed_clock example_today)
               (submission [ENTRY_ROW; " , "%string; ENTRY_ROW]))
    with (pre := [cells_of ENTRY_ROW]) (row := cells_of " , ")
         (post := [cells_of ENTRY_ROW])
    as (_ & errs & Hret & _ & Hnone & _).
  - vm_compute. reflexivity.
  - reflexivity.
  - exists errs. split; [exact Hret | exact Hnone].
Defined.

Lemma empty_and_whitespace_input_witness :
  exists header,
    @validate_csv_text example_runtime (fixed_clock example_today)
      (lit " " ++ [Csv.LF] ++ lit "  ")
    = Returned [@header_mismatch example_runtime header].
Proof.
  refine (proj2 (proj2 (proj2 (@empty_and_whitespace_input example_runtime
                                 (fixed_clock example_today)
                                 (lit " " ++ [Csv.LF] ++ lit "  "))) _ _) _ _).
  - discriminate.
  - reflexivity.
  - cbn. intros [Hc | [Hc | [Hc | [Hc | []]]]]; discriminate.
  - vm_compute. discriminate.
Defined.

(** Whitespace the reader fails on: a carriage return, then a space. *)
Lemma whitespace_input_raises :
  forallb isspace [Csv.CR; 32%N] = true
  /\ [Csv.CR; 32%N] <> []
  /\ @validate_csv_text example_runtime (fixed_clock example_today)
       [Csv.CR; 32%N] = Raised_csv_Error.
Proof. repeat split. discriminate. Qed.

(* ===================================================================== *)
(** ** The errors on one field of a row                                   *)
(* ===================================================================== *)

Lemma nodupb_NoDup l : nodupb l = true -> NoDup l.
Proof.
  induction l as [|x l IH]; cbn [nodupb]; [constructor|].
  rewrite andb_true_iff, negb_true_iff. intros [Hx Hl].
  constructor; [|now apply IH]. intros Hin. apply mem_str_In in Hin. congruence.
Qed.

Lemma expected_columns_NoDup : NoDup EXPECTED_COLUMNS.
Proof. apply nodupb_NoDup. vm_compute. reflexivity. Qed.

Lemma dict_get_None {V : Type} (d : dict V) k :
  ~ In k (map fst d) -> dict_get d k = None.
Proof.
  induction d as [|[k' v] d IH]; cbn; [reflexivity|]. intros Hk.
  destruct (eqb_str k k') eqn:Heq.
  - apply eqb_str_eq in Heq. subst. exfalso. apply Hk. now left.
  - apply IH. intros Hin. apply Hk. now right.
Qed.

Lemma dict_get_key {V : Type} (d : dict V) k v :
  dict_get d k = Some v -> In k (map fst d).
Proof.
  induction d as [|[k' v'] d IH]; cbn; [discriminate|].
  destruct (eqb_str k k') eqn:Heq.
  - apply eqb_str_eq in Heq. subst. now left.
  - intros Hget. right. now apply IH.
Qed.

Lemma filter_flat_map_one {A : Type} (key : A -> str) (F : str -> list A) l f :
  NoDup l -> In f l ->
  (forall g, Forall (fun e => key e = g) (F g)) ->
  filter (fun e => eqb_str (key e) f) (flat_map F l) = F f.
Proof.
  intros Hnd Hin Hkey. induction Hnd as [|g l Hg Hnd IH]; [contradiction|].
  cbn [flat_map]. rewrite filter_app.
  destruct Hin as [-> | Hin].
  - rewrite filter_all.
    2:{ eapply Forall_impl; [|apply Hkey]. intros e ->. apply eqb_str_refl. }
    rewrite filter_none; [apply app_nil_r|].
    apply Forall_flat_map_intro. intros g Hgl.
    eapply Forall_impl; [|apply Hkey]. intros e ->.
    apply eqb_str_neq. intros ->. contradiction.
  - rewrite filter_none; [now apply IH|].
    eapply Forall_impl; [|apply Hkey]. intros e ->.
    apply eqb_str_neq. intros ->. contradiction.
Qed.

Section FieldsOfARow.
Context `{PyRuntime}.

Lemma field_specs_keys : map fst FIELD_SPECS = EXPECTED_COLUMNS.
Proof. reflexivity. Qed.

Lemma field_spec_of_column f :
  In f EXPECTED_COLUMNS ->
  exists spec, dict_get FIELD_SPECS f = Some spec /\ FieldSpec.name spec = f.
Proof.
  intros Hf. cbn [EXPECTED_COLUMNS map] in Hf.
  repeat (destruct Hf as [<- | Hf]; [eexists; split; reflexivity|]).
  contradiction.
Qed.

Lemma record_level_kind_field e :
  record_level_kind e = true -> In (field e) RECORD_LEVEL_FIELDS.
Proof.
  unfold record_level_kind. rewrite existsb_exists.
  intros (fc & Hfc & Heq). apply andb_true_iff in Heq. destruct Heq as [Hf _].
  apply eqb_str_eq in Hf. rewrite Hf. apply mem_str_In.
  cbn [RECORD_LEVEL_KINDS map] in Hfc.
  repeat (destruct Hfc as [<- | Hfc]; [reflexivity|]). contradiction.
Qed.

Lemma column_not_row_marker f : In f EXPECTED_COLUMNS -> f <> lit "*ROW*".
Proof.
  intros Hf ->. apply mem_str_In in Hf. vm_compute in Hf. discriminate.
Qed.

(** The errors of a row on one of the columns: those of the field
    validator that no exclusion suppresses, then those of the record-level
    rules on that column. *)
Lemma filter_on_field_row_errors clk seen idx row f :
  blank_row row = false -> In f EXPECTED_COLUMNS ->
  filter (on_field f) (row_errors clk seen idx row)
  = field_errors (clk (idx + 1)%Z IN_VALIDATE_FIELD)
      (combine EXPECTED_COLUMNS (fit_columns row)) (record_type_of row)
      (idx + 1) f
    ++ filter (on_field f)
         (validate_record_level (clk (idx + 1)%Z IN_VALIDATE_RECORD_LEVEL)
            (combine EXPECTED_COLUMNS (fit_columns row)) (idx + 1)).
Proof.
  intros Hb Hf. rewrite (row_errors_nonblank _ _ _ _ Hb). cbv zeta.
  rewrite !filter_app.
  assert (Hrow : forall e, field e = lit "*ROW*" -> on_field f e = false).
  { intros e He. unfold on_field. rewrite He. apply eqb_str_neq.
    intros Heq. now apply (column_not_row_marker f Hf). }
  rewrite filter_none, filter_none; cbn [app].
  - f_equal. unfold on_field.
    apply (filter_flat_map_one field); [apply expected_columns_NoDup | exact Hf |].
    intros g. eapply Forall_impl; [|apply field_errors_shape].
    cbv beta. intros e He. apply He.
  - apply Forall_if; forall_pieces. now apply Hrow.
  - apply Forall_if; forall_pieces. now apply Hrow.
Qed.

Lemma filter_on_field_record_level today row n f :
  ~ In f RECORD_LEVEL_FIELDS ->
  filter (on_field f) (validate_record_level today row n) = [].
Proof.
  intros Hf. apply filter_none.
  eapply Forall_impl; [|apply validate_record_level_shape].
  intros e [_ Hk]. apply record_level_kind_field in Hk.
  unfold on_field. apply eqb_str_neq. intros Heq. apply Hf. now rewrite <- Heq.
Qed.

(** The errors of the output at the number of a row and on one column. *)
Lemma errors_on_field clk text header rows i row f :
  Csv.reader text = Some (header :: rows) ->
  nth_error rows i = Some row ->
  blank_row row = false -> In f EXPECTED_COLUMNS ->
  exists errs,
    validate_csv_text clk text = Returned errs
    /\ filter (fun e => at_row (Z.of_nat i + 2) e && on_field f e) errs
       = field_errors (clk (Z.of_nat i + 2)%Z IN_VALIDATE_FIELD)
           (combine EXPECTED_COLUMNS (fit_columns row)) (record_type_of row)
           (Z.of_nat i + 2) f
         ++ filter (on_field f)
              (validate_record_level
                 (clk (Z.of_nat i + 2)%Z IN_VALIDATE_RECORD_LEVEL)
                 (combine EXPECTED_COLUMNS (fit_columns row)) (Z.of_nat i + 2)).
Proof.
  intros Hread Hnth Hb Hf.
  destruct (errors_of_row clk _ _ _ _ _ Hread Hnth) as (errs & seen & Hret & Hrow).
  exists errs. split; [exact Hret|].
  rewrite filter_filter, Hrow, (filter_on_field_row_errors _ _ _ _ _ Hb Hf).
  now replace (Z.of_nat i + 1 + 1)%Z with (Z.of_nat i + 2)%Z by lia.
Qed.

End FieldsOfARow.

(* ===================================================================== *)
(** ** Field rules in the output                                          *)
(* ===================================================================== *)

Section FieldRules.
Context `{PyRuntime}.

(** X1. The table of field specifications has a specification for each of
    the 34 columns, under its own name, and for nothing else: on a field
    name that is no column the field validator raises nothing. *)
Theorem field_table_covers_columns today f v record_type :
  (In f EXPECTED_COLUMNS ->
   exists spec, dict_get FIELD_SPECS f = Some spec /\ FieldSpec.name spec = f)
  /\ (~ In f EXPECTED_COLUMNS -> validate_field today f v record_type = []).
Proof.
  split; [apply field_spec_of_column|].
  intros Hf. unfold validate_field. rewrite dict_get_None; [reflexivity|].
  now rewrite field_specs_keys.
Qed.

Lemma mandatory_column f spec :
  dict_get FIELD_SPECS f = Some spec -> FieldSpec.mandatory spec = true ->
  In f EXPECTED_COLUMNS
  /\ mem_str f (map lit ["FirstEntryDate"; "AwardDate"; "QualificationGrade"]%string)
     = false
  /\ ~ In f RECORD_LEVEL_FIELDS
  /\ f <> lit "MiddleNames".
Proof.
  intros Hget Hm. pose proof (dict_get_key _ _ _ Hget) as Hin.
  rewrite field_specs_keys in Hin. split; [exact Hin|].
  cbn [EXPECTED_COLUMNS map] in Hin.
  repeat (destruct Hin as [<- | Hin];
          [first [ split; [reflexivity|]; split;
                   [intros Hr; apply mem_str_In in Hr; discriminate Hr
                   | discriminate]
                 | exfalso; cbv in Hget; injection Hget as <-; discriminate Hm ]|]).
  contradiction.
Qed.

Lemma validate_field_blank_mandatory today f spec v record_type :
  dict_get FIELD_SPECS f = Some spec -> FieldSpec.mandatory spec = true ->
  strip v = [] ->
  validate_field today f v record_type
  = [(lit "MISSING", lit "Mandatory field is blank")].
Proof.
  intros Hget Hm Hv.
  destruct (mandatory_column f spec Hget Hm) as (_ & Hnc & _).
  unfold validate_field. now rewrite Hget, Hm, Hnc, Hv.
Qed.

(** X2. A blank Sex is tolerated: the field validator raises MISSING on
    it, Sex being mandatory, and the exclusion keeps the error out of the
    output, which has no error on Sex at the number of that row. *)
Theorem blank_sex_tolerated clk text header rows i row :
  Csv.reader text = Some (header :: rows) ->
  nth_error rows i = Some row ->
  blank_row row = false ->
  strip (cell row (lit "Sex")) = [] ->
  (forall today record_type,
      validate_field today (lit "Sex") (cell row (lit "Sex")) record_type
      = [(lit "MISSING", lit "Mandatory field is blank")])
  /\ exists errs,
       validate_csv_text clk text = Returned errs
       /\ filter (fun e => at_row (Z.of_nat i + 2) e && on_field (lit "Sex") e)
                 errs = [].
Proof.
  intros Hread Hnth Hb Hv.
  assert (Hfield : forall today record_type,
             validate_field today (lit "Sex") (cell row (lit "Sex")) record_type
             = [(lit "MISSING", lit "Mandatory field is blank")]).
  { intros. unfold validate_field. rewrite Hv. reflexivity. }
  split; [exact Hfield|].
  destruct (errors_on_field clk text header rows i row (lit "Sex") Hread Hnth Hb)
    as (errs & Hret & Hon).
  { apply mem_str_In. reflexivity. }
  exists errs. split; [exact Hret|]. rewrite Hon.
  rewrite filter_on_field_record_level.
  2:{ intros Hin. apply mem_str_In in Hin. discriminate. }
  rewrite app_nil_r. unfold field_errors. fold (cell row (lit "Sex")).
  rewrite Hfield. cbn [flat_map fst snd app].
  unfold is_permitted_exclusion. now rewrite Hv.
Qed.

(** X3. A blank cell under a mandatory column other than Sex gives, at the
    number of its row, exactly one error on that column: MISSING, with the
    cell as value. *)
Theorem blank_mandatory_field clk text header rows i row f spec :
  Csv.reader text = Some (header :: rows) ->
  nth_error rows i = Some row ->
  blank_row row = false ->
  dict_get FIELD_SPECS f = Some spec ->
  FieldSpec.mandatory spec = true ->
  f <> lit "Sex" ->
  strip (cell row f) = [] ->
  exists errs,
    validate_csv_text clk text = Returned errs
    /\ filter (fun e => at_row (Z.of_nat i + 2) e && on_field f e) errs
       = [missing_field_error (Z.of_nat i + 2) f (cell row f)].
Proof.
  intros Hread Hnth Hb Hget Hm Hsex Hv.
  destruct (mandatory_column f spec Hget Hm) as (Hin & _ & Hrec & Hmid).
  destruct (errors_on_field clk text header rows i row f Hread Hnth Hb Hin)
    as (errs & Hret & Hon).
  exists errs. split; [exact Hret|]. rewrite Hon.
  rewrite (filter_on_field_record_level _ _ _ _ Hrec), app_nil_r.
  unfold field_errors. fold (cell row f).
  rewrite (validate_field_blank_mandatory _ f spec _ _ Hget Hm Hv).
  cbn [flat_map fst snd app]. unfold is_permitted_exclusion. rewrite Hv.
  apply eqb_str_neq in Hsex, Hmid. rewrite Hsex, Hmid.
  change (eqb_str [] (lit "-2")) with false.
  change (contains [] (lit "/x")) with false.
  now rewrite andb_false_r.
Qed.

(** X4. A QualificationNumber that contains [/x] gets no error on its
    column, whatever its length: the exclusion suppresses every error the
    field validator raises on it. *)
Theorem unit_qualification_number clk text header rows i row :
  Csv.reader text = Some (header :: rows) ->
  nth_error rows i = Some row ->
  contains (strip (cell row (lit "QualificationNumber"))) (lit "/x") = true ->
  exists errs,
    validate_csv_text clk text = Returned errs
    /\ filter (fun e => at_row (Z.of_nat i + 2) e
                        && on_field (lit "QualificationNumber") e) errs = [].
Proof.
  intros Hread Hnth Hx.
  assert (Hb : blank_row row = false).
  { apply (nonblank_cell row (lit "QualificationNumber")). intros Hv.
    rewrite Hv in Hx. discriminate. }
  destruct (errors_on_field clk text header rows i row
              (lit "QualificationNumber") Hread Hnth Hb)
    as (errs & Hret & Hon).
  { apply mem_str_In. reflexivity. }
  exists errs. split; [exact Hret|]. rewrite Hon.
  rewrite filter_on_field_record_level.
  2:{ intros Hin. apply mem_str_In in Hin. discriminate. }
  rewrite app_nil_r. unfold field_errors.
  fold (cell row (lit "QualificationNumber")).
  assert (Hex : forall code,
             is_permitted_exclusion (lit "QualificationNumber")
               (cell row (lit "QualificationNumber")) code = true).
  { intros code. unfold is_permitted_exclusion. rewrite Hx.
    change (mem_str (lit "QualificationNumber") EXCLUSION_MINUS2_FIELDS) with false.
    now rewrite andb_false_r. }
  induction (validate_field _ _ _ _) as [|cm out IH]; [reflexivity|].
  cbn [flat_map]. now rewrite Hex.
Qed.

End FieldRules.

(* ===================================================================== *)
(** ** Date fields and the clock                                          *)
(* ===================================================================== *)

Section DateFields.
Context `{PyRuntime}.

Import Datetime.

Lemma date_field_spec f :
  In f DATE_FIELDS ->
  exists spec, dict_get FIELD_SPECS f = Some spec
               /\ FieldSpec.type spec = Some (lit "date")
               /\ FieldSpec.allow_minus2 spec = false.
Proof.
  intros Hf. cbn [DATE_FIELDS map] in Hf.
  repeat (destruct Hf as [<- | Hf]; [eexists; repeat split; reflexivity|]).
  contradiction.
Qed.

Lemma date_field_not_excluded f v code :
  In f DATE_FIELDS -> strip v <> [] -> is_permitted_exclusion f v code = false.
Proof.
  intros Hf Hv. unfold is_permitted_exclusion. apply eqb_str_neq in Hv. rewrite Hv.
  cbn [DATE_FIELDS map] in Hf.
  repeat (destruct Hf as [<- | Hf];
          [change (mem_str _ EXCLUSION_MINUS2_FIELDS) with false;
           now rewrite !andb_false_r|]).
  contradiction.
Qed.

(** The field validator on a date column and a value that is not blank. *)
Lemma validate_field_date today f v record_type :
  In f DATE_FIELDS -> strip v <> [] ->
  validate_field today f v record_type
  = match parse_date v with
    | (None, false) => [(lit "DATE_FORMAT", lit "Invalid date format: " ++ repr (strip v))]
    | (None, true) => []
    | (Some dt, _) =>
        (if date_ltb dt (mkdate 1900 1 1)
         then [before_1900_error (strip v)] else [])
        ++ (if eqb_str f (lit "DOB")
            then if Qltb (age_in_years today dt) 5 || Qltb 80 (age_in_years today dt)
                 then [age_error (strip v)] else []
            else [])
    end.
Proof.
  intros Hf Hv. destruct (date_field_spec f Hf) as (spec & Hget & Htype & Hallow).
  unfold validate_field. rewrite Hget, Htype, Hallow.
  apply eqb_str_neq in Hv. rewrite Hv, !andb_false_r.
  change (eqb_str (lit "date") (lit "date")) with true. cbv iota.
  now rewrite parse_date_strip.
Qed.

(** X5. On each of the four date columns a value that is not blank, is no
    sentinel and parses under neither format gets the DATE_FORMAT error and
    no other from the field validator, and the output holds exactly one
    DATE_FORMAT error on that column at the number of the row. *)
Theorem unparsable_date_field clk text header rows i row f :
  Csv.reader text = Some (header :: rows) ->
  nth_error rows i = Some row ->
  In f DATE_FIELDS ->
  strip (cell row f) <> [] ->
  parse_date (cell row f) = (None, false) ->
  (forall today record_type,
      validate_field today f (cell row f) record_type
      = [(lit "DATE_FORMAT",
          lit "Invalid date format: " ++ repr (strip (cell row f)))])
  /\ exists errs,
       validate_csv_text clk text = Returned errs
       /\ filter (fun e => at_row (Z.of_nat i + 2) e && on_field f e
                           && has_code "DATE_FORMAT" e) errs
          = [date_format_error (Z.of_nat i + 2) f (cell row f)].
Proof.
  intros Hread Hnth Hf Hv Hparse.
  assert (Hfield : forall today record_type,
             validate_field today f (cell row f) record_type
             = [(lit "DATE_FORMAT",
                 lit "Invalid date format: " ++ repr (strip (cell row f)))]).
  { intros. now rewrite (validate_field_date _ _ _ _ Hf Hv), Hparse. }
  split; [exact Hfield|].
  assert (Hin : In f EXPECTED_COLUMNS).
  { cbn [DATE_FIELDS map] in Hf. apply mem_str_In.
    repeat (destruct Hf as [<- | Hf]; [reflexivity|]). contradiction. }
  destruct (errors_on_field clk text header rows i row f Hread Hnth
              (nonblank_cell row f Hv) Hin) as (errs & Hret & Hon).
  exists errs. split; [exact Hret|].
  rewrite (filter_filter (fun e => at_row (Z.of_nat i + 2) e && on_field f e)), Hon.
  rewrite filter_app. unfold field_errors. fold (cell row f).
  rewrite Hfield. cbn [flat_map fst snd app].
  rewrite (date_field_not_excluded f _ _ Hf Hv).
  rewrite filter_none with (l := filter (on_field f) _); [reflexivity|].
  apply incl_Forall with (l1 := validate_record_level
    (clk (Z.of_nat i + 2)%Z IN_VALIDATE_RECORD_LEVEL)
    (combine EXPECTED_COLUMNS (fit_columns row)) (Z.of_nat i + 2)).
  { intros e He. now apply filter_In in He. }
  eapply Forall_impl; [|apply validate_record_level_shape].
  intros e [_ Hk]. unfold has_code.
  destruct (eqb_str (error_code e) (lit "DATE_FORMAT")) eqn:Hc; [|reflexivity].
  apply eqb_str_eq in Hc.
  assert (Hm : error_code e = lit "MISSING").
  { apply record_level_kind_code; [exact Hk | now rewrite Hc]. }
  rewrite Hc in Hm. discriminate.
Qed.

(** X6. A sentinel spelling is accepted by the field validator on each of
    the four date columns, the date of birth included, where no age is
    computed from it: the output has no error on DOB at the number of a row
    whose DOB is a sentinel. *)
Theorem sentinel_accepted_on_date_fields clk text header rows i row :
  Csv.reader text = Some (header :: rows) ->
  nth_error rows i = Some row ->
  mem_str (strip (cell row (lit "DOB"))) SENTINEL_DATES = true ->
  (forall today f v record_type,
      In f DATE_FIELDS -> mem_str (strip v) SENTINEL_DATES = true ->
      validate_field today f v record_type = [])
  /\ exists errs,
       validate_csv_text clk text = Returned errs
       /\ filter (fun e => at_row (Z.of_nat i + 2) e && on_field (lit "DOB") e)
                 errs = [].
Proof.
  intros Hread Hnth Hs.
  assert (Hfield : forall today f v record_type,
             In f DATE_FIELDS -> mem_str (strip v) SENTINEL_DATES = true ->
             validate_field today f v record_type = []).
  { intros today f v rt Hf Hv.
    rewrite (validate_field_date _ _ _ _ Hf (sentinel_not_blank _ Hv)).
    now rewrite (parse_date_sentinel _ Hv). }
  split; [exact Hfield|].
  destruct (errors_on_field clk text header rows i row (lit "DOB") Hread Hnth)
    as (errs & Hret & Hon).
  { apply (nonblank_cell row (lit "DOB")). now apply sentinel_not_blank. }
  { apply mem_str_In. reflexivity. }
  exists errs. split; [exact Hret|]. rewrite Hon.
  rewrite filter_on_field_record_level.
  2:{ intros Hin. apply mem_str_In in Hin. discriminate. }
  rewrite app_nil_r. unfold field_errors. fold (cell row (lit "DOB")).
  rewrite Hfield; [reflexivity | | exact Hs]. apply mem_str_In. reflexivity.
Qed.

(** The field validator reads the clock for a date of birth that parses to
    a date, and for nothing else. *)
Lemma validate_field_clock today1 today2 f v record_type :
  f <> lit "DOB" \/ fst (parse_date v) = None ->
  validate_field today1 f v record_type = validate_field today2 f v record_type.
Proof.
  intros Hfree. unfold validate_field.
  destruct (dict_get FIELD_SPECS f) as [spec|]; [|reflexivity].
  destruct (_ && _ && _); [reflexivity|].
  destruct (eqb_str (strip v) []); [reflexivity|].
  destruct (_ && _); [reflexivity|].
  destruct (match FieldSpec.type spec with Some _ => _ | None => _ end);
    [|reflexivity].
  rewrite parse_date_strip.
  destruct (parse_date v) as [[dt|] [|]]; try reflexivity;
    (destruct Hfree as [Hne | Hnone]; [|discriminate Hnone]);
    apply eqb_str_neq in Hne; now rewrite Hne.
Qed.

Lemma validate_record_level_clock today1 today2 row n :
  mem_str (stripped row "RecordType") RESULT_TYPES = false ->
  validate_record_level today1 row n = validate_record_level today2 row n.
Proof.
  intros Hrt. unfold validate_record_level. fold RESULT_TYPES. now rewrite Hrt.
Qed.

Lemma row_errors_clock_free clk1 clk2 seen idx row :
  clock_free row = true ->
  row_errors clk1 seen idx row = row_errors clk2 seen idx row.
Proof.
  unfold clock_free. intros Hfree.
  destruct (blank_row row) eqn:Hb.
  - now rewrite !(row_errors_blank _ _ _ _ Hb).
  - cbn [orb] in Hfree. apply andb_true_iff in Hfree.
    destruct Hfree as [Hres Hdob]. apply negb_true_iff in Hres.
    rewrite !(row_errors_nonblank _ _ _ _ Hb). cbv zeta.
    rewrite (validate_record_level_clock
               (clk1 (idx + 1)%Z IN_VALIDATE_RECORD_LEVEL)
               (clk2 (idx + 1)%Z IN_VALIDATE_RECORD_LEVEL)) by exact Hres.
    rewrite (flat_map_ext
               (field_errors (clk1 (idx + 1)%Z IN_VALIDATE_FIELD)
                  (combine EXPECTED_COLUMNS (fit_columns row))
                  (stripped (combine EXPECTED_COLUMNS (fit_columns row)) "RecordType")
                  (idx + 1))
               (field_errors (clk2 (idx + 1)%Z IN_VALIDATE_FIELD)
                  (combine EXPECTED_COLUMNS (fit_columns row))
                  (stripped (combine EXPECTED_COLUMNS (fit_columns row)) "RecordType")
                  (idx + 1))); [reflexivity|].
    intros g. unfold field_errors.
    rewrite (validate_field_clock (clk1 (idx + 1)%Z IN_VALIDATE_FIELD)
               (clk2 (idx + 1)%Z IN_VALIDATE_FIELD)); [reflexivity|].
    destruct (eqb_str g (lit "DOB")) eqn:Hg.
    + apply eqb_str_eq in Hg. subst g. right.
      fold (cell row (lit "DOB")).
      now destruct (fst (parse_date (cell row (lit "DOB")))).
    + left. now apply eqb_str_neq.
Qed.

Lemma rows_errors_clock_free clk1 clk2 rows : forall seen idx,
  forallb clock_free rows = true ->
  rows_errors clk1 seen idx rows = rows_errors clk2 seen idx rows.
Proof.
  induction rows as [|row rows IH]; intros seen idx Hfree; [reflexivity|].
  cbn [forallb] in Hfree. apply andb_true_iff in Hfree.
  destruct Hfree as [Hrow Hrows]. cbn [rows_errors].
  now rewrite (row_errors_clock_free clk1 clk2 _ _ _ Hrow), IH.
Qed.

(** X7. The clock matters only for Result and Amendment rows and for dates
    of birth that parse to a date: on a submission whose data rows are each
    blank, or neither Result nor Amendment and without such a date of birth,
    the outcome is the same whatever the clock shows, at any reading. *)
Theorem outcome_without_clock clk1 clk2 text :
  (forall header rows,
      Csv.reader text = Some (header :: rows) -> forallb clock_free rows = true) ->
  validate_csv_text clk1 text = validate_csv_text clk2 text.
Proof.
  intros Hfree. rewrite !validate_csv_text_unfold.
  destruct (Csv.reader text) as [[|header rows]|]; try reflexivity.
  now rewrite (rows_errors_clock_free clk1 clk2 rows [] 1 (Hfree _ _ eq_refl)).
Qed.

End DateFields.

(* ===================================================================== *)
(** ** Record-level rules in the output                                   *)
(* ===================================================================== *)

Lemma filter_if_drop {A : Type} (q : A -> bool) (c : bool) (e : A) :
  q e = false -> filter q (if c then [e] else []) = [].
Proof. intros Hq. destruct c; cbn; [now rewrite Hq | reflexivity]. Qed.

Lemma filter_if_keep {A : Type} (q : A -> bool) (c : bool) (e : A) :
  q e = true -> filter q (if c then [e] else []) = if c then [e] else [].
Proof. intros Hq. destruct c; cbn; [now rewrite Hq | reflexivity]. Qed.

(** Filters the record-level errors piece by piece; the test must decide
    each error from its field and code. *)
Ltac filter_ifs :=
  rewrite ?filter_app;
  repeat match goal with
         | |- context [filter ?q (if ?c then [?e] else [])] =>
             let b := eval lazy in (q e) in
             lazymatch b with
             | false => rewrite (filter_if_drop q c e (eq_refl false))
             | true => rewrite (filter_if_keep q c e (eq_refl true))
             end
         end;
  cbn [filter app]; rewrite ?app_nil_r.

Ltac record_rules_cases row :=
  unfold validate_record_level; fold RESULT_TYPES;
  destruct (mem_str (stripped row "RecordType") RESULT_TYPES);
  destruct (eqb_str (stripped row "RecordType") (lit "Entry"));
  cbv iota; cbn [flat_map map app];
  repeat match goal with
         | |- context [parse_date ?x] => destruct (parse_date x) as [[?|] ?]
         end;
  cbn [fst snd andb]; filter_ifs.

Section RecordRulesInOutput.
Context `{PyRuntime}.

Import Datetime.

Lemma record_only_code_not_shape e :
  row_shape_kind e = true -> mem_str (error_code e) RECORD_ONLY_CODES = false.
Proof.
  unfold row_shape_kind. rewrite andb_true_iff, mem_str_In.
  cbn [map In]. intros [_ [<- | [<- | []]]]; reflexivity.
Qed.

Lemma record_only_code_not_field c :
  mem_str c FIELD_LEVEL_CODES = true -> mem_str c RECORD_ONLY_CODES = false.
Proof.
  intros Hc.
  destruct (field_level_code_In _ Hc) as [-> | [-> | [-> | [-> | [-> | [-> | [-> | ->]]]]]]];
    reflexivity.
Qed.

(** The errors of the output at the number of a row that pass a test on
    codes only record-level rules raise are errors of the record-level
    rules on that row. *)
Lemma errors_with_record_code (q : ValidationError -> bool) clk text header rows i row :
  (forall e, q e = true -> mem_str (error_code e) RECORD_ONLY_CODES = true) ->
  Csv.reader text = Some (header :: rows) ->
  nth_error rows i = Some row ->
  blank_row row = false ->
  exists errs,
    validate_csv_text clk text = Returned errs
    /\ filter (fun e => at_row (Z.of_nat i + 2) e && q e) errs
       = filter q (validate_record_level
                     (clk (Z.of_nat i + 2)%Z IN_VALIDATE_RECORD_LEVEL)
                     (combine EXPECTED_COLUMNS (fit_columns row))
                     (Z.of_nat i + 2)).
Proof.
  intros Hq Hread Hnth Hb.
  destruct (errors_of_row clk _ _ _ _ _ Hread Hnth) as (errs & seen & Hret & Hrow).
  exists errs. split; [exact Hret|].
  rewrite filter_filter, Hrow, filter_row_errors_record_level.
  - now replace (Z.of_nat i + 1 + 1)%Z with (Z.of_nat i + 2)%Z by lia.
  - intros e He. destruct (q e) eqn:Hqe; [|reflexivity].
    apply Hq in Hqe. now rewrite (record_only_code_not_shape e He) in Hqe.
  - intros e He _. destruct (q e) eqn:Hqe; [|reflexivity].
    apply Hq in Hqe. now rewrite (record_only_code_not_field _ He) in Hqe.
  - exact Hb.
Qed.

Lemma has_record_only_code (code : string) e :
  mem_str (lit code) RECORD_ONLY_CODES = true ->
  has_code code e = true -> mem_str (error_code e) RECORD_ONLY_CODES = true.
Proof.
  intros Hc He. unfold has_code in He. apply eqb_str_eq in He. now rewrite He.
Qed.

Lemma group_rule_filter today row n :
  filter (has_code "GROUP_RULE") (validate_record_level today row n)
  = if forallb (fun f => eqb_str (strip (raw row f)) [])
         (map lit ["UniqueCandidateIdentifier"; "UniqueLearnerNumber";
                   "UniquePupilNumber"; "CandidateIdentifierOther"]%string)
    then [group_rule_error n] else [].
Proof. record_rules_cases row; reflexivity. Qed.

Lemma result_rule_filter today row n :
  filter (has_code "RESULT_RULE") (validate_record_level today row n)
  = if mem_str (stripped row "RecordType") RESULT_TYPES
       && eqb_str (stripped row "QualificationGrade") (lit "-2")
    then [result_grade_error n (stripped row "QualificationGrade")] else [].
Proof. record_rules_cases row; reflexivity. Qed.

Lemma entry_rule_filter today row n :
  filter (has_code "ENTRY_RULE") (validate_record_level today row n)
  = if eqb_str (stripped row "RecordType") (lit "Entry")
    then (if negb (eqb_str (stripped row "QualificationGrade") (lit "-2"))
          then [entry_grade_error n (stripped row "QualificationGrade")] else [])
         ++ (if negb (mem_str (stripped row "FirstEntryDate") SENTINEL_DATES)
             then [entry_date_error n (lit "FirstEntryDate")
                     (stripped row "FirstEntryDate")] else [])
         ++ (if negb (mem_str (stripped row "AwardDate") SENTINEL_DATES)
             then [entry_date_error n (lit "AwardDate")
                     (stripped row "AwardDate")] else [])
    else [].
Proof. record_rules_cases row; reflexivity. Qed.

Lemma sentinel_not_allowed_filter today row n :
  filter (has_code "SENTINEL_NOT_ALLOWED") (validate_record_level today row n)
  = if mem_str (stripped row "RecordType") RESULT_TYPES
    then (if snd (parse_date (stripped row "FirstEntryDate"))
          then [sentinel_not_allowed_error n (lit "FirstEntryDate")
                  (stripped row "FirstEntryDate")] else [])
         ++ (if snd (parse_date (stripped row "AwardDate"))
             then [sentinel_not_allowed_error n (lit "AwardDate")
                     (stripped row "AwardDate")] else [])
    else [].
Proof. record_rules_cases row; reflexivity. Qed.

Lemma date_future_filter today row n :
  filter (has_code "DATE_FUTURE") (validate_record_level today row n)
  = if mem_str (stripped row "RecordType") RESULT_TYPES
    then (match fst (parse_date (stripped row "FirstEntryDate")) with
          | Some fe =>
              if date_ltb today fe
              then [date_future_error n (lit "FirstEntryDate")
                      (stripped row "FirstEntryDate")] else []
          | None => []
          end)
         ++ (match fst (parse_date (stripped row "AwardDate")) with
             | Some aw =>
                 if date_ltb today aw
                 then [date_future_error n (lit "AwardDate")
                         (stripped row "AwardDate")] else []
             | None => []
             end)
    else [].
Proof. record_rules_cases row; reflexivity. Qed.

Lemma parse_date_snd v : snd (parse_date v) = mem_str (strip v) SENTINEL_DATES.
Proof.
  unfold parse_date. destruct (eqb_str (strip v) []) eqn:Hb.
  - apply eqb_str_eq in Hb. now rewrite Hb.
  - destruct (mem_str (strip v) SENTINEL_DATES); [reflexivity|].
    destruct (try_formats_cases (strip v) DATE_FORMATS)
      as [[-> _] | (fmt & dt & _ & _ & ->)]; reflexivity.
Qed.

(** X8. The identifier-group rule in the output: a row that is not blank
    gets the GROUP_RULE error, once, exactly when its four learner
    identifiers are all blank, whatever its record type. *)
Theorem group_rule_in_output clk text header rows i row :
  Csv.reader text = Some (header :: rows) ->
  nth_error rows i = Some row ->
  blank_row row = false ->
  exists errs,
    validate_csv_text clk text = Returned errs
    /\ filter (fun e => at_row (Z.of_nat i + 2) e && has_code "GROUP_RULE" e) errs
       = if no_learner_identifier row
         then [group_rule_error (Z.of_nat i + 2)] else [].
Proof.
  intros Hread Hnth Hb.
  destruct (errors_with_record_code (has_code "GROUP_RULE") clk text header
              rows i row) as (errs & Hret & Hf); auto.
  { intros e. now apply has_record_only_code. }
  exists errs. split; [exact Hret|]. rewrite Hf. apply group_rule_filter.
Qed.

(** X9. The grade of a Result or Amendment: the output holds the
    RESULT_RULE error at the number of a row exactly when the row is a
    Result or an Amendment and its trimmed QualificationGrade is -2, the
    value an Entry must have. *)
Theorem result_rule_in_output clk text header rows i row :
  Csv.reader text = Some (header :: rows) ->
  nth_error rows i = Some row ->
  blank_row row = false ->
  exists errs,
    validate_csv_text clk text = Returned errs
    /\ filter (fun e => at_row (Z.of_nat i + 2) e && has_code "RESULT_RULE" e) errs
       = if result_row row
            && eqb_str (strip (cell row (lit "QualificationGrade"))) (lit "-2")
         then [result_grade_error (Z.of_nat i + 2)
                 (strip (cell row (lit "QualificationGrade")))]
         else [].
Proof.
  intros Hread Hnth Hb.
  destruct (errors_with_record_code (has_code "RESULT_RULE") clk text header
              rows i row) as (errs & Hret & Hf); auto.
  { intros e. now apply has_record_only_code. }
  exists errs. split; [exact Hret|]. rewrite Hf. apply result_rule_filter.
Qed.

(** X10. The Entry rule in the output: ENTRY_RULE errors are raised on
    Entry rows only, one for a grade that is not -2, then one for each of
    FirstEntryDate and AwardDate that is not a sentinel spelling. *)
Theorem entry_rule_in_output clk text header rows i row :
  Csv.reader text = Some (header :: rows) ->
  nth_error rows i = Some row ->
  blank_row row = false ->
  exists errs,
    validate_csv_text clk text = Returned errs
    /\ filter (fun e => at_row (Z.of_nat i + 2) e && has_code "ENTRY_RULE" e) errs
       = if eqb_str (record_type_of row) (lit "Entry")
         then (if negb (eqb_str (strip (cell row (lit "QualificationGrade")))
                          (lit "-2"))
               then [entry_grade_error (Z.of_nat i + 2)
                       (strip (cell row (lit "QualificationGrade")))]
               else [])
              ++ (if negb (mem_str (strip (cell row (lit "FirstEntryDate")))
                             SENTINEL_DATES)
                  then [entry_date_error (Z.of_nat i + 2) (lit "FirstEntryDate")
                          (strip (cell row (lit "FirstEntryDate")))]
                  else [])
              ++ (if negb (mem_str (strip (cell row (lit "AwardDate")))
                             SENTINEL_DATES)
                  then [entry_date_error (Z.of_nat i + 2) (lit "AwardDate")
                          (strip (cell row (lit "AwardDate")))]
                  else [])
         else [].
Proof.
  intros Hread Hnth Hb.
  destruct (errors_with_record_code (has_code "ENTRY_RULE") clk text header
              rows i row) as (errs & Hret & Hf); auto.
  { intros e. now apply has_record_only_code. }
  exists errs. split; [exact Hret|]. rewrite Hf. apply entry_rule_filter.
Qed.

(** X11. Sentinel dates on a Result or Amendment: the output holds a
    SENTINEL_NOT_ALLOWED error at the number of a row exactly for each of
    FirstEntryDate and AwardDate whose trimmed value is a sentinel spelling,
    and only when the row is a Result or an Amendment. *)
Theorem sentinel_not_allowed_in_output clk text header rows i row :
  Csv.reader text = Some (header :: rows) ->
  nth_error rows i = Some row ->
  blank_row row = false ->
  exists errs,
    validate_csv_text clk text = Returned errs
    /\ filter (fun e => at_row (Z.of_nat i + 2) e
                        && has_code "SENTINEL_NOT_ALLOWED" e) errs
       = if result_row row
         then (if mem_str (strip (cell row (lit "FirstEntryDate"))) SENTINEL_DATES
               then [sentinel_not_allowed_error (Z.of_nat i + 2)
                       (lit "FirstEntryDate")
                       (strip (cell row (lit "FirstEntryDate")))]
               else [])
              ++ (if mem_str (strip (cell row (lit "AwardDate"))) SENTINEL_DATES
                  then [sentinel_not_allowed_error (Z.of_nat i + 2)
                          (lit "AwardDate")
                          (strip (cell row (lit "AwardDate")))]
                  else [])
         else [].
Proof.
  intros Hread Hnth Hb.
  destruct (errors_with_record_code (has_code "SENTINEL_NOT_ALLOWED") clk text
              header rows i row) as (errs & Hret & Hf); auto.
  { intros e. now apply has_record_only_code. }
  exists errs. split; [exact Hret|]. rewrite Hf, sentinel_not_allowed_filter.
  rewrite !parse_date_snd, !stripped_cell, !strip_idem. reflexivity.
Qed.

(** X12. Dates in the future: the output holds a DATE_FUTURE error at the
    number of a row exactly for each of FirstEntryDate and AwardDate that
    parses to a date after the day the clock shows at the record-level check
    of that row, and only when the row is a Result or an Amendment; the
    dates of an Entry are never compared with the clock. *)
Theorem date_future_in_output clk text header rows i row :
  Csv.reader text = Some (header :: rows) ->
  nth_error rows i = Some row ->
  blank_row row = false ->
  let n := (Z.of_nat i + 2)%Z in
  let today := clk n IN_VALIDATE_RECORD_LEVEL in
  exists errs,
    validate_csv_text clk text = Returned errs
    /\ filter (fun e => at_row n e && has_code "DATE_FUTURE" e) errs
       = if result_row row
         then (match fst (parse_date (cell row (lit "FirstEntryDate"))) with
               | Some fe =>
                   if date_ltb today fe
                   then [date_future_error n (lit "FirstEntryDate")
                           (strip (cell row (lit "FirstEntryDate")))]
                   else []
               | None => []
               end)
              ++ (match fst (parse_date (cell row (lit "AwardDate"))) with
                  | Some aw =>
                      if date_ltb today aw
                      then [date_future_error n (lit "AwardDate")
                              (strip (cell row (lit "AwardDate")))]
                      else []
                  | None => []
                  end)
         else [].
Proof.
  intros Hread Hnth Hb n today.
  destruct (errors_with_record_code (has_code "DATE_FUTURE") clk text
              header rows i row) as (errs & Hret & Hf); auto.
  { intros e. now apply has_record_only_code. }
  exists errs. split; [exact Hret|]. subst n today.
  rewrite Hf, date_future_filter.
  rewrite !stripped_cell, !parse_date_strip. reflexivity.
Qed.

(** X13. Rows that are no Entry, Result or Amendment, Deletion rows among
    them: of the errors only record-level rules raise, the output holds at
    most the GROUP_RULE error at the number of such a row; no grade or date
    rule applies to it. *)
Theorem other_record_types_in_output clk text header rows i row :
  Csv.reader text = Some (header :: rows) ->
  nth_error rows i = Some row ->
  blank_row row = false ->
  result_row row = false ->
  record_type_of row <> lit "Entry" ->
  exists errs,
    validate_csv_text clk text = Returned errs
    /\ filter (fun e => at_row (Z.of_nat i + 2) e
                        && mem_str (error_code e) RECORD_ONLY_CODES) errs
       = if no_learner_identifier row
         then [group_rule_error (Z.of_nat i + 2)] else [].
Proof.
  intros Hread Hnth Hb Hres Hentry.
  destruct (errors_with_record_code
              (fun e => mem_str (error_code e) RECORD_ONLY_CODES) clk text
              header rows i row) as (errs & Hret & Hf); auto.
  exists errs. split; [exact Hret|]. rewrite Hf.
  unfold validate_record_level. fold RESULT_TYPES.
  fold (record_type_of row). fold (result_row row).
  apply eqb_str_neq in Hentry. rewrite Hres, Hentry. rewrite !app_nil_r.
  unfold no_learner_identifier, cell.
  destruct (forallb _ _); reflexivity.
Qed.

End RecordRulesInOutput.

(* ===================================================================== *)
(** ** Conditional fields, header, column count and duplicates            *)
(* ===================================================================== *)

Section RowShape.
Context `{PyRuntime}.

Lemma conditional_missing_filter today row n f :
  In f CONDITIONAL_FIELDS ->
  filter (fun e => on_field f e && has_code "MISSING" e)
         (validate_record_level today row n)
  = if mem_str (stripped row "RecordType") RESULT_TYPES
       && eqb_str (strip (or_empty (dict_get row f))) []
    then [conditional_missing_error n f (stripped row "RecordType") (raw row f)]
    else [].
Proof.
  intros Hf. cbn [CONDITIONAL_FIELDS map] in Hf.
  destruct Hf as [<- | [<- | [<- | []]]]; record_rules_cases row; reflexivity.
Qed.

Lemma conditional_field_spec f :
  In f CONDITIONAL_FIELDS ->
  In f EXPECTED_COLUMNS
  /\ exists spec, dict_get FIELD_SPECS f = Some spec
                  /\ FieldSpec.mandatory spec = false.
Proof.
  intros Hf. cbn [CONDITIONAL_FIELDS map] in Hf.
  destruct Hf as [<- | [<- | [<- | []]]];
    (split; [apply mem_str_In; reflexivity | eexists; split; reflexivity]).
Qed.

Lemma validate_field_no_missing today f spec v record_type :
  dict_get FIELD_SPECS f = Some spec -> FieldSpec.mandatory spec = false ->
  Forall (fun cm => eqb_str (fst cm) (lit "MISSING") = false)
         (validate_field today f v record_type).
Proof.
  intros Hget Hm. unfold validate_field. rewrite Hget, Hm. cbn [andb].
  forall_pieces; reflexivity.
Qed.

(** X14. The fields mandatory for results only: at the number of a row the
    output holds a MISSING error on FirstEntryDate, AwardDate or
    QualificationGrade exactly when the row is a Result or an Amendment and
    the cell is blank; on any other row a blank cell there raises no
    MISSING error. *)
Theorem conditional_missing_in_output clk text header rows i row f :
  Csv.reader text = Some (header :: rows) ->
  nth_error rows i = Some row ->
  blank_row row = false ->
  In f CONDITIONAL_FIELDS ->
  exists errs,
    validate_csv_text clk text = Returned errs
    /\ filter (fun e => at_row (Z.of_nat i + 2) e && on_field f e
                        && has_code "MISSING" e) errs
       = if result_row row && eqb_str (strip (cell row f)) []
         then [conditional_missing_error (Z.of_nat i + 2) f (record_type_of row)
                 (cell row f)]
         else [].
Proof.
  intros Hread Hnth Hb Hf.
  destruct (conditional_field_spec f Hf) as (Hin & spec & Hget & Hm).
  destruct (errors_on_field clk text header rows i row f Hread Hnth Hb Hin)
    as (errs & Hret & Hon).
  exists errs. split; [exact Hret|].
  rewrite (filter_filter (fun e => at_row (Z.of_nat i + 2) e && on_field f e)), Hon.
  rewrite filter_app, <- filter_filter, (conditional_missing_filter _ _ _ f Hf).
  rewrite filter_none; [reflexivity|].
  eapply Forall_impl; [|apply field_errors_shape].
  intros e (_ & _ & _ & _ & Hcm). unfold has_code.
  pose proof (validate_field_no_missing
                (clk (Z.of_nat i + 2)%Z IN_VALIDATE_FIELD) f spec
                (raw (combine EXPECTED_COLUMNS (fit_columns row)) f)
                (record_type_of row) Hget Hm) as Hall.
  rewrite Forall_forall in Hall. exact (Hall _ Hcm).
Qed.

Lemma lstrip_by_padding p l x : forallb p l = true -> lstrip_by p (l ++ x) = lstrip_by p x.
Proof.
  induction l as [|c l IH]; cbn; [reflexivity|].
  rewrite andb_true_iff. intros [-> Hl]. now apply IH.
Qed.

Lemma strip_by_padded p l name r :
  forallb p l = true -> forallb p r = true -> clean p name = true ->
  strip_by p (l ++ name ++ r) = name.
Proof.
  unfold clean. rewrite andb_true_iff. intros Hl Hr [Hhead Hlast].
  unfold strip_by. rewrite (lstrip_by_padding p l _ Hl).
  destruct name as [|a name]; [discriminate|]. apply negb_true_iff in Hhead.
  cbn [app]. rewrite (lstrip_by_keep p a _ Hhead).
  unfold rstrip_by. change (a :: name ++ r) with ((a :: name) ++ r).
  rewrite rev_app_distr, lstrip_by_padding.
  2:{ rewrite forallb_forall in *. intros c Hc. apply Hr. now apply in_rev. }
  destruct (rev (a :: name)) as [|z t] eqn:Hrev; [discriminate|].
  apply negb_true_iff in Hlast. rewrite (lstrip_by_keep p z _ Hlast).
  now rewrite <- Hrev, rev_involutive.
Qed.

Lemma expected_columns_clean :
  forallb (fun name => clean header_padding name && clean isspace name)
          EXPECTED_COLUMNS = true.
Proof. vm_compute. reflexivity. Qed.

Lemma normalized_padded names : forall header,
  forallb (fun name => clean header_padding name && clean isspace name) names
  = true ->
  Forall2 padded names header -> normalized header = names.
Proof.
  induction names as [|name names IH]; intros header Hclean Hpad;
    inversion Hpad as [|? cell ? header' (l & r & Hl & Hr & ->) Hrest]; subst;
    [reflexivity|].
  cbn [forallb] in Hclean. rewrite !andb_true_iff in Hclean.
  destruct Hclean as [[Hc1 Hc2] Hnames].
  cbn [normalized map]. fold (normalized header'). rewrite (IH _ Hnames Hrest).
  f_equal. unfold strip_chars. fold header_padding.
  rewrite (strip_by_padded _ _ _ _ Hl Hr Hc1).
  pose proof (strip_by_padded isspace [] name [] eq_refl eq_refl Hc2) as Hs.
  cbn [app] in Hs. now rewrite app_nil_r in Hs.
Qed.

(** X15. A header whose cells are the 34 column names in order, each
    allowed byte-order marks and spaces before and after it, is taken as
    matching: the output is that of the data rows alone, with no
    HEADER_MISMATCH error. *)
Theorem padded_header_accepted clk text header rows :
  Csv.reader text = Some (header :: rows) ->
  Forall2 padded EXPECTED_COLUMNS header ->
  validate_csv_text clk text = Returned (rows_errors clk [] 1 rows)
  /\ filter (has_code "HEADER_MISMATCH") (rows_errors clk [] 1 rows) = [].
Proof.
  intros Hread Hpad. split.
  - rewrite validate_csv_text_unfold, Hread.
    rewrite (normalized_padded _ _ expected_columns_clean Hpad).
    now rewrite (proj2 (eqb_row_eq _ _) eq_refl).
  - apply filter_none.
    eapply Forall_impl; [|apply rows_errors_not_file_level]. now intros e [He _].
Qed.

End RowShape.

(* ===================================================================== *)
(** ** Column count and duplicate rows                                    *)
(* ===================================================================== *)

Section ColumnsAndDuplicates.
Context `{PyRuntime}.

Lemma fit_columns_length row : len (fit_columns row) = len EXPECTED_COLUMNS.
Proof.
  unfold fit_columns.
  destruct (len row <? len EXPECTED_COLUMNS)%Z eqn:Hshort.
  - apply Z.ltb_lt in Hshort. unfold len in *.
    rewrite length_app, repeat_length. lia.
  - destruct (len EXPECTED_COLUMNS <? len row)%Z eqn:Hlong.
    + apply Z.ltb_lt in Hlong. unfold len in *. rewrite length_firstn. lia.
    + apply Z.ltb_ge in Hshort, Hlong. lia.
Qed.

Lemma fit_columns_fitted row :
  len row = len EXPECTED_COLUMNS -> fit_columns row = row.
Proof.
  intros Hlen. unfold fit_columns. rewrite Hlen, Z.ltb_irrefl. reflexivity.
Qed.

Lemma fit_columns_idem row : fit_columns (fit_columns row) = fit_columns row.
Proof. apply fit_columns_fitted, fit_columns_length. Qed.

Lemma blank_row_fit row : blank_row (fit_columns row) = false -> blank_row row = false.
Proof.
  unfold blank_row. rewrite !negb_false_iff, !existsb_exists.
  intros (c & Hc & Hne). apply fit_columns_In in Hc.
  destruct Hc as [-> | Hc]; [discriminate|]. now exists c.
Qed.

(** X16. A row with a number of cells other than 34 is validated as the
    row padded with empty cells, or cut, to 34 cells, after one
    COLUMN_COUNT error: provided the 34 cells are not all blank, its errors
    in the output are that error followed by the errors the padded or cut
    row gets, and a row of 34 cells gets no COLUMN_COUNT error. *)
Theorem column_count_in_output clk text header rows i row :
  Csv.reader text = Some (header :: rows) ->
  nth_error rows i = Some row ->
  blank_row (fit_columns row) = false ->
  exists errs seen,
    validate_csv_text clk text = Returned errs
    /\ filter (at_row (Z.of_nat i + 2)) errs
       = (if (len row =? len EXPECTED_COLUMNS)%Z then []
          else [column_count_error (Z.of_nat i + 2) row])
         ++ row_errors clk seen (Z.of_nat i + 1) (fit_columns row).
Proof.
  intros Hread Hnth Hfit. pose proof (blank_row_fit row Hfit) as Hb.
  destruct (errors_of_row clk _ _ _ _ _ Hread Hnth) as (errs & seen & Hret & Hrow).
  exists errs, seen. split; [exact Hret|]. rewrite Hrow.
  rewrite (row_errors_nonblank _ _ _ _ Hb), (row_errors_nonblank _ _ _ _ Hfit).
  cbv zeta. rewrite fit_columns_idem, fit_columns_length, Z.eqb_refl.
  replace (Z.of_nat i + 1 + 1)%Z with (Z.of_nat i + 2)%Z by lia.
  destruct (len row =? len EXPECTED_COLUMNS)%Z; reflexivity.
Qed.

Lemma existsb_eqb_row x seen : existsb (eqb_row x) seen = true <-> In x seen.
Proof.
  rewrite existsb_exists. split.
  - intros (y & Hy & Heq). apply eqb_row_eq in Heq. now subst.
  - intros Hin. exists x. split; [exact Hin | now apply eqb_row_eq].
Qed.

(** The rows seen after a run of rows: those seen before, and the rows of
    the run that are not blank, padded or cut. *)
Lemma seen_after_rows pre : forall seen x,
  In x (fold_left seen_after pre seen)
  <-> In x seen
      \/ exists r, In r pre /\ blank_row r = false /\ fit_columns r = x.
Proof.
  induction pre as [|row pre IH]; intros seen x; cbn [fold_left].
  - split; [now left | intros [Hx | (r & [] & _)]; exact Hx].
  - rewrite IH. unfold seen_after at 1.
    destruct (blank_row row) eqn:Hb.
    + split.
      * intros [Hx | (r & Hr & Hrb & Hfit)]; [now left|].
        right. exists r. repeat split; auto. now right.
      * intros [Hx | (r & [-> | Hr] & Hrb & Hfit)]; [now left | congruence |].
        right. now exists r.
    + destruct (existsb (eqb_row (fit_columns row)) seen) eqn:Hdup.
      * apply existsb_eqb_row in Hdup. split.
        -- intros [Hx | (r & Hr & Hrb & Hfit)]; [now left|].
           right. exists r. repeat split; auto. now right.
        -- intros [Hx | (r & [-> | Hr] & Hrb & Hfit)];
             [now left | left; now subst x | right; now exists r].
      * split.
        -- intros [[<- | Hx] | (r & Hr & Hrb & Hfit)].
           ++ right. exists row. repeat split; auto. now left.
           ++ now left.
           ++ right. exists r. repeat split; auto. now right.
        -- intros [Hx | (r & [-> | Hr] & Hrb & Hfit)].
           ++ left. now right.
           ++ left. now left.
           ++ right. now exists r.
Qed.

Lemma has_duplicate_code_shape e :
  has_code "DUPLICATE_ROW" e = true ->
  mem_str (error_code e) FIELD_LEVEL_CODES = false /\ record_level_kind e = false.
Proof.
  unfold has_code. intros He. apply eqb_str_eq in He. split.
  - now rewrite He.
  - unfold record_level_kind. rewrite He.
    apply not_true_is_false. rewrite existsb_exists.
    intros (fc & Hfc & Heq). apply andb_true_iff in Heq. destruct Heq as [_ Hc].
    cbn [RECORD_LEVEL_KINDS map] in Hfc.
    repeat (destruct Hfc as [<- | Hfc]; [discriminate Hc|]). contradiction.
Qed.

Lemma duplicate_filter clk seen idx row :
  blank_row row = false ->
  filter (has_code "DUPLICATE_ROW") (row_errors clk seen idx row)
  = if existsb (eqb_row (fit_columns row)) seen
    then [duplicate_row_error (idx + 1)] else [].
Proof.
  intros Hb. rewrite (row_errors_nonblank _ _ _ _ Hb). cbv zeta.
  rewrite !filter_app.
  rewrite filter_none with (l := flat_map _ _).
  2:{ apply Forall_flat_map_intro. intros g Hg.
      eapply Forall_impl; [|apply field_errors_shape].
      intros e (_ & _ & _ & Hc & _).
      destruct (has_code "DUPLICATE_ROW" e) eqn:Hd; [|reflexivity].
      apply has_duplicate_code_shape in Hd. destruct Hd. congruence. }
  rewrite filter_none with (l := validate_record_level _ _ _).
  2:{ eapply Forall_impl; [|apply validate_record_level_shape].
      intros e [_ Hk].
      destruct (has_code "DUPLICATE_ROW" e) eqn:Hd; [|reflexivity].
      apply has_duplicate_code_shape in Hd. destruct Hd. congruence. }
  rewrite !app_nil_r.
  destruct (negb (len row =? len EXPECTED_COLUMNS)%Z),
    (existsb (eqb_row (fit_columns row)) seen); reflexivity.
Qed.

(** X17. Duplicate rows: a row that is not blank gets the DUPLICATE_ROW
    error, once, exactly when an earlier row of the submission that is not
    blank has the same 34 cells once both are padded or cut; otherwise it
    gets none. *)
Theorem duplicate_row_in_output clk text header pre row post :
  Csv.reader text = Some (header :: pre ++ row :: post) ->
  blank_row row = false ->
  exists errs,
    validate_csv_text clk text = Returned errs
    /\ ((exists r, In r pre /\ blank_row r = false
                   /\ fit_columns r = fit_columns row) ->
        filter (fun e => at_row (len pre + 2) e && has_code "DUPLICATE_ROW" e) errs
        = [duplicate_row_error (len pre + 2)])
    /\ (~ (exists r, In r pre /\ blank_row r = false
                     /\ fit_columns r = fit_columns row) ->
        filter (fun e => at_row (len pre + 2) e && has_code "DUPLICATE_ROW" e) errs
        = []).
Proof.
  intros Hread Hb. rewrite validate_csv_text_unfold, Hread.
  eexists. split; [reflexivity|].
  assert (Hf : forall l,
             filter (fun e => at_row (len pre + 2) e && has_code "DUPLICATE_ROW" e)
                    (l ++ rows_errors clk [] 1 (pre ++ row :: post))
             = filter (fun e => at_row (len pre + 2) e && has_code "DUPLICATE_ROW" e) l
               ++ (if existsb (eqb_row (fit_columns row)) (fold_left seen_after pre [])
                   then [duplicate_row_error (len pre + 2)] else [])).
  { intros l. rewrite filter_app. f_equal.
    rewrite filter_filter, rows_errors_at, (duplicate_filter _ _ _ _ Hb).
    now replace (len pre + 1 + 1)%Z with (len pre + 2)%Z by lia. }
  rewrite Hf.
  assert (Hhead : filter (fun e => at_row (len pre + 2) e && has_code "DUPLICATE_ROW" e)
                    (if negb (eqb_row (normalized header) EXPECTED_COLUMNS)
                     then [header_mismatch header] else []) = []).
  { destruct (negb _); [|reflexivity]. cbn [filter].
    change (has_code "DUPLICATE_ROW" (header_mismatch header)) with false.
    now rewrite andb_false_r. }
  rewrite Hhead. cbn [app].
  split.
  - intros Hex.
    assert (Hin : In (fit_columns row) (fold_left seen_after pre [])).
    { apply seen_after_rows. now right. }
    apply existsb_eqb_row in Hin. now rewrite Hin.
  - intros Hno.
    destruct (existsb (eqb_row (fit_columns row)) (fold_left seen_after pre []))
      eqn:Hdup; [|reflexivity].
    apply existsb_eqb_row, seen_after_rows in Hdup.
    destruct Hdup as [[] | Hex]. contradiction.
Qed.

End ColumnsAndDuplicates.

(* ===================================================================== *)
(** ** The order of the output                                            *)
(* ===================================================================== *)

Section OutputOrder.
Context `{PyRuntime}.

Lemma StronglySorted_app {A : Type} (R : A -> A -> Prop) (l1 l2 : list A) :
  StronglySorted R l1 -> StronglySorted R l2 ->
  (forall a b, In a l1 -> In b l2 -> R a b) ->
  StronglySorted R (l1 ++ l2).
Proof.
  induction 1 as [|a l1 Hs IH Ha]; intros H2 Hcross; [exact H2|].
  cbn [app]. constructor.
  - apply IH; [exact H2|]. intros x y Hx Hy. apply Hcross; [now right | exact Hy].
  - apply Forall_app; split; [exact Ha|].
    rewrite Forall_forall. intros y Hy. apply Hcross; [now left | exact Hy].
Qed.

Lemma same_number_sorted (n : Z) (l : list ValidationError) :
  Forall (fun e => row_number e = n) l -> StronglySorted by_row_number l.
Proof.
  induction 1 as [|e l He Hl IH]; constructor; [exact IH|].
  eapply Forall_impl; [|exact Hl]. unfold by_row_number. cbv beta.
  intros e' He'. lia.
Qed.

Lemma rows_errors_sorted clk rows : forall seen idx,
  StronglySorted by_row_number (rows_errors clk seen idx rows).
Proof.
  induction rows as [|row rows IH]; intros seen idx; [constructor|].
  cbn [rows_errors]. apply StronglySorted_app; [|apply IH|].
  - apply (same_number_sorted (idx + 1)).
    eapply Forall_impl; [|apply row_errors_shape]. now intros e [He _].
  - intros a b Ha Hb.
    pose proof (row_errors_shape clk seen idx row) as Hrow.
    pose proof (rows_errors_numbers clk rows (seen_after seen row) (idx + 1)) as Hrest.
    rewrite Forall_forall in Hrow, Hrest.
    destruct (Hrow _ Ha) as [Hn _]. specialize (Hrest _ Hb). cbv beta in Hrest.
    unfold by_row_number. lia.
Qed.

(** X22. The errors come out in the order of the input: along the output
    the row numbers never decrease, so that the errors on the file or the
    header come first and the errors of one row stand together. *)
Theorem errors_in_row_order clk text errs :
  validate_csv_text clk text = Returned errs ->
  StronglySorted by_row_number errs.
Proof.
  rewrite validate_csv_text_unfold.
  destruct (Csv.reader text) as [[|header rows]|]; [| |discriminate];
    intros [= <-].
  - repeat constructor.
  - apply StronglySorted_app; [|apply rows_errors_sorted|].
    + destruct (negb _); repeat constructor.
    + intros a b Ha Hb.
      pose proof (rows_errors_numbers clk rows [] 1) as Hrest.
      rewrite Forall_forall in Hrest. specialize (Hrest _ Hb). cbv beta in Hrest.
      destruct (negb _); [|contradiction]. destruct Ha as [<- | []].
      unfold by_row_number. cbn [row_number header_mismatch]. lia.
Qed.

End OutputOrder.

(* ===================================================================== *)
(** ** The HTTP entry points                                              *)
(* ===================================================================== *)

Module ShimFacts.
Import Shim.

Section EntryPoints.
Context `{PyRuntime} `{Codecs}.

(** The EMPTY error of the validator is raised on the empty text only. *)
Lemma empty_error_only_on_empty_text clk text errs e :
  validate_csv_text clk text = Returned errs ->
  In e errs -> has_code "EMPTY" e = true -> text = [].
Proof.
  intros Hret He Hcode.
  destruct text as [|c text]; [reflexivity | exfalso].
  rewrite validate_csv_text_unfold in Hret.
  destruct (Csv.reader (c :: text)) as [[|header rows]|] eqn:Hread;
    [| |discriminate].
  - assert (Hne : c :: text <> []) by discriminate.
    now apply (CsvFacts.reader_nonempty _ _ Hne Hread).
  - injection Hret as <-. apply in_app_iff in He. destruct He as [He | He].
    + destruct (negb _); [|contradiction]. destruct He as [<- | []].
      discriminate.
    + pose proof (rows_errors_not_file_level clk rows [] 1) as Hall.
      rewrite Forall_forall in Hall. destruct (Hall _ He). congruence.
Qed.

Lemma extract_csv_extends req text :
  _extract_csv_from_request req = Ok text -> extract_csv req = Ok text.
Proof.
  unfold _extract_csv_from_request, extract_csv.
  destruct (get_json req) as [[| | | |l|data]|e]; try (intros Heq; exact Heq).
  - destruct (str_at data "csv"); [intros Heq; exact Heq|].
    destruct (str_at data "csv_base64"); [|intros Heq; exact Heq].
    now intros ->.
  - destruct (is_ValueError e); [intros Heq; exact Heq | discriminate].
Qed.

(** X18. The two functions that read the CSV text out of a request: when
    the one of [__init__.py] returns a text, the one of [function_app.py]
    returns the same text; and when the first raises where the second
    returns, either [get_json] raised something that is no [ValueError], or
    the request holds a [csv_base64] string, and no [csv] string, that does
    not decode, and the text returned is the decoded body. *)
Theorem extract_csv_agreement req :
  (forall text,
      _extract_csv_from_request req = Ok text -> extract_csv req = Ok text)
  /\ (forall ex text,
        _extract_csv_from_request req = Raise ex ->
        extract_csv req = Ok text ->
        decode_utf8_sig (body_of req) = Ok text
        /\ ((get_json req = Raise ex /\ is_ValueError ex = false)
            \/ exists data b64,
                 get_json req = Ok (JObject data)
                 /\ str_at data "csv" = None
                 /\ str_at data "csv_base64" = Some b64
                 /\ decode_base64_text b64 = Raise ex)).
Proof.
  split; [apply extract_csv_extends|].
  intros ex text. unfold _extract_csv_from_request, extract_csv.
  destruct (get_json req) as [[| | | |l|data]|e]; try congruence.
  - destruct (str_at data "csv") as [csv|] eqn:Hcsv; [discriminate|].
    destruct (str_at data "csv_base64") as [b64|] eqn:Hb64; [|congruence].
    destruct (decode_base64_text b64) as [t|e'] eqn:Hdec; [congruence|].
    intros [= ->] Hbody. split; [exact Hbody|].
    right. exists data, b64. repeat split; auto.
  - destruct (is_ValueError e) eqn:Hv; [congruence|].
    intros [= ->] Hbody. split; [exact Hbody | left; now split].
Qed.

(** X19. A request without content: when the text read from the request
    is blank or whitespace only, both entry points answer with the one
    EMPTY error "No CSV content provided in request." and do not run the
    validator, also on whitespace the CSV reader fails on; and no answer of
    [main] holds the EMPTY error of the validator, "File is empty.". *)
Theorem no_content_answer clk req :
  (forall text,
      _extract_csv_from_request req = Ok text ->
      forallb isspace text = true ->
      main clk req = Responded no_content_response
      /\ forall validator_validate_csv_text,
           validate_vtq validator_validate_csv_text req
           = Responded no_content_response)
  /\ (forall r valid n errs e,
        main clk req = Responded r ->
        body r = Validation valid n errs ->
        In e errs -> has_code "EMPTY" e = true ->
        e = no_content /\ errs = [no_content]).
Proof.
  split.
  - intros text Hext Hws. unfold main, validate_vtq.
    rewrite (extract_csv_extends _ _ Hext), Hext.
    now rewrite (strip_blank _ Hws).
  - intros r valid n errs e. unfold main.
    destruct (_extract_csv_from_request req) as [text|ex]; [|now intros [= <-]].
    destruct (eqb_str (strip text) []) eqn:Hblank.
    + intros [= <-] [= <- <- <-] [<- | []] _. now split.
    + destruct (validate_csv_text clk text) as [errors|] eqn:Hret; [|discriminate].
      intros [= <-] [= <- <- <-] He Hcode. exfalso.
      rewrite (empty_error_only_on_empty_text clk text errors e Hret He Hcode)
        in Hblank.
      discriminate.
Qed.

(** X20. What [main] answers: a validation answer has status 200, counts
    its errors and is valid exactly when it has none, the answer without
    content included; a bad-request answer has status 400 and is given
    exactly when reading the request raised, with the text of the
    exception in its message. *)
Theorem main_answer_shape clk req r :
  main clk req = Responded r ->
  match body r with
  | Validation valid n errs =>
      status_code r = 200%Z /\ n = len errs /\ (valid = true <-> errs = [])
      /\ exists text, _extract_csv_from_request req = Ok text
  | BadRequest message =>
      status_code r = 400%Z
      /\ exists ex, _extract_csv_from_request req = Raise ex
                    /\ message = lit "Could not read CSV from request: "
                                 ++ exc_text ex
  end.
Proof.
  unfold main.
  destruct (_extract_csv_from_request req) as [text|ex].
  - destruct (eqb_str (strip text) []).
    + intros [= <-]. cbn. repeat split; try discriminate. now exists text.
    + destruct (validate_csv_text clk text) as [errors|]; [|discriminate].
      intros [= <-]. cbn. repeat split; [| |now exists text].
      * unfold len. rewrite Z.eqb_eq. destruct errors; [reflexivity|].
        cbn [List.length]. lia.
      * intros ->. reflexivity.
  - intros [= <-]. cbn. split; [reflexivity|]. now exists ex.
Qed.

(** X21. With the validator of this development behind both, the two
    entry points give the same answer on every request from which
    [__init__.py] reads a text; and whatever its validator, [validate_vtq]
    never answers with a bad request: it answers with status 200 or lets
    the exception through. *)
Theorem entry_points_agree clk req :
  (forall text,
      _extract_csv_from_request req = Ok text ->
      validate_vtq (validate_csv_text clk) req = main clk req)
  /\ (forall validator_validate_csv_text r,
        validate_vtq validator_validate_csv_text req = Responded r ->
        status_code r = 200%Z /\ forall message, body r <> BadRequest message).
Proof.
  split.
  - intros text Hext. unfold main, validate_vtq.
    now rewrite (extract_csv_extends _ _ Hext), Hext.
  - intros v r. unfold validate_vtq.
    destruct (extract_csv req) as [text|ex]; [|discriminate].
    destruct (eqb_str (strip text) []);
      [intros [= <-]; split; [reflexivity | discriminate]|].
    destruct (v text); [|discriminate].
    intros [= <-]. split; [reflexivity | discriminate].
Qed.

End EntryPoints.

End ShimFacts.

(* ===================================================================== *)
(** ** The header and the rows after it                                   *)
(* ===================================================================== *)

Section HeaderAndRows.
Context `{PyRuntime}.

(** The errors of one column: those of [validate_field] no exclusion
    suppresses, each with the number of the row, the column and the cell. *)
Lemma field_errors_kept today row_dict record_type n f :
  field_errors today row_dict record_type n f
  = map (fun cm => mkError n f (fst cm) (snd cm) (raw row_dict f))
      (filter (fun cm => negb (is_permitted_exclusion f (raw row_dict f) (fst cm)))
         (validate_field today f (raw row_dict f) record_type)).
Proof.
  unfold field_errors. cbv zeta.
  induction (validate_field today f (raw row_dict f) record_type) as [|cm l IH];
    [reflexivity|].
  cbn [flat_map filter]. rewrite IH.
  now destruct (is_permitted_exclusion f (raw row_dict f) (fst cm)).
Qed.

Lemma seen_before pre x :
  existsb (eqb_row x) (fold_left seen_after pre [])
  = existsb (eqb_row x) (map fit_columns (filter (fun r => negb (blank_row r)) pre)).
Proof.
  apply eq_true_iff_eq. rewrite !existsb_eqb_row, seen_after_rows, in_map_iff.
  split.
  - intros [[] | (r & Hr & Hb & Hfit)]. exists r. split; [exact Hfit|].
    apply filter_In. split; [exact Hr | now rewrite Hb].
  - intros (r & Hfit & Hr). apply filter_In in Hr. destruct Hr as [Hr Hb].
    right. exists r. repeat split; auto. now apply negb_true_iff.
Qed.

(** C6. Every error the pipeline returns is numbered 1, and then is on
    [*FILE*] or [*HEADER*], or is numbered 2 or more. A header that differs
    from the expected columns gives one HEADER_MISMATCH error, numbered 1 on
    [*HEADER*] and first in the output, followed by the errors of the data
    rows, which are those the same rows get under a matching header. And
    the data rows are fully validated, whatever the header: the errors
    numbered as a data row are none when the row is blank, and otherwise
    the COLUMN_COUNT error when its cells are not 34, the DUPLICATE_ROW error
    when an earlier row that is not blank has the same 34 cells, for each of
    the 34 columns in turn the errors of [validate_field] on its cell that no
    exclusion suppresses, and the errors of [validate_record_level] on the
    row. *)
Theorem row_numbers_and_header clk text errs :
  validate_csv_text clk text = Returned errs ->
  (forall e, In e errs ->
     (row_number e = 1%Z /\ (field e = lit "*FILE*" \/ field e = lit "*HEADER*"))
     \/ (2 <= row_number e)%Z)
  /\ (forall header rows,
        Csv.reader text = Some (header :: rows) ->
        eqb_row (normalized header) EXPECTED_COLUMNS = false ->
        errs = header_mismatch header :: rows_errors clk [] 1 rows
        /\ row_number (header_mismatch header) = 1%Z
        /\ field (header_mismatch header) = lit "*HEADER*"
        /\ filter (has_code "HEADER_MISMATCH") errs = [header_mismatch header]
        /\ forall text' header',
             Csv.reader text' = Some (header' :: rows) ->
             eqb_row (normalized header') EXPECTED_COLUMNS = true ->
             validate_csv_text clk text' = Returned (rows_errors clk [] 1 rows))
  /\ (forall header pre row post,
        Csv.reader text = Some (header :: pre ++ row :: post) ->
        let n := (len pre + 2)%Z in
        let row_dict := combine EXPECTED_COLUMNS (fit_columns row) in
        filter (at_row n) errs
        = if blank_row row then []
          else
            (if (len row =? len EXPECTED_COLUMNS)%Z then []
             else [column_count_error n row])
            ++ (if existsb (eqb_row (fit_columns row))
                     (map fit_columns (filter (fun r => negb (blank_row r)) pre))
                then [duplicate_row_error n] else [])
            ++ flat_map
                 (fun f =>
                    map (fun cm => mkError n f (fst cm) (snd cm) (cell row f))
                      (filter
                         (fun cm =>
                            negb (is_permitted_exclusion f (cell row f) (fst cm)))
                         (validate_field (clk n IN_VALIDATE_FIELD) f (cell row f)
                            (record_type_of row))))
                 EXPECTED_COLUMNS
            ++ validate_record_level (clk n IN_VALIDATE_RECORD_LEVEL) row_dict n).
Proof.
  rewrite validate_csv_text_unfold. intros Hret. split; [|split].
  - destruct (Csv.reader text) as [[|header rows]|]; [| |discriminate];
      injection Hret as <-.
    + intros e [<- | []]. left. split; [reflexivity | now left].
    + intros e He. apply in_app_iff in He. destruct He as [He | He].
      * destruct (negb _); [|contradiction]. destruct He as [<- | []].
        left. split; [reflexivity | now right].
      * right. pose proof (rows_errors_numbers clk rows [] 1) as Hall.
        rewrite Forall_forall in Hall. specialize (Hall _ He). cbv beta in Hall.
        lia.
  - intros header rows Hread Hmis. rewrite Hread, Hmis in Hret.
    cbn [negb app] in Hret. injection Hret as <-.
    repeat split.
    + cbn [filter]. change (has_code "HEADER_MISMATCH" (header_mismatch header))
        with true. cbv iota. f_equal. apply filter_none.
      eapply Forall_impl; [|apply rows_errors_not_file_level]. now intros e [He _].
    + intros text' header' Hread' Hok.
      now rewrite validate_csv_text_unfold, Hread', Hok.
  - intros header pre row post Hread n row_dict. rewrite Hread in Hret.
    injection Hret as <-. rewrite filter_app.
    rewrite filter_none with (l := if negb _ then _ else _).
    2:{ apply Forall_if; forall_pieces. unfold at_row, n.
        cbn [row_number header_mismatch]. apply Z.eqb_neq. unfold len. lia. }
    cbn [app]. unfold n at 1. rewrite rows_errors_at.
    destruct (blank_row row) eqn:Hb; [now apply row_errors_blank|].
    rewrite (row_errors_nonblank _ _ _ _ Hb). cbv zeta.
    replace (len pre + 1 + 1)%Z with n by (unfold n; lia).
    rewrite seen_before. fold row_dict. unfold column_count_error, duplicate_row_error.
    f_equal; [now destruct (len row =? len EXPECTED_COLUMNS)%Z|].
    f_equal. f_equal. apply flat_map_ext. intros f.
    apply field_errors_kept.
Qed.

End HeaderAndRows.

(* ===================================================================== *)
(** ** One call after another                                             *)
(* ===================================================================== *)

Module HeapFacts.
Lemma update_at (h0 : Heap.heap) o t f :
  Heap.update (List.length h0) f (h0 ++ o :: t) = h0 ++ f o :: t.
Proof. induction h0 as [|x h0 IH]; cbn; [reflexivity | now rewrite IH]. Qed.

Lemma update_next (h0 : Heap.heap) o1 o2 t f :
  Heap.update (S (List.length h0)) f (h0 ++ o1 :: o2 :: t) = h0 ++ o1 :: f o2 :: t.
Proof.
  pose proof (update_at (h0 ++ [o1]) o2 t f) as Hu.
  rewrite length_app, <- !app_assoc in Hu. cbn [List.length app] in Hu.
  now rewrite Nat.add_1_r in Hu.
Qed.

Lemma deref_at (h0 : Heap.heap) o t : Heap.deref (h0 ++ o :: t) (List.length h0) = Some o.
Proof.
  unfold Heap.deref. rewrite nth_error_app2 by lia. now rewrite Nat.sub_diag.
Qed.

Lemma deref_next (h0 : Heap.heap) o1 o2 t :
  Heap.deref (h0 ++ o1 :: o2 :: t) (S (List.length h0)) = Some o2.
Proof.
  pose proof (deref_at (h0 ++ [o1]) o2 t) as Hd.
  rewrite length_app, <- !app_assoc in Hd. cbn [List.length app] in Hd.
  now rewrite Nat.add_1_r in Hd.
Qed.

(** An object of the heap a call started on is still there when the heap
    has grown. *)
Lemma deref_grown (h more : Heap.heap) r o :
  Heap.deref h r = Some o -> Heap.deref (h ++ more) r = Some o.
Proof.
  unfold Heap.deref. intros Hr. rewrite nth_error_app1; [exact Hr|].
  apply nth_error_Some. congruence.
Qed.

Lemma append_at (h0 : Heap.heap) items t e :
  Heap.append (List.length h0) e (h0 ++ Heap.list_of_errors items :: t)
  = h0 ++ Heap.list_of_errors (items ++ [e]) :: t.
Proof. unfold Heap.append. now rewrite update_at. Qed.

Section Calls.
Context `{PyRuntime}.

(** The loop over the errors of a field appends to [errors] what the
    exclusions let through, and touches nothing else. *)
Lemma for_code_fold (h0 : Heap.heap) n f v codes : forall items t,
  fold_left (Heap.for_code (List.length h0) n f v) codes
    (h0 ++ Heap.list_of_errors items :: t)
  = h0 ++ Heap.list_of_errors
            (items
             ++ flat_map (fun cm => if is_permitted_exclusion f v (fst cm) then []
                                    else [mkError n f (fst cm) (snd cm) v]) codes)
       :: t.
Proof.
  induction codes as [|cm codes IH]; intros items t; cbn [fold_left flat_map].
  - now rewrite app_nil_r.
  - unfold Heap.for_code at 2.
    destruct (is_permitted_exclusion f v (fst cm)).
    + now rewrite IH.
    + rewrite append_at, IH. now rewrite <- app_assoc.
Qed.

Lemma for_field_at (h0 : Heap.heap) today row_dict record_type n items t f :
  Heap.for_field today (List.length h0) row_dict record_type n
    (h0 ++ Heap.list_of_errors items :: t) f
  = h0 ++ Heap.list_of_errors (items ++ field_errors today row_dict record_type n f)
       :: t ++ [Heap.list_of_codes
                  (validate_field today f (raw row_dict f) record_type)].
Proof.
  unfold Heap.for_field, Heap.validate_field_list, Heap.alloc. cbv zeta.
  rewrite deref_at.
  rewrite <- app_assoc. cbn [app]. now rewrite for_code_fold.
Qed.

Lemma for_field_fold (h0 : Heap.heap) today row_dict record_type n cols :
  forall items t,
  exists more,
    fold_left (Heap.for_field today (List.length h0) row_dict record_type n) cols
      (h0 ++ Heap.list_of_errors items :: t)
    = h0 ++ Heap.list_of_errors
              (items ++ flat_map (field_errors today row_dict record_type n) cols)
         :: t ++ more.
Proof.
  induction cols as [|f cols IH]; intros items t; cbn [fold_left flat_map].
  - exists []. now rewrite !app_nil_r.
  - rewrite for_field_at. destruct (IH (items ++ field_errors today row_dict
                                          record_type n f)
                                      (t ++ [Heap.list_of_codes
                                               (validate_field today f
                                                  (raw row_dict f) record_type)]))
      as (more & ->).
    eexists. now rewrite <- !app_assoc.
Qed.

(** One turn of the loop on the heap does to [errors] and [seen_rows] what
    the turn of the loop on values does, and leaves the objects before
    them as they are. *)
Lemma loop_body_at (h0 : Heap.heap) clk st rest row :
  exists rest',
    Heap.loop_body clk (List.length h0) (S (List.length h0))
      (row_idx st,
       h0 ++ Heap.list_of_errors (errors st) :: Heap.set_of_rows (seen_rows st) :: rest) row
    = (row_idx (loop_body clk st row),
       h0 ++ Heap.list_of_errors (errors (loop_body clk st row))
          :: Heap.set_of_rows (seen_rows (loop_body clk st row)) :: rest').
Proof.
  unfold Heap.loop_body, loop_body. cbv zeta.
  destruct (negb (existsb (fun cell => negb (eqb_str (strip cell) [])) row)).
  - exists rest. reflexivity.
  - set (n := (row_idx st + 1)%Z).
    set (count := mkError n (lit "*ROW*") (lit "COLUMN_COUNT") _ []).
    set (dup := mkError n (lit "*ROW*") (lit "DUPLICATE_ROW") _ []).
    set (E1 := errors st ++ (if negb (len row =? len EXPECTED_COLUMNS)%Z
                             then [count] else [])).
    assert (H1 : (if negb (len row =? len EXPECTED_COLUMNS)%Z
                  then Heap.append (List.length h0) count
                         (h0 ++ Heap.list_of_errors (errors st)
                             :: Heap.set_of_rows (seen_rows st) :: rest)
                  else h0 ++ Heap.list_of_errors (errors st)
                          :: Heap.set_of_rows (seen_rows st) :: rest)
                 = h0 ++ Heap.list_of_errors E1 :: Heap.set_of_rows (seen_rows st) :: rest).
    { unfold E1. destruct (negb _); [apply append_at | now rewrite app_nil_r]. }
    rewrite H1. unfold Heap.contains. rewrite deref_next.
    set (row' := fit_columns row).
    set (E2 := if existsb (eqb_row row') (seen_rows st) then E1 ++ [dup] else E1).
    set (S2 := if existsb (eqb_row row') (seen_rows st) then seen_rows st
               else row' :: seen_rows st).
    assert (H2 : (if existsb (eqb_row row') (seen_rows st)
                  then Heap.append (List.length h0) dup
                         (h0 ++ Heap.list_of_errors E1 :: Heap.set_of_rows (seen_rows st) :: rest)
                  else Heap.add (S (List.length h0)) row'
                         (h0 ++ Heap.list_of_errors E1 :: Heap.set_of_rows (seen_rows st) :: rest))
                 = h0 ++ Heap.list_of_errors E2 :: Heap.set_of_rows S2 :: rest).
    { unfold E2, S2. destruct (existsb (eqb_row row') (seen_rows st)) eqn:Hdup.
      - apply append_at.
      - unfold Heap.add. rewrite update_next. now rewrite Hdup. }
    rewrite H2.
    destruct (for_field_fold h0 (clk n IN_VALIDATE_FIELD)
                (combine EXPECTED_COLUMNS row')
                (stripped (combine EXPECTED_COLUMNS row') "RecordType") n
                EXPECTED_COLUMNS E2 (Heap.set_of_rows S2 :: rest)) as (more & ->).
    unfold Heap.validate_record_level_list, Heap.alloc, Heap.extend.
    match goal with
    | |- context [Heap.deref (?h ++ [?o]) (List.length ?h)] =>
        pose proof (deref_at h o []) as Hd
    end.
    rewrite Hd. rewrite <- app_assoc. cbn [app]. rewrite update_at.
    eexists. cbn [row_idx errors seen_rows]. reflexivity.
Qed.

Lemma loop_at (h0 : Heap.heap) clk rows : forall st rest,
  exists rest',
    fold_left (Heap.loop_body clk (List.length h0) (S (List.length h0))) rows
      (row_idx st,
       h0 ++ Heap.list_of_errors (errors st) :: Heap.set_of_rows (seen_rows st) :: rest)
    = (row_idx (fold_left (loop_body clk) rows st),
       h0 ++ Heap.list_of_errors (errors (fold_left (loop_body clk) rows st))
          :: Heap.set_of_rows (seen_rows (fold_left (loop_body clk) rows st)) :: rest').
Proof.
  induction rows as [|row rows IH]; intros st rest; cbn [fold_left].
  - now exists rest.
  - destruct (loop_body_at h0 clk st rest row) as (rest1 & ->). apply IH.
Qed.

(** A call on the heap [h]: its list of errors is a new object, placed
    after the objects of [h], which are all left as they were; it holds the
    errors the validator returns. *)
Lemma call_on_heap clk text (h : Heap.heap) :
  match validate_csv_text clk text with
  | Returned errs =>
      exists rest,
        Heap.validate_csv_text clk text h
        = (Heap.Returns (List.length h), h ++ Heap.list_of_errors errs :: rest)
  | Raised_csv_Error =>
      exists rest,
        Heap.validate_csv_text clk text h = (Heap.Raises_csv_Error, h ++ rest)
  end.
Proof.
  unfold validate_csv_text, validate_csv_stream, Heap.validate_csv_text,
    Heap.validate_csv_stream, Heap.alloc.
  destruct (Csv.reader text) as [[|header rows]|].
  - exists []. now rewrite (append_at h [] []).
  - cbv zeta.
    set (hd := map (fun cell => strip (strip_chars (BOM :: lit " ") cell)) header).
    set (mismatch := mkError 1 (lit "*HEADER*") (lit "HEADER_MISMATCH") _ []).
    set (start := if negb (eqb_row hd EXPECTED_COLUMNS) then [mismatch] else []).
    assert (Hs : (if negb (eqb_row hd EXPECTED_COLUMNS)
                  then Heap.append (List.length h) mismatch (h ++ [Heap.list_of_errors []])
                  else h ++ [Heap.list_of_errors []])
                 = h ++ [Heap.list_of_errors start]).
    { unfold start. destruct (negb _); [apply (append_at h [] [])|reflexivity]. }
    rewrite Hs.
    replace (List.length (h ++ [Heap.list_of_errors start])) with (S (List.length h))
      by (rewrite length_app; cbn [List.length]; lia).
    rewrite <- app_assoc. cbn [app].
    destruct (loop_at h clk rows (mkLoop start [] 1) []) as (rest & Hloop).
    cbn [row_idx errors seen_rows] in Hloop. apply (f_equal snd) in Hloop.
    cbn [snd] in Hloop. eexists. f_equal. exact Hloop.
  - exists [Heap.list_of_errors []]. reflexivity.
Qed.

(** The clock is read for a row only as [reads_clock] says. *)
Lemma row_errors_readings clk1 clk2 seen idx row :
  (forall c, reads_clock row c = true -> clk1 (idx + 1)%Z c = clk2 (idx + 1)%Z c) ->
  row_errors clk1 seen idx row = row_errors clk2 seen idx row.
Proof.
  intros Hsame. unfold reads_clock in Hsame.
  destruct (blank_row row) eqn:Hb.
  - now rewrite !(row_errors_blank _ _ _ _ Hb).
  - cbn [negb andb] in Hsame.
    rewrite !(row_errors_nonblank _ _ _ _ Hb). cbv zeta.
    set (row_dict := combine EXPECTED_COLUMNS (fit_columns row)).
    assert (Hfields :
              flat_map (field_errors (clk1 (idx + 1)%Z IN_VALIDATE_FIELD) row_dict
                          (stripped row_dict "RecordType") (idx + 1))
                       EXPECTED_COLUMNS
              = flat_map (field_errors (clk2 (idx + 1)%Z IN_VALIDATE_FIELD) row_dict
                            (stripped row_dict "RecordType") (idx + 1))
                         EXPECTED_COLUMNS).
    { apply flat_map_ext. intros g. unfold field_errors.
      destruct (fst (parse_date (cell row (lit "DOB")))) as [dt|] eqn:Hdob.
      - now rewrite (Hsame IN_VALIDATE_FIELD eq_refl).
      - rewrite (validate_field_clock (clk1 (idx + 1)%Z IN_VALIDATE_FIELD)
                   (clk2 (idx + 1)%Z IN_VALIDATE_FIELD)); [reflexivity|].
        destruct (eqb_str g (lit "DOB")) eqn:Hg.
        + apply eqb_str_eq in Hg. subst g. right. exact Hdob.
        + left. now apply eqb_str_neq. }
    assert (Hrecord :
              validate_record_level (clk1 (idx + 1)%Z IN_VALIDATE_RECORD_LEVEL)
                row_dict (idx + 1)
              = validate_record_level (clk2 (idx + 1)%Z IN_VALIDATE_RECORD_LEVEL)
                  row_dict (idx + 1)).
    { destruct (result_row row) eqn:Hres.
      - now rewrite (Hsame IN_VALIDATE_RECORD_LEVEL eq_refl).
      - now apply validate_record_level_clock. }
    now rewrite Hfields, Hrecord.
Qed.

Lemma rows_errors_readings clk1 clk2 rows : forall seen idx,
  (forall i row c,
      nth_error rows i = Some row -> reads_clock row c = true ->
      clk1 (idx + Z.of_nat i + 1)%Z c = clk2 (idx + Z.of_nat i + 1)%Z c) ->
  rows_errors clk1 seen idx rows = rows_errors clk2 seen idx rows.
Proof.
  induction rows as [|row rows IH]; intros seen idx Hsame; [reflexivity|].
  cbn [rows_errors]. f_equal.
  - apply row_errors_readings. intros c Hc.
    specialize (Hsame 0%nat row c eq_refl Hc).
    now rewrite Z.add_0_r in Hsame.
  - apply IH. intros i r c Hnth Hc.
    specialize (Hsame (S i) r c Hnth Hc).
    replace (idx + 1 + Z.of_nat i + 1)%Z with (idx + Z.of_nat (S i) + 1)%Z by lia.
    exact Hsame.
Qed.

Lemma validate_csv_text_readings clk1 clk2 text :
  (forall header rows i row c,
      Csv.reader text = Some (header :: rows) ->
      nth_error rows i = Some row -> reads_clock row c = true ->
      clk1 (Z.of_nat i + 2)%Z c = clk2 (Z.of_nat i + 2)%Z c) ->
  validate_csv_text clk1 text = validate_csv_text clk2 text.
Proof.
  intros Hsame. rewrite !validate_csv_text_unfold.
  destruct (Csv.reader text) as [[|header rows]|] eqn:Hread; try reflexivity.
  rewrite (rows_errors_readings clk1 clk2 rows [] 1); [reflexivity|].
  intros i row c Hnth Hc.
  replace (1 + Z.of_nat i + 1)%Z with (Z.of_nat i + 2)%Z by lia.
  exact (Hsame header rows i row c eq_refl Hnth Hc).
Qed.

(** C8. Two invocations on the same text, one after the other, on whatever
    heap the first one finds, with [date.today()] giving the second the day
    it gave the first wherever the code asks for it: both return, or both
    raise [csv.Error]. When they return, the two lists are two objects and
    hold the same errors, those of the validator as a function of the text
    and the clock; the list of the first invocation is after the second
    what it was before it; and every object that was on the heap before the
    first invocation is unchanged after the second: nothing an invocation
    leaves behind reaches the next one. *)
Theorem validate_csv_text_deterministic clk1 clk2 text (h : Heap.heap) :
  (forall header rows i row c,
      Csv.reader text = Some (header :: rows) ->
      nth_error rows i = Some row -> reads_clock row c = true ->
      clk1 (Z.of_nat i + 2)%Z c = clk2 (Z.of_nat i + 2)%Z c) ->
  let (first, h1) := Heap.validate_csv_text clk1 text h in
  let (second, h2) := Heap.validate_csv_text clk2 text h1 in
  (forall r o, Heap.deref h r = Some o -> Heap.deref h2 r = Some o)
  /\ match first, second with
     | Heap.Returns r1, Heap.Returns r2 =>
         r1 <> r2
         /\ exists errs,
              validate_csv_text clk1 text = Returned errs
              /\ validate_csv_text clk2 text = Returned errs
              /\ Heap.deref h1 r1 = Some (Heap.list_of_errors errs)
              /\ Heap.deref h2 r1 = Some (Heap.list_of_errors errs)
              /\ Heap.deref h2 r2 = Some (Heap.list_of_errors errs)
     | Heap.Raises_csv_Error, Heap.Raises_csv_Error =>
         validate_csv_text clk1 text = Raised_csv_Error
         /\ validate_csv_text clk2 text = Raised_csv_Error
     | _, _ => False
     end.
Proof.
  intros Hsame. apply validate_csv_text_readings in Hsame.
  pose proof (call_on_heap clk1 text h) as Hfirst.
  destruct (validate_csv_text clk1 text) as [errs|] eqn:Hret1.
  - destruct Hfirst as (rest1 & ->).
    pose proof (call_on_heap clk2 text (h ++ Heap.list_of_errors errs :: rest1))
      as Hsecond.
    rewrite <- Hsame in Hsecond. destruct Hsecond as (rest2 & ->).
    split.
    + intros r o Hr. rewrite <- app_assoc. now apply deref_grown.
    + split.
      * rewrite length_app. cbn [List.length]. lia.
      * exists errs. split; [reflexivity|].
        split; [now rewrite <- Hsame|].
        split; [apply deref_at|].
        split; [|apply deref_at].
        rewrite <- app_assoc. cbn [app]. apply deref_at.
  - destruct Hfirst as (rest1 & ->).
    pose proof (call_on_heap clk2 text (h ++ rest1)) as Hsecond.
    rewrite <- Hsame in Hsecond. destruct Hsecond as (rest2 & ->).
    split; [|split; [reflexivity | now rewrite <- Hsame]].
    intros r o Hr. rewrite <- app_assoc. now apply deref_grown.
Qed.

End Calls.

End HeapFacts.

(* ===================================================================== *)
(** ** Worked examples of the further properties                          *)
(* ===================================================================== *)

Lemma field_table_covers_columns_witness :
  (exists spec, dict_get (@FIELD_SPECS example_runtime) (lit "Sex") = Some spec
                /\ FieldSpec.name spec = lit "Sex")
  /\ @validate_field example_runtime example_today (lit "Gender") (lit "M")
       (lit "Entry") = [].
Proof.
  split.
  - apply (proj1 (@field_table_covers_columns example_runtime example_today
                    (lit "Sex") [] [])).
    apply (nth_error_In _ 8). reflexivity.
  - apply (proj2 (@field_table_covers_columns example_runtime example_today
                    (lit "Gender") (lit "M") (lit "Entry"))).
    intros Hin. vm_compute in Hin.
    repeat (destruct Hin as [Hin | Hin]; [discriminate|]). exact Hin.
Defined.

Lemma blank_sex_tolerated_witness :
  exists errs,
    @validate_csv_text example_runtime (fixed_clock example_today)
      (submission [ENTRY_ROW_ODD]) = Returned errs
    /\ filter (fun e => at_row 2 e && on_field (lit "Sex") e) errs = [].
Proof.
  edestruct (@blank_sex_tolerated example_runtime (fixed_clock example_today)
               (submission [ENTRY_ROW_ODD])) with (i := 0%nat)
    as (_ & errs & Hret & Hfilter).
  - vm_compute. reflexivity.
  - reflexivity.
  - vm_compute. reflexivity.
  - vm_compute. reflexivity.
  - exists errs. split; [exact Hret | exact Hfilter].
Defined.

Lemma blank_mandatory_field_witness :
  exists errs,
    @validate_csv_text example_runtime (fixed_clock example_today)
      (submission [ENTRY_ROW_ODD]) = Returned errs
    /\ filter (fun e => at_row 2 e && on_field (lit "Surname") e) errs
       = [missing_field_error 2 (lit "Surname") (lit " ")].
Proof.
  edestruct (@blank_mandatory_field example_runtime (fixed_clock example_today)
               (submission [ENTRY_ROW_ODD])) with (i := 0%nat) (f := lit "Surname")
    as (errs & Hret & Hfilter).
  - vm_compute. reflexivity.
  - reflexivity.
  - vm_compute. reflexivity.
  - vm_compute. reflexivity.
  - reflexivity.
  - vm_compute. discriminate.
  - vm_compute. reflexivity.
  - exists errs. split; [exact Hret | exact Hfilter].
Defined.

Lemma unit_qualification_number_witness :
  exists errs,
    @validate_csv_text example_runtime (fixed_clock example_today)
      (submission [ENTRY_ROW_ODD]) = Returned errs
    /\ filter (fun e => at_row 2 e && on_field (lit "QualificationNumber") e)
              errs = [].
Proof.
  edestruct (@unit_qualification_number example_runtime
               (fixed_clock example_today) (submission [ENTRY_ROW_ODD]))
    with (i := 0%nat) as (errs & Hret & Hfilter).
  - vm_compute. reflexivity.
  - reflexivity.
  - vm_compute. reflexivity.
  - exists errs. split; [exact Hret | exact Hfilter].
Defined.

Lemma unparsable_date_field_witness :
  exists errs,
    @validate_csv_text example_runtime (fixed_clock example_today)
      (submission [ENTRY_ROW_ODD]) = Returned errs
    /\ filter (fun e => at_row 2 e && on_field (lit "RegistrationDate") e
                        && has_code "DATE_FORMAT" e) errs
       = [@date_format_error example_runtime 2 (lit "RegistrationDate")
            (lit "2024-13-01")].
Proof.
  edestruct (@unparsable_date_field example_runtime (fixed_clock example_today)
               (submission [ENTRY_ROW_ODD])) with (i := 0%nat)
               (f := lit "RegistrationDate")
    as (_ & errs & Hret & Hfilter).
  - vm_compute. reflexivity.
  - reflexivity.
  - apply (nth_error_In _ 1). reflexivity.
  - vm_compute. discriminate.
  - vm_compute. reflexivity.
  - exists errs. split; [exact Hret | exact Hfilter].
Defined.

Lemma sentinel_accepted_on_date_fields_witness :
  exists errs,
    @validate_csv_text example_runtime (fixed_clock example_today)
      (submission [ENTRY_ROW_ODD]) = Returned errs
    /\ filter (fun e => at_row 2 e && on_field (lit "DOB") e) errs = [].
Proof.
  edestruct (@sentinel_accepted_on_date_fields example_runtime
               (fixed_clock example_today) (submission [ENTRY_ROW_ODD]))
    with (i := 0%nat) as (_ & errs & Hret & Hfilter).
  - vm_compute. reflexivity.
  - reflexivity.
  - vm_compute. reflexivity.
  - exists errs. split; [exact Hret | exact Hfilter].
Defined.

Lemma outcome_without_clock_witness :
  @validate_csv_text example_runtime (fixed_clock example_today)
    (submission [ENTRY_ROW_ODD; ENTRY_ROW_NO_DOB])
  = @validate_csv_text example_runtime (fixed_clock (Datetime.mkdate 1990 1 1))
      (submission [ENTRY_ROW_ODD; ENTRY_ROW_NO_DOB]).
Proof.
  apply outcome_without_clock. intros header rows Hread.
  vm_compute in Hread. injection Hread as <- <-. vm_compute. reflexivity.
Defined.

Lemma group_rule_in_output_witness :
  exists errs,
    @validate_csv_text example_runtime (fixed_clock example_today)
      (submission [DELETION_ROW]) = Returned errs
    /\ filter (fun e => at_row 2 e && has_code "GROUP_RULE" e) errs
       = [group_rule_error 2].
Proof.
  edestruct (@group_rule_in_output example_runtime (fixed_clock example_today)
               (submission [DELETION_ROW])) with (i := 0%nat)
    as (errs & Hret & Hfilter).
  - vm_compute. reflexivity.
  - reflexivity.
  - vm_compute. reflexivity.
  - exists errs. split; [exact Hret | exact Hfilter].
Defined.

Lemma result_rule_in_output_witness :
  exists errs,
    @validate_csv_text example_runtime (fixed_clock example_today)
      (submission [RESULT_ROW_ODD]) = Returned errs
    /\ filter (fun e => at_row 2 e && has_code "RESULT_RULE" e) errs
       = [result_grade_error 2 (lit "-2")].
Proof.
  edestruct (@result_rule_in_output example_runtime (fixed_clock example_today)
               (submission [RESULT_ROW_ODD])) with (i := 0%nat)
    as (errs & Hret & Hfilter).
  - vm_compute. reflexivity.
  - reflexivity.
  - vm_compute. reflexivity.
  - exists errs. split; [exact Hret | exact Hfilter].
Defined.

Lemma entry_rule_in_output_witness :
  exists errs,
    @validate_csv_text example_runtime (fixed_clock example_today)
      (submission [ENTRY_ROW_WITH_GRADE]) = Returned errs
    /\ filter (fun e => at_row 2 e && has_code "ENTRY_RULE" e) errs
       = [entry_grade_error 2 (lit "ABC")].
Proof.
  edestruct (@entry_rule_in_output example_runtime (fixed_clock example_today)
               (submission [ENTRY_ROW_WITH_GRADE])) with (i := 0%nat)
    as (errs & Hret & Hfilter).
  - vm_compute. reflexivity.
  - reflexivity.
  - vm_compute. reflexivity.
  - exists errs. split; [exact Hret | exact Hfilter].
Defined.

Lemma sentinel_not_allowed_in_output_witness :
  exists errs,
    @validate_csv_text example_runtime (fixed_clock example_today)
      (submission [RESULT_ROW_ODD]) = Returned errs
    /\ filter (fun e => at_row 2 e && has_code "SENTINEL_NOT_ALLOWED" e) errs
       = [sentinel_not_allowed_error 2 (lit "FirstEntryDate") (lit "2999-12-31")].
Proof.
  edestruct (@sentinel_not_allowed_in_output example_runtime
               (fixed_clock example_today) (submission [RESULT_ROW_ODD]))
    with (i := 0%nat) as (errs & Hret & Hfilter).
  - vm_compute. reflexivity.
  - reflexivity.
  - vm_compute. reflexivity.
  - exists errs. split; [exact Hret | exact Hfilter].
Defined.

Lemma date_future_in_output_witness :
  exists errs,
    @validate_csv_text example_runtime (fixed_clock example_today)
      (submission [RESULT_ROW_FUTURE]) = Returned errs
    /\ filter (fun e => at_row 2 e && has_code "DATE_FUTURE" e) errs
       = [date_future_error 2 (lit "AwardDate") (lit "2027-01-01")].
Proof.
  edestruct (@date_future_in_output example_runtime (fixed_clock example_today)
               (submission [RESULT_ROW_FUTURE])) with (i := 0%nat)
    as (errs & Hret & Hfilter).
  - vm_compute. reflexivity.
  - reflexivity.
  - vm_compute. reflexivity.
  - exists errs. split; [exact Hret | exact Hfilter].
Defined.

Lemma other_record_types_in_output_witness :
  exists errs,
    @validate_csv_text example_runtime (fixed_clock example_today)
      (submission [DELETION_ROW]) = Returned errs
    /\ filter (fun e => at_row 2 e
                        && mem_str (error_code e) RECORD_ONLY_CODES) errs
       = [group_rule_error 2].
Proof.
  edestruct (@other_record_types_in_output example_runtime
               (fixed_clock example_today) (submission [DELETION_ROW]))
    with (i := 0%nat) as (errs & Hret & Hfilter).
  - vm_compute. reflexivity.
  - reflexivity.
  - vm_compute. reflexivity.
  - vm_compute. reflexivity.
  - vm_compute. discriminate.
  - exists errs. split; [exact Hret | exact Hfilter].
Defined.

Lemma conditional_missing_in_output_witness :
  exists errs,
    @validate_csv_text example_runtime (fixed_clock example_today)
      (submission [RESULT_ROW_ODD]) = Returned errs
    /\ filter (fun e => at_row 2 e && on_field (lit "AwardDate") e
                        && has_code "MISSING" e) errs
       = [conditional_missing_error 2 (lit "AwardDate") (lit "Result") []].
Proof.
  edestruct (@conditional_missing_in_output example_runtime
               (fixed_clock example_today) (submission [RESULT_ROW_ODD]))
    with (i := 0%nat) (f := lit "AwardDate") as (errs & Hret & Hfilter).
  - vm_compute. reflexivity.
  - reflexivity.
  - vm_compute. reflexivity.
  - apply (nth_error_In _ 1). reflexivity.
  - exists errs. split; [exact Hret | exact Hfilter].
Defined.

Lemma padded_header_accepted_witness :
  @validate_csv_text example_runtime (fixed_clock example_today)
    (BOM :: lit " " ++ submission [ENTRY_ROW])
  = Returned (@rows_errors example_runtime (fixed_clock example_today) [] 1
                [cells_of ENTRY_ROW])
  /\ filter (has_code "HEADER_MISMATCH")
       (@rows_errors example_runtime (fixed_clock example_today) [] 1
          [cells_of ENTRY_ROW]) = [].
Proof.
  eapply (@padded_header_accepted example_runtime).
  - vm_compute. reflexivity.
  - constructor.
    + exists (BOM :: lit " "), []. repeat split.
    + repeat (constructor; [exists [], []; repeat split|]). constructor.
Defined.

Lemma column_count_in_output_witness :
  exists errs seen,
    @validate_csv_text example_runtime (fixed_clock example_today)
      (submission [SHORT_ROW]) = Returned errs
    /\ filter (at_row 2) errs
       = column_count_error 2 (cells_of SHORT_ROW)
         :: @row_errors example_runtime (fixed_clock example_today) seen 1
              (fit_columns (cells_of SHORT_ROW)).
Proof.
  edestruct (@column_count_in_output example_runtime (fixed_clock example_today)
               (submission [SHORT_ROW])) with (i := 0%nat)
    as (errs & seen & Hret & Hfilter).
  - vm_compute. reflexivity.
  - reflexivity.
  - vm_compute. reflexivity.
  - exists errs, seen. split; [exact Hret | exact Hfilter].
Defined.

Lemma duplicate_row_in_output_witness :
  exists errs,
    @validate_csv_text example_runtime (fixed_clock example_today)
      (submission [ENTRY_ROW; ENTRY_ROW]) = Returned errs
    /\ filter (fun e => at_row 3 e && has_code "DUPLICATE_ROW" e) errs
       = [duplicate_row_error 3].
Proof.
  destruct (@duplicate_row_in_output example_runtime (fixed_clock example_today)
              (submission [ENTRY_ROW; ENTRY_ROW])
              EXPECTED_COLUMNS [cells_of ENTRY_ROW]
              (cells_of ENTRY_ROW) [])
    as (errs & Hret & Hdup & _).
  - vm_compute. reflexivity.
  - vm_compute. reflexivity.
  - exists errs. split; [exact Hret|]. apply Hdup.
    exists (cells_of ENTRY_ROW). repeat split. now left.
Defined.

Lemma extract_csv_agreement_witness :
  @Shim.extract_csv example_codecs (csv_request (lit "a,b")) = Shim.Ok (lit "a,b")
  /\ @Shim.decode_utf8_sig example_codecs (Shim.body_of (base64_request (lit "!") [x61; x2c; x62]))
     = Shim.Ok (lit "a,b").
Proof.
  split.
  - apply (proj1 (@ShimFacts.extract_csv_agreement example_codecs
                    (csv_request (lit "a,b")))).
    reflexivity.
  - apply (proj2 (@ShimFacts.extract_csv_agreement example_codecs
                    (base64_request (lit "!") [x61; x2c; x62]))
             (Shim.mkException true (lit "Incorrect padding")));
      reflexivity.
Defined.

Lemma no_content_answer_witness :
  @Shim.main example_runtime example_codecs (fixed_clock example_today)
    (csv_request [Csv.CR; 32%N]) = Shim.Responded no_content_response
  /\ (Shim.no_content = Shim.no_content
      /\ [Shim.no_content] = [Shim.no_content]).
Proof.
  split.
  - apply (proj1 (@ShimFacts.no_content_answer example_runtime example_codecs
                    (fixed_clock example_today) (csv_request [Csv.CR; 32%N]))
             [Csv.CR; 32%N]); reflexivity.
  - apply (proj2 (@ShimFacts.no_content_answer example_runtime example_codecs
                    (fixed_clock example_today) (csv_request []))
             no_content_response false 1%Z [Shim.no_content] Shim.no_content);
      try reflexivity.
    now left.
Defined.

Lemma main_answer_shape_witness :
  (200 = 200
   /\ 0 = len (@nil ValidationError)
   /\ (true = true <-> @nil ValidationError = [])
   /\ exists text,
        @Shim._extract_csv_from_request example_codecs
          (csv_request (submission [ENTRY_ROW])) = Shim.Ok text)%Z.
Proof.
  assert (Hmain : @Shim.main example_runtime example_codecs
                    (fixed_clock example_today)
                    (csv_request (submission [ENTRY_ROW]))
                  = Shim.Responded
                      (Shim.mkResponse (Shim.Validation true 0 []) 200))
    by (vm_compute; reflexivity).
  exact (@ShimFacts.main_answer_shape example_runtime example_codecs _ _ _ Hmain).
Defined.

Lemma entry_points_agree_witness :
  @Shim.validate_vtq example_codecs
    (@validate_csv_text example_runtime (fixed_clock example_today))
    (csv_request (submission [RESULT_ROW]))
  = @Shim.main example_runtime example_codecs (fixed_clock example_today)
      (csv_request (submission [RESULT_ROW])).
Proof.
  apply (proj1 (@ShimFacts.entry_points_agree example_runtime example_codecs
                  (fixed_clock example_today)
                  (csv_request (submission [RESULT_ROW])))
           (submission [RESULT_ROW])).
  reflexivity.
Defined.

Lemma errors_in_row_order_witness :
  exists errs,
    @validate_csv_text example_runtime (fixed_clock example_today)
      (submission [RESULT_ROW_ODD; SHORT_ROW; RESULT_ROW_FUTURE]) = Returned errs
    /\ StronglySorted by_row_number errs.
Proof.
  destruct (@validate_csv_text example_runtime (fixed_clock example_today)
              (submission [RESULT_ROW_ODD; SHORT_ROW; RESULT_ROW_FUTURE]))
    as [errs|] eqn:Hret.
  - exists errs. split; [reflexivity|].
    exact (@errors_in_row_order example_runtime _ _ errs Hret).
  - vm_compute in Hret. discriminate.
Defined.

Lemma row_numbers_and_header_witness :
  exists errs,
    @validate_csv_text example_runtime (fixed_clock example_today)
      (headless [ENTRY_ROW_WITH_GRADE]) = Returned errs
    /\ filter (has_code "HEADER_MISMATCH") errs
       = [@header_mismatch example_runtime [lit "RecordType"]]
    /\ filter (at_row 2) errs = [entry_grade_error 2 (lit "ABC")].
Proof.
  destruct (@validate_csv_text example_runtime (fixed_clock example_today)
              (headless [ENTRY_ROW_WITH_GRADE])) as [errs|] eqn:Hret;
    [|vm_compute in Hret; discriminate].
  destruct (@row_numbers_and_header example_runtime _ _ _ Hret)
    as (_ & Hheader & Hrows).
  assert (Hread : Csv.reader (headless [ENTRY_ROW_WITH_GRADE])
                  = Some ([lit "RecordType"]
                          :: [] ++ cells_of ENTRY_ROW_WITH_GRADE :: []))
    by (vm_compute; reflexivity).
  assert (Hmis : eqb_row (@normalized [lit "RecordType"]) EXPECTED_COLUMNS = false)
    by (vm_compute; reflexivity).
  destruct (Hheader _ _ Hread Hmis) as (_ & _ & _ & Hfilter & _).
  pose proof (Hrows _ _ _ _ Hread) as Hrow. cbv zeta in Hrow.
  exists errs. split; [reflexivity|]. split; [exact Hfilter|].
  change (filter (at_row (len (@nil (list str)) + 2)) errs
          = [entry_grade_error 2 (lit "ABC")]).
  rewrite Hrow. vm_compute. reflexivity.
Defined.

Lemma validate_csv_text_deterministic_witness :
  exists r1 h1 r2 h2 errs,
    @Heap.validate_csv_text example_runtime (fixed_clock example_today)
      (submission [ENTRY_ROW_NO_DOB; RESULT_ROW]) used_heap = (Heap.Returns r1, h1)
    /\ @Heap.validate_csv_text example_runtime odd_clock
         (submission [ENTRY_ROW_NO_DOB; RESULT_ROW]) h1 = (Heap.Returns r2, h2)
    /\ r1 <> r2
    /\ Heap.deref h2 r1 = Some (Heap.list_of_errors errs)
    /\ Heap.deref h2 r2 = Some (Heap.list_of_errors errs)
    /\ Heap.deref h2 0%nat = Some (Heap.set_of_rows [cells_of ENTRY_ROW_NO_DOB]).
Proof.
  assert (Hsame : forall header rows i row c,
             Csv.reader (submission [ENTRY_ROW_NO_DOB; RESULT_ROW])
             = Some (header :: rows) ->
             nth_error rows i = Some row ->
             @reads_clock example_runtime row c = true ->
             fixed_clock example_today (Z.of_nat i + 2)%Z c
             = odd_clock (Z.of_nat i + 2)%Z c).
  { intros header rows i row c Hread Hnth Hc. vm_compute in Hread.
    injection Hread as Hheader Hrows. subst header rows.
    destruct i as [|[|i]]; cbn [nth_error] in Hnth.
    - injection Hnth as Hrow. subst row. destruct c; vm_compute in Hc; discriminate.
    - reflexivity.
    - destruct i; discriminate Hnth. }
  assert (Hreturns : @validate_csv_text example_runtime (fixed_clock example_today)
                       (submission [ENTRY_ROW_NO_DOB; RESULT_ROW])
                     <> Raised_csv_Error)
    by (vm_compute; discriminate).
  generalize (@HeapFacts.validate_csv_text_deterministic example_runtime
                (fixed_clock example_today) odd_clock
                (submission [ENTRY_ROW_NO_DOB; RESULT_ROW]) used_heap Hsame).
  destruct (@Heap.validate_csv_text example_runtime (fixed_clock example_today)
              (submission [ENTRY_ROW_NO_DOB; RESULT_ROW]) used_heap)
    as [[r1|] h1] eqn:Hfirst.
  - destruct (@Heap.validate_csv_text example_runtime odd_clock
                (submission [ENTRY_ROW_NO_DOB; RESULT_ROW]) h1)
      as [[r2|] h2] eqn:Hsecond.
    + intros (Hframe & Hneq & errs & _ & _ & _ & Hr1 & Hr2).
      exists r1, h1, r2, h2, errs.
      split; [reflexivity|]. split; [exact Hsecond|]. split; [exact Hneq|].
      split; [exact Hr1|]. split; [exact Hr2|].
      apply Hframe. reflexivity.
    + intros [_ []].
  - destruct (@Heap.validate_csv_text example_runtime odd_clock
                (submission [ENTRY_ROW_NO_DOB; RESULT_ROW]) h1) as [[r2|] h2].
    + intros [_ []].
    + intros (_ & Hraised & _). exfalso. exact (Hreturns Hraised).
Defined.
